(** * dlite-entities-service: identity codec, SOFT entity resolver and backend base class

    A shallow embedding of
    - [dlite_entities_service/models/__init__.py]  ([URI_REGEX], [soft_entity],
      [get_uri], [get_version], [get_updated_version]),
    - [dlite_entities_service/models/soft5.py]     ([SOFT5Dimension],
      [SOFT5Property], [SOFT5Entity] and its validators),
    - [dlite_entities_service/service/backend/backend.py] ([Backend]),
    - [dlite_entities_service/config.py]           ([ServiceSettings]),
    - [dlite_entities_service/main.py]             ([get_entity],
      [create_entity], [create_entities]),
    - [dlite_entities_service/cli/config.py]       ([ConfigFields], [show]),
    - [.github/utils/docker_test.py]               ([_get_version_name],
      [_get_uri]),
    followed by the properties of the specification that concern them
    and by further properties of the code.

    Python strings are modelled as [string]: a string of ASCII
    characters is the string of its characters.  Where a function goes
    by the tables of Unicode for a character beyond ASCII, as [int()],
    [str.upper] and [str.lower] do, what it does there is a parameter
    ([int_beyond_ASCII], [Console]).  Python integers are modelled as
    [Z], with the limit the interpreter puts on the digits of [int()]
    and [str()]; dictionaries with string keys as [gmap string _],
    [None]-able attributes as [option], and raised exceptions as the
    [Raise] branch of [outcome]. *)

From Stdlib Require Import ZArith String Ascii List Lia DecimalString DecimalZ.
From stdpp Require Import gmap strings list fin_maps.

Open Scope string_scope.
Open Scope list_scope.
Open Scope nat_scope.

(** ** Raw documents *)

(** What a caller may hand in as a document, or as a value inside one:
    the values of JSON and YAML. *)
#[warnings="-register-all"]
Inductive value :=
| VNone
| VBool (b : bool)
| VInt (n : Z)
| VStr (s : string)
| VList (items : list value)
| VDict (d : gmap string value).

(** ** Exceptions and outcomes *)

(** One entry of a pydantic [ValidationError]: where in the input, and
    what went wrong there. *)
Inductive loc_item :=
| Key (k : string)
| Idx (i : nat).

Inductive error_type :=
| missing
| string_type
| url_type
| url_parsing
| list_type
| model_type
| value_error (msg : string).   (* a validator raised [ValueError(msg)] *)

Record ErrorDetails := { loc : list loc_item; err_type : error_type }.

(** [pydantic.ValidationError]: the model it was raised for and every
    error found in the input. *)
Record ValidationError := { title : string; line_errors : list ErrorDetails }.

(** The exception classes the embedded code raises.  Each carries its
    message, as in the source. *)
Inductive exn :=
| ValueError (msg : string)
| TypeError (msg : string)
| IndexError (msg : string)
| BackendError (msg : string)
| PydanticValidationError (exc : ValidationError).

(** The result of running a piece of Python code: a value, or a raised
    exception. *)
Inductive outcome (A : Type) :=
| Return (x : A)
| Raise (e : exn).
Arguments Return {A} x.
Arguments Raise {A} e.

(** Sequencing: an exception raised by the first computation leaves the
    second one unrun ([x ← m; k] below). *)
#[global] Instance outcome_ret : MRet outcome := fun A x => Return x.
#[global] Instance outcome_bind : MBind outcome := fun A B f m =>
  match m with
  | Return x => f x
  | Raise e => Raise e
  end.
#[global] Instance outcome_fmap : FMap outcome := fun A B f m =>
  match m with
  | Return x => Return (f x)
  | Raise e => Raise e
  end.

(** ** Python built-ins used by the code *)

(** [str(x)] for an attribute that may be [None]. *)
Definition str_or_None (x : option string) : string :=
  match x with
  | Some s => s
  | None => "None"
  end.

(** [s.startswith(prefix)]. *)
Definition startswith (s prefix : string) : bool := String.prefix prefix s.

(** [sep.join(parts)]. *)
Fixpoint join (sep : string) (parts : list string) : string :=
  match parts with
  | [] => ""
  | [p] => p
  | p :: rest => p +:+ sep +:+ join sep rest
  end.

(** [s.split(sep)] for a one-character separator: never the empty list,
    empty pieces are kept. *)
Fixpoint split (sep : ascii) (s : string) : list string :=
  match s with
  | EmptyString => [""]
  | String c s' =>
      if Ascii.eqb c sep then "" :: split sep s'
      else match split sep s' with
           | piece :: pieces => String c piece :: pieces
           | [] => [String c ""]
           end
  end.

(** Every character of [s] satisfies [p]. *)
Fixpoint string_forall (p : ascii -> bool) (s : string) : bool :=
  match s with
  | EmptyString => true
  | String c s' => p c && string_forall p s'
  end.

(** [c not in s] *)
Definition free_of (c : ascii) (s : string) : bool :=
  string_forall (fun c' => negb (Ascii.eqb c' c)) s.

(** A string of ASCII characters. *)
Definition is_ascii (s : string) : bool :=
  string_forall (fun c => nat_of_ascii c <? 128) s.

(** White space as [int()] skips it in an ASCII string: TAB, LF, VT, FF,
    CR and SPACE. *)
Definition is_space (c : ascii) : bool :=
  let n := nat_of_ascii c in
  ((9 <=? n) && (n <=? 13)) || (n =? 32).

Definition is_digit (c : ascii) : bool :=
  let n := nat_of_ascii c in (48 <=? n) && (n <=? 57).

Definition digit_value (c : ascii) : Z := Z.of_nat (nat_of_ascii c - 48).

Fixpoint lstrip (s : string) : string :=
  match s with
  | String c s' => if is_space c then lstrip s' else s
  | EmptyString => ""
  end.

(** [s.rstrip("/")] *)
Fixpoint rstrip_slash (s : string) : string :=
  match s with
  | EmptyString => ""
  | String c s' =>
      match rstrip_slash s' with
      | EmptyString => if Ascii.eqb c "/" then "" else String c ""
      | kept => String c kept
      end
  end.

(** [sys.get_int_max_str_digits()], as the interpreter starts with:
    the most digits [int()] reads from a string and [str()] writes for
    an integer. *)
Definition int_max_str_digits : nat := 4300.

(** What [int()] goes through at the head of a base-10 literal, after
    the sign: digits, where single underscores may stand between two
    digits.  It ends on the first other character, with the number
    read, the count of its digits and what is left; two underscores in
    a row or an underscore at the end are an error.  [prev_underscore]
    tells whether the character before was an underscore. *)
Inductive scanned :=
| scan_error
| scan_end (value : Z) (digits : nat) (rest : string).

Fixpoint scan_digits (s : string) (value : Z) (digits : nat)
    (prev_underscore : bool) : scanned :=
  match s with
  | String c s' =>
      if is_digit c then
        scan_digits s' (10 * value + digit_value c) (S digits) false
      else if Ascii.eqb c "_" then
        if prev_underscore then scan_error
        else scan_digits s' value digits true
      else if prev_underscore then scan_error
      else scan_end value digits s
  | EmptyString =>
      if prev_underscore then scan_error else scan_end value digits ""
  end.

(** What [int(s)] finds in a string [s] of ASCII characters: white
    space is skipped, an optional sign follows, then the digits, which
    do not begin with an underscore, then white space to the end.  More
    digits than [int_max_str_digits] are refused as soon as they are
    counted, before what follows them is looked at. *)
Inductive int_literal_of :=
| a_literal (n : Z)
| too_many_digits (digits : nat)
| not_a_literal.

Definition int_literal (s : string) : int_literal_of :=
  let '(negative, after_sign) :=
    match lstrip s with
    | String "-" rest => (true, rest)
    | String "+" rest => (false, rest)
    | rest => (false, rest)
    end in
  match after_sign with
  | String "_" _ => not_a_literal
  | _ =>
      match scan_digits after_sign 0 0 false with
      | scan_error => not_a_literal
      | scan_end value digits rest =>
          if int_max_str_digits <? digits then too_many_digits digits
          else if digits =? 0 then not_a_literal
          else if String.eqb (lstrip rest) "" then
            a_literal (if negative then - value else value)%Z
          else not_a_literal
      end
  end.

(** [l[i]] for a list [l] and an index [i >= 0]. *)
Definition getitem {A} (l : list A) (i : nat) : outcome A :=
  match l !! i with
  | Some x => Return x
  | None => Raise (IndexError "list index out of range")
  end.

(** The one-character string [\n]. *)
Definition newline : string := String "010" "".

(** The decimal form of an integer, and the number of its digits. *)
Definition decimal (n : Z) : string := NilZero.string_of_int (Z.to_int n).

Definition decimal_digits (n : Z) : nat :=
  match Z.to_int n with
  | Decimal.Pos d | Decimal.Neg d => String.length (NilZero.string_of_uint d)
  end.

(** An integer that [str()] writes and [int()] reads back. *)
Definition within_limit (n : Z) : bool := decimal_digits n <=? int_max_str_digits.

(** The [ValueError] of [str(n)], and of [int(s)] for too many digits. *)
Definition exceeds_limit_str : exn :=
  ValueError ("Exceeds the limit (" +:+ decimal (Z.of_nat int_max_str_digits)
              +:+ " digits) for integer string conversion; "
              +:+ "use sys.set_int_max_str_digits() to increase the limit").

Definition exceeds_limit_int (digits : nat) : exn :=
  ValueError ("Exceeds the limit (" +:+ decimal (Z.of_nat int_max_str_digits)
              +:+ " digits) for integer string conversion: value has "
              +:+ decimal (Z.of_nat digits) +:+ " digits; "
              +:+ "use sys.set_int_max_str_digits() to increase the limit").

(** [str(n)] for an integer [n], and so [f"{n}"]. *)
Definition str_of_int (n : Z) : outcome string :=
  if within_limit n then Return (decimal n) else Raise exceeds_limit_str.

(** ** Regular expressions, as far as [URI_REGEX] needs them *)

(** A single-character pattern. *)
Inductive charset :=
| Lit (c : ascii)                (* the character itself *)
| NoneOf (cs : list ascii).      (* [[^...]] *)

Definition accepts (a : charset) (c : ascii) : bool :=
  match a with
  | Lit c' => Ascii.eqb c c'
  | NoneOf cs => negb (existsb (Ascii.eqb c) cs)
  end.

Inductive regex :=
| Chr (a : charset)
| Opt (a : charset)                      (* [a?], greedy *)
| Plus (a : charset)                     (* [a+], greedy *)
| Cat (r1 r2 : regex)
| Named (name : string) (r : regex)      (* [(?P<name>r)] *)
| Eps                                    (* the empty pattern *)
| Bol                                    (* [^] *)
| Eol.                                   (* [$], without MULTILINE *)

(** The named groups of a match, most recently closed first. *)
Definition groups := list (string * string).

Definition group (m : groups) (name : string) : option string :=
  snd <$> List.find (fun g => String.eqb (fst g) name) m.

(** The matcher is a backtracking one, as Python's: [run r pos s g k]
    matches [r] at offset [pos], where [s] is what is left of the
    subject, and hands the rest to the continuation [k]; a greedy
    operator tries its longest alternative first and gives characters
    back when the continuation fails. *)
Fixpoint plus_loop (a : charset) (pos : nat) (s : string)
    (k : nat -> string -> option groups) : option groups :=
  match s with
  | String c s' =>
      if accepts a c then
        match plus_loop a (S pos) s' k with
        | Some m => Some m
        | None => k (S pos) s'
        end
      else None
  | EmptyString => None
  end.

Fixpoint run (r : regex) (pos : nat) (s : string) (g : groups)
    (k : nat -> string -> groups -> option groups) : option groups :=
  match r with
  | Chr a =>
      match s with
      | String c s' => if accepts a c then k (S pos) s' g else None
      | EmptyString => None
      end
  | Opt a =>
      match s with
      | String c s' =>
          if accepts a c then
            match k (S pos) s' g with
            | Some m => Some m
            | None => k pos s g
            end
          else k pos s g
      | EmptyString => k pos s g
      end
  | Plus a => plus_loop a pos s (fun pos' s' => k pos' s' g)
  | Cat r1 r2 => run r1 pos s g (fun pos' s' g' => run r2 pos' s' g' k)
  | Named name r =>
      run r pos s g
        (fun pos' s' g' => k pos' s' ((name, substring 0 (pos' - pos) s) :: g'))
  | Eps => k pos s g
  | Bol => if Nat.eqb pos 0 then k pos s g else None
  | Eol =>
      match s with
      | EmptyString => k pos s g
      | String c EmptyString => if Ascii.eqb c "010" then k pos s g else None
      | _ => None
      end
  end.

(** [r.match(s)]: the pattern is tried at the start of [s] only, and
    need not reach its end. *)
Definition re_match (r : regex) (s : string) : option groups :=
  run r 0 s [] (fun _ _ g => Some g).

Fixpoint literal (s : string) : regex :=
  match s with
  | EmptyString => Eps
  | String c s' => Cat (Chr (Lit c)) (literal s')
  end.

(** What a pattern stands for, apart from the order in which the
    matcher tries things: [denote r pos w rest g g'] says that [r],
    placed at offset [pos], takes the characters [w] when [rest] follows
    them, and turns the groups [g] into [g']. *)
Fixpoint denote (r : regex) (pos : nat) (w rest : string) (g g' : groups)
    : Prop :=
  match r with
  | Chr a => (exists c, w = String c "" /\ accepts a c = true) /\ g' = g
  | Opt a =>
      (w = "" \/ exists c, w = String c "" /\ accepts a c = true) /\ g' = g
  | Plus a => w <> "" /\ string_forall (accepts a) w = true /\ g' = g
  | Cat r1 r2 =>
      exists w1 w2 g1,
        w = w1 +:+ w2 /\ denote r1 pos w1 (w2 +:+ rest) g g1 /\
        denote r2 (pos + String.length w1) w2 rest g1 g'
  | Named name r => exists g1, denote r pos w rest g g1 /\ g' = (name, w) :: g1
  | Eps => w = "" /\ g' = g
  | Bol => w = "" /\ pos = 0 /\ g' = g
  | Eol => w = "" /\ (rest = "" \/ rest = String "010" "") /\ g' = g
  end.

(** ** models/__init__.py: the URI grammar *)

(** [^(?P<namespace>https?://[^/]+)/(?P<version>[^/]+)/(?P<name>[^/#?]+)$] *)
Definition URI_REGEX : regex :=
  Cat Bol
 (Cat (Named "namespace"
         (Cat (literal "http")
         (Cat (Opt (Lit "s"))
         (Cat (literal "://")
              (Plus (NoneOf ["/"%char]))))))
 (Cat (Chr (Lit "/"))
 (Cat (Named "version" (Plus (NoneOf ["/"%char])))
 (Cat (Chr (Lit "/"))
 (Cat (Named "name" (Plus (NoneOf ["/"; "#"; "?"]%char)))
      Eol))))).

(** ** pydantic, as far as the models use it *)

(** [pydantic.networks.AnyHttpUrl]: a validated absolute http(s) URL.
    The value is represented by what [str()] gives for it. *)
Record AnyHttpUrl := Url { url_str : string }.

(** [str(x)] and [f"{x}"] for an attribute of type [AnyHttpUrl | None]. *)
Definition str_url (x : option AnyHttpUrl) : string :=
  str_or_None (url_str <$> x).

(** The outcome of validating one part of the input: the validated
    value, or the errors found there, or an exception that validation
    does not handle.  Errors of different parts add up; an unhandled
    exception ends validation. *)
Inductive checked (A : Type) :=
| Valid (x : A)
| Invalid (errs : list ErrorDetails)
| Unhandled (e : exn).
Arguments Valid {A} x.
Arguments Invalid {A} errs.
Arguments Unhandled {A} e.

Definition checked_map {A B} (f : A -> B) (c : checked A) : checked B :=
  match c with
  | Valid x => Valid (f x)
  | Invalid errs => Invalid errs
  | Unhandled e => Unhandled e
  end.

Definition checked_ap {A B} (f : checked (A -> B)) (c : checked A) : checked B :=
  match f, c with
  | Unhandled e, _ => Unhandled e
  | _, Unhandled e => Unhandled e
  | Valid f', Valid x => Valid (f' x)
  | Valid _, Invalid errs => Invalid errs
  | Invalid errs, Valid _ => Invalid errs
  | Invalid errs1, Invalid errs2 => Invalid (errs1 ++ errs2)
  end.

Notation "f <*> c" := (checked_ap f c) (at level 50, left associativity).

Definition error_here (t : error_type) : ErrorDetails :=
  {| loc := []; err_type := t |}.

Definition under (l : loc_item) {A} (c : checked A) : checked A :=
  match c with
  | Valid x => Valid x
  | Invalid errs =>
      Invalid (map (fun e => {| loc := l :: loc e; err_type := err_type e |}) errs)
  | Unhandled e => Unhandled e
  end.

(** Field types. *)
Definition str_schema (v : value) : checked string :=
  match v with
  | VStr s => Valid s
  | _ => Invalid [error_here string_type]
  end.

(** [T | None] *)
Definition nullable {A} (schema : value -> checked A) (v : value)
    : checked (option A) :=
  match v with
  | VNone => Valid None
  | _ => checked_map Some (schema v)
  end.

Fixpoint list_items {A} (schema : value -> checked A) (i : nat)
    (items : list value) : checked (list A) :=
  match items with
  | [] => Valid []
  | v :: rest =>
      checked_map cons (under (Idx i) (schema v)) <*> list_items schema (S i) rest
  end.

(** [list[T]] *)
Definition list_schema {A} (schema : value -> checked A) (v : value)
    : checked (list A) :=
  match v with
  | VList items => list_items schema 0 items
  | _ => Invalid [error_here list_type]
  end.

(** A nested model: the input has to be a dictionary. *)
Definition model_schema {A} (fields : gmap string value -> checked A)
    (v : value) : checked A :=
  match v with
  | VDict d => fields d
  | _ => Invalid [error_here model_type]
  end.

(** A validator function run on the outcome of a schema
    ([@field_validator], mode "after"): it receives the validated value;
    a [ValueError] it raises becomes an error of the field, any other
    exception is not handled. *)
Definition after {A} (schema : value -> checked A)
    (validator : A -> outcome A) (v : value) : checked A :=
  match schema v with
  | Valid x =>
      match validator x with
      | Return y => Valid y
      | Raise (ValueError msg) => Invalid [error_here (value_error msg)]
      | Raise e => Unhandled e
      end
  | Invalid errs => Invalid errs
  | Unhandled e => Unhandled e
  end.

(** One field of a model, read under [key]: a key that is there is
    validated; for one that is not, the default is taken as it is
    (defaults are not validated), and a field without default is
    reported missing. *)
Definition field {A} (data : gmap string value) (key : string)
    (schema : value -> checked A) (default : option A) : checked A :=
  match data !! key with
  | Some v => under (Key key) (schema v)
  | None =>
      match default with
      | Some x => Valid x
      | None => Invalid [{| loc := [Key key]; err_type := missing |}]
      end
  end.

Definition required {A} : option A := None.

(** What a model's constructor does with the outcome of its fields. *)
Definition construct {A} (model : string) (c : checked A) : outcome A :=
  match c with
  | Valid x => Return x
  | Invalid errs =>
      Raise (PydanticValidationError {| title := model; line_errors := errs |})
  | Unhandled e => Raise e
  end.

(** ** config.py *)

Module ServiceSettings.
Record t := mk {
  base_url : AnyHttpUrl;
  mongo_uri : string;
  mongo_user : option string;
  mongo_password : option string
}.
End ServiceSettings.

(** [ServiceSettings._strip_ending_slashes], run on [base_url] before it
    is validated as a URL. *)
Definition _strip_ending_slashes (value : string) : string :=
  rstrip_slash value.

(** ** models/soft5.py: the data classes *)

Module SOFT5Dimension.
Record t := mk {
  name : string;
  description : string
}.
End SOFT5Dimension.

Module SOFT5Property.
Record t := mk {
  name : option string;
  type_ : string;
  ref : option AnyHttpUrl;
  dims : option (list string);
  unit : option string;
  description : string
}.
End SOFT5Property.

Module SOFT5Entity.
Record t := mk {
  name : option string;
  version : option string;
  namespace : option AnyHttpUrl;
  uri : option AnyHttpUrl;
  meta : AnyHttpUrl;
  description : string;
  dimensions : list SOFT5Dimension.t;
  properties : list SOFT5Property.t
}.
End SOFT5Entity.

(** The attributes that [get_uri], [get_version] and the dialect
    invariant read from an entity, whichever its class. *)
Class SOFTModel (E : Type) := {
  name : E -> option string;
  version : E -> option string;
  namespace : E -> option AnyHttpUrl;
  uri : E -> option AnyHttpUrl;
  meta : E -> AnyHttpUrl
}.

#[global] Instance SOFT5Entity_model : SOFTModel SOFT5Entity.t := {|
  name := SOFT5Entity.name;
  version := SOFT5Entity.version;
  namespace := SOFT5Entity.namespace;
  uri := SOFT5Entity.uri;
  meta := SOFT5Entity.meta
|}.

(** ** Sample settings, documents and collaborators

    The statements further down hold for whatever URL validation,
    settings, second dialect and concrete backend the service runs
    with.  The ones here serve to run them. *)

(** The settings of config.py when the environment sets nothing. *)
Definition CONFIG_default : ServiceSettings.t :=
  ServiceSettings.mk (Url (_strip_ending_slashes "http://onto-ns.com/meta"))
    "mongodb://localhost:27017" None None.

(** pydantic's validation of the URLs of the samples: a URL with a
    path is kept as it is written, a URL without one gets the path
    [/].  No other string is taken here. *)
Definition sample_AnyHttpUrl_validate (s : string) : option AnyHttpUrl :=
  if existsb (String.eqb s)
       ["http://onto-ns.com/meta"; "http://onto-ns.com/meta/0.1/Cat";
        "http://onto-ns.com/meta/1.0/Dog"; "http://onto-ns.com/meta/0.3/EntitySchema";
        "http://example.org/0.1/Cat"]
  then Some (Url s)
  else if existsb (String.eqb s) ["http://onto-ns.com"; "https://onto-ns.com"]
  then Some (Url (s +:+ "/"))
  else None.

Definition sample_str_ValidationError (exc : ValidationError) : string :=
  title exc.

(** A second dialect that wants [properties] to be a mapping and keeps
    no identity. *)
Module SampleSOFT7.
Inductive t := entity.

Definition init (kwargs : gmap string value) : outcome t :=
  match kwargs !! "properties" with
  | Some (VDict _) => Return entity
  | _ =>
      Raise (PydanticValidationError
               {| title := "SOFT7Entity";
                  line_errors :=
                    [{| loc := [Key "properties"]; err_type := model_type |}] |})
  end.

#[global] Instance model : SOFTModel t := {|
  name _ := None;
  version _ := None;
  namespace _ := None;
  uri _ := None;
  meta _ := Url "http://onto-ns.com/meta/0.3/EntitySchema"
|}.
End SampleSOFT7.

Definition sample_properties : value :=
  VList [VDict (list_to_map
    [("name", VStr "age"); ("type", VStr "int");
     ("description", VStr "Age of the cat.")])].

(** A complete SOFT5 document. *)
Definition cat_document : gmap string value :=
  list_to_map
    [("name", VStr "Cat"); ("version", VStr "0.1");
     ("namespace", VStr "http://onto-ns.com/meta");
     ("description", VStr "A cat.");
     ("properties", sample_properties)].

(** The same, with a [uri] that names something else. *)
Definition mismatched_document : gmap string value :=
  <["uri" := VStr "http://onto-ns.com/meta/1.0/Dog"]> cat_document.

(** [name] and [version] without [namespace]. *)
Definition partial_document : gmap string value :=
  list_to_map
    [("name", VStr "Cat"); ("version", VStr "0.1");
     ("properties", sample_properties)].

(** A [uri] outside the service's base URL. *)
Definition foreign_document : gmap string value :=
  list_to_map
    [("uri", VStr "http://example.org/0.1/Cat");
     ("properties", sample_properties)].

(** A document for the second dialect. *)
Definition mapping_document : gmap string value :=
  list_to_map [("properties", VDict ∅)].

(** A document no dialect takes. *)
Definition empty_document : gmap string value := ∅.

(** A document with a key named as [soft_entity]'s keyword. *)
Definition return_errors_document : gmap string value :=
  list_to_map [("return_errors", VBool true)].

(** Entities to run the identity codec on: one with the three identity
    fields, one with a [uri] only, one with nothing. *)
Definition identity_entity (namespace version name : string) : SOFT5Entity.t :=
  SOFT5Entity.mk (Some name) (Some version) (Some (Url namespace)) None
    (Url "http://onto-ns.com/meta/0.3/EntitySchema") "" [] [].

Definition uri_entity (uri : string) : SOFT5Entity.t :=
  SOFT5Entity.mk None None None (Some (Url uri))
    (Url "http://onto-ns.com/meta/0.3/EntitySchema") "" [] [].

Definition bare_entity : SOFT5Entity.t :=
  SOFT5Entity.mk None None None None
    (Url "http://onto-ns.com/meta/0.3/EntitySchema") "" [] [].

(** The entity of [cat_document]. *)
Definition cat_entity : SOFT5Entity.t :=
  SOFT5Entity.mk (Some "Cat") (Some "0.1") (Some (Url "http://onto-ns.com/meta"))
    None (Url "http://onto-ns.com/meta/0.3/EntitySchema") "A cat." []
    [SOFT5Property.mk (Some "age") "int" None None None "Age of the cat."].

(** A backend holding the cat. *)
Definition sample_read {B : Type} (self : B) (s : string)
    : outcome (option (gmap string value)) :=
  if String.eqb s "http://onto-ns.com/meta/0.1/Cat"
  then Return (Some cat_document) else Return None.

(** ** cli/config.py: the options and the [show] command *)

(** [s.upper()] and [s.lower()] for a string [s] of ASCII
    characters. *)
Definition upper_char (c : ascii) : ascii :=
  let n := nat_of_ascii c in
  if (97 <=? n) && (n <=? 122) then ascii_of_nat (n - 32) else c.

Definition lower_char (c : ascii) : ascii :=
  let n := nat_of_ascii c in
  if (65 <=? n) && (n <=? 90) then ascii_of_nat (n + 32) else c.

Fixpoint ascii_upper (s : string) : string :=
  match s with
  | EmptyString => ""
  | String c s' => String (upper_char c) (ascii_upper s')
  end.

Fixpoint ascii_lower (s : string) : string :=
  match s with
  | EmptyString => ""
  | String c s' => String (lower_char c) (ascii_lower s')
  end.

(** [s[n:]] *)
Fixpoint slice_from (n : nat) (s : string) : string :=
  match n, s with
  | 0, _ => s
  | S n', String _ s' => slice_from n' s'
  | S _, EmptyString => ""
  end.

(** [sorted(names)] *)
Fixpoint insert_sorted (x : string) (names : list string) : list string :=
  match names with
  | [] => [x]
  | y :: rest => if String.leb x y then x :: names else y :: insert_sorted x rest
  end.

Definition sorted (names : list string) : list string :=
  fold_right insert_sorted [] names.

(** A dictionary with string keys, in the order its keys came in:
    [d[k] = v] replaces the value of a key that is there and puts a
    new key at the end. *)
Fixpoint dict_set {V} (k : string) (v : V) (d : list (string * V))
    : list (string * V) :=
  match d with
  | [] => [(k, v)]
  | (k', v') :: rest =>
      if String.eqb k' k then (k, v) :: rest else (k', v') :: dict_set k v rest
  end.

Fixpoint dict_get {V} (k : string) (d : list (string * V)) : option V :=
  match d with
  | [] => None
  | (k', v) :: rest => if String.eqb k' k then Some v else dict_get k rest
  end.

(** The types an annotation is made of, as far as [sensitive_fields]
    tells them apart. *)
Inductive field_type :=
| SecretStr
| SecretBytes
| other_type (name : string).

(** The annotation of a settings field: one with type arguments for
    [get_args] to find (a union, say), or a plain type. *)
Inductive annotation :=
| with_args (annotation_args : list field_type)
| plain (type : field_type).

(** What the CLI reads of the settings object [CONFIG]:
    [CONFIG.model_fields], in the order of the fields, and
    [CONFIG.model_config["env_prefix"]]. *)
Record Settings := {
  model_fields : list (string * annotation);
  env_prefix : string
}.

(** The settings class of config.py. *)
Definition ServiceSettings_class : Settings :=
  {| model_fields :=
       [("base_url", plain (other_type "AnyHttpUrl"));
        ("mongo_uri", plain (other_type "MongoSrvDsn"));
        ("mongo_user", with_args [other_type "str"; other_type "None"]);
        ("mongo_password", with_args [SecretStr; other_type "None"])];
     env_prefix := "entity_service_" |}.

(** How a command of the CLI ends when it does not return. *)
Inductive cli_exn :=
| Exit (code : nat)                        (* [typer.Exit] *)
| not_a_valid_ConfigFields (value : string) (* the [ValueError] of the enum *)
| KeyError (key : string)
| MarkupError (msg : string).              (* rich's, from a console *)

Inductive cli (A : Type) :=
| Done (x : A)
| Stopped (e : cli_exn).
Arguments Done {A} x.
Arguments Stopped {A} e.

(** What [show] hands to [print] and to [ERROR_CONSOLE.print], in the
    order of the calls and with the text a call raised on, and how it
    ends. *)
Record shown := {
  printed : list string;
  error_printed : list string;
  ended : cli ()
}.

(** What the CLI has from the interpreter and from rich: [str.upper]
    and [str.lower], which go by the case mappings of Unicode, and the
    two consoles.  [print] of generics.py hands its text to rich's
    [print] and [ERROR_CONSOLE.print] is rich's too: they read the text
    as console markup and raise where the markup is not in order. *)
Class Console := {
  upper : string -> string;
  lower : string -> string;
  print : string -> cli ();
  ERROR_CONSOLE_print : string -> cli ()
}.

(** On strings of ASCII characters, [str.upper] and [str.lower] are the
    functions above. *)
Definition ASCII_case `{Console} : Prop :=
  forall s, is_ascii s = true -> upper s = ascii_upper s /\ lower s = ascii_lower s.

Section CLI.

Context `{Console}.
Variable CONFIG : Settings.

(** Settings whose field names and prefix are ASCII. *)
Definition ASCII_settings : Prop :=
  is_ascii (env_prefix CONFIG) = true /\
  Forall (fun config_name => is_ascii config_name = true) (model_fields CONFIG).*1.

(** The values of the members of [ConfigFields]: a member is a string,
    the lower-case name of a field, and they come in the order of
    [sorted(CONFIG.model_fields)]. *)
Definition ConfigFields_members : list string :=
  lower <$> sorted (fst <$> model_fields CONFIG).

(** [ConfigFields(value)] *)
Definition ConfigFields (value : string) : cli string :=
  if bool_decide (value ∈ ConfigFields_members) then Done value
  else Stopped (not_a_valid_ConfigFields value).

Definition is_secret (type : field_type) : bool :=
  match type with
  | SecretStr | SecretBytes => true
  | other_type _ => false
  end.

(** Whether an annotation makes its field a sensitive one. *)
Definition sensitive_annotation (annotation : annotation) : bool :=
  match annotation with
  | with_args annotation_args => existsb is_secret annotation_args
  | plain type => is_secret type
  end.

(** [ConfigFields.sensitive_fields()]; [getattr(cls, config_name.upper())]
    is the member whose value is [config_name.lower()]. *)
Definition sensitive_fields : list (string * bool) :=
  fold_left
    (fun sensitive_fields '(config_name, annotation) =>
       match annotation with
       | with_args annotation_args =>
           if existsb is_secret annotation_args
           then dict_set (lower config_name) true sensitive_fields
           else dict_set (lower config_name) false sensitive_fields
       | plain type =>
           if is_secret type
           then dict_set (lower config_name) true sensitive_fields
           else dict_set (lower config_name) false sensitive_fields
       end)
    (model_fields CONFIG) [].

(** [key.is_sensitive()] *)
Definition is_sensitive (key : string) : cli bool :=
  match dict_get key sensitive_fields with
  | Some sensitive => Done sensitive
  | None => Stopped (KeyError key)
  end.

(** [f"{CONFIG.model_config['env_prefix']}{key}".upper()] *)
Definition option_key (key : string) : string :=
  upper (env_prefix CONFIG +:+ key).

(** The keys of a dotenv file that [show] takes up. *)
Definition option_keys : list string :=
  option_key <$> ConfigFields_members.

(** [key[len(CONFIG.model_config["env_prefix"]) :].lower()] *)
Definition option_name (key : string) : string :=
  lower (slice_from (String.length (env_prefix CONFIG)) key).

(** The dictionary [values] of [show], from the items of the dotenv
    file. *)
Fixpoint show_values (items : list (string * option string))
    (values : list (string * option string))
    : cli (list (string * option string)) :=
  match items with
  | [] => Done values
  | (key, value) :: items' =>
      if bool_decide (key ∈ option_keys) then
        match ConfigFields (option_name key) with
        | Done member => show_values items' (dict_set member value values)
        | Stopped e => Stopped e
        end
      else show_values items' values
  end.

(** [not reveal_sensitive and key.is_sensitive()] *)
Definition hidden (reveal_sensitive : bool) (key : string) : cli bool :=
  if reveal_sensitive then Done false else is_sensitive key.

(** [sensitive_value or value] *)
Definition sensitive_value_or (sensitive_value value : option string)
    : option string :=
  match sensitive_value with
  | Some stars => Some stars
  | None => value
  end.

(** The dictionary [output] of [show], from the items of [values]. *)
Fixpoint show_output (reveal_sensitive : bool)
    (values : list (string * option string))
    (output : list (string * option string))
    : cli (list (string * option string)) :=
  match values with
  | [] => Done output
  | (key, value) :: values' =>
      match hidden reveal_sensitive key with
      | Stopped e => Stopped e
      | Done hide =>
          let sensitive_value := if hide then Some "********" else None in
          show_output reveal_sensitive values'
            (dict_set (option_key key)
               (sensitive_value_or sensitive_value value) output)
      end
  end.

(** A line of what [show] prints. *)
Definition show_line (item : string * option string) : string :=
  "[bold]" +:+ upper (fst item) +:+ "[/bold]: "
  +:+ match snd item with Some value => value | None => "" end.

(** [lines] one per line. *)
Fixpoint one_per_line (lines : list string) : string :=
  match lines with
  | [] => ""
  | [line] => line
  | line :: more => line +:+ newline +:+ one_per_line more
  end.

(** [show]; [dotenv] is what [dotenv_values] reads in the file, and
    [None] when there is no file. *)
Definition show (reveal_sensitive : bool) (dotenv_file : string)
    (dotenv : option (list (string * option string))) : shown :=
  match dotenv with
  | None =>
      let text := "No " +:+ dotenv_file +:+ " file found." in
      {| printed := [];
         error_printed := [text];
         ended := match ERROR_CONSOLE_print text with
                  | Done _ => Stopped (Exit 1)
                  | Stopped e => Stopped e
                  end |}
  | Some items =>
      let heading :=
        "Current configuration in " +:+ dotenv_file +:+ ":" +:+ newline in
      match print heading with
      | Stopped e =>
          {| printed := [heading]; error_printed := []; ended := Stopped e |}
      | Done _ =>
          match show_values items [] with
          | Stopped e =>
              {| printed := [heading]; error_printed := []; ended := Stopped e |}
          | Done values =>
              match show_output reveal_sensitive values [] with
              | Stopped e =>
                  {| printed := [heading]; error_printed := [];
                     ended := Stopped e |}
              | Done output =>
                  let text := join newline (show_line <$> output) in
                  {| printed := [heading; text];
                     error_printed := [];
                     ended := print text |}
              end
          end
      end
  end.

(** What a line of [show] has for an item of the dotenv file. *)
Definition show_item (reveal_sensitive : bool) (item : string * option string)
    : string * option string :=
  match hidden reveal_sensitive (option_name (fst item)) with
  | Done true => (fst item, Some "********")
  | _ => item
  end.

(** Two dotenv files with the same keys in the same order, and the
    same values but for the sensitive options. *)
Definition same_but_sensitive (items items' : list (string * option string))
    : Prop :=
  Forall2
    (fun item item' =>
       fst item = fst item' /\
       (snd item = snd item' \/
        (fst item ∈ option_keys /\ is_sensitive (option_name (fst item)) = Done true)))
    items items'.

End CLI.

(** A console that takes a text whose only markup is the [[bold]] and
    [[/bold]] of [show], in pairs; any other [[] it refuses, also where
    rich would not.  [skip] characters of a tag are yet to be passed,
    and [bold] tells whether a [[bold]] is open. *)
Fixpoint bold_only (s : string) (skip : nat) (bold : bool) : bool :=
  match s with
  | EmptyString => negb bold
  | String c s' =>
      match skip with
      | S skip' => bold_only s' skip' bold
      | 0 =>
          if Ascii.eqb c "[" then
            if startswith s "[bold]" && negb bold then bold_only s' 5 true
            else if startswith s "[/bold]" && bold then bold_only s' 6 false
            else false
          else bold_only s' 0 bold
      end
  end.

Definition sample_print (text : string) : cli () :=
  if bold_only text 0 false then Done ()
  else Stopped (MarkupError "closing tag does not match any open tag").

(** The interpreter and the consoles on the samples, which are ASCII. *)
Definition sample_Console : Console :=
  {| upper := ascii_upper;
     lower := ascii_lower;
     print := sample_print;
     ERROR_CONSOLE_print := sample_print |}.

(** A document without identity. *)
Definition anonymous_document : gmap string value :=
  list_to_map [("description", VStr "A cat."); ("properties", sample_properties)].

(** The entity of [anonymous_document]. *)
Definition anonymous_entity : SOFT5Entity.t :=
  SOFT5Entity.mk None None None None
    (Url "http://onto-ns.com/meta/0.3/EntitySchema") "A cat." []
    [SOFT5Property.mk (Some "age") "int" None None None "Age of the cat."].

(** An interpreter's [repr] of a string and [str] of a container, in
    short. *)
Definition sample_repr_str (s : string) : string := "'" +:+ s +:+ "'".

(** [int()] on a string with a character between U+0080 and U+00FF:
    of these, NEL and NBSP are white space and none is a digit. *)
Definition sample_int_beyond_ASCII (s : string) : Z + string :=
  let fix spaces (s : string) : string :=
    match s with
    | EmptyString => ""
    | String c s' =>
        String (if Ascii.eqb c "133" || Ascii.eqb c "160" then " "%char else c)
          (spaces s')
    end in
  if is_ascii (spaces s) then
    match int_literal (spaces s) with
    | a_literal n => inl n
    | too_many_digits digits =>
        match exceeds_limit_int digits with
        | ValueError msg => inr msg
        | _ => inr ""
        end
    | not_a_literal =>
        inr ("invalid literal for int() with base 10: "
             +:+ substring 0 200 (sample_repr_str s))
    end
  else
    inr ("invalid literal for int() with base 10: "
         +:+ substring 0 200 (sample_repr_str s)).

Definition sample_str_container (v : value) : string := "[...]".

(** Two dotenv files: a password, a key that is no option, the base
    URL, and a user without value; and the same with another
    password. *)
Definition sample_dotenv : list (string * option string) :=
  [("ENTITY_SERVICE_MONGO_PASSWORD", Some "s3cret");
   ("PATH", Some "/usr/bin");
   ("ENTITY_SERVICE_BASE_URL", Some "http://onto-ns.com/meta");
   ("ENTITY_SERVICE_MONGO_USER", None)].

Definition other_dotenv : list (string * option string) :=
  [("ENTITY_SERVICE_MONGO_PASSWORD", Some "hunter2");
   ("PATH", Some "/usr/bin");
   ("ENTITY_SERVICE_BASE_URL", Some "http://onto-ns.com/meta");
   ("ENTITY_SERVICE_MONGO_USER", None)].

(** ** The service *)

Section Service.

(** [repr(s)] for a string, and [int(s)] for a string that holds a
    character beyond ASCII, where [int()] goes by the decimal digits
    and the white space of Unicode: the interpreter's.  The second
    gives the integer, or the message of the [ValueError] raised. *)
Variable repr_str : string -> string.
Variable int_beyond_ASCII : string -> Z + string.

(** The [ValueError] of [int(s)] for what is no literal; the message
    has at most 200 characters of [repr(s)]. *)
Definition invalid_literal (s : string) : exn :=
  ValueError ("invalid literal for int() with base 10: "
              +:+ substring 0 200 (repr_str s)).

(** [int(s)] for a string [s]. *)
Definition int (s : string) : outcome Z :=
  if is_ascii s then
    match int_literal s with
    | a_literal n => Return n
    | too_many_digits digits => Raise (exceeds_limit_int digits)
    | not_a_literal => Raise (invalid_literal s)
    end
  else
    match int_beyond_ASCII s with
    | inl n => Return n
    | inr msg => Raise (ValueError msg)
    end.

(** pydantic's validation of a string as [AnyHttpUrl] (parsing and
    normalisation are the library's). *)
Variable AnyHttpUrl_validate : string -> option AnyHttpUrl.

(** [str(exc)] for a pydantic [ValidationError]. *)
Variable str_ValidationError : ValidationError -> string.

(** [CONFIG], the settings the service runs with. *)
Variable CONFIG : ServiceSettings.t.

(** models/soft7.py is not part of the sources at hand: the class
    [SOFT7Entity], its attributes and its constructor are taken as
    they come. *)
Variable SOFT7Entity : Type.
Context `{SOFT7Entity_model : SOFTModel SOFT7Entity}.
Variable SOFT7Entity__init__ : gmap string value -> outcome SOFT7Entity.

Definition url_schema (v : value) : checked AnyHttpUrl :=
  match v with
  | VStr s =>
      match AnyHttpUrl_validate s with
      | Some u => Valid u
      | None => Invalid [error_here url_parsing]
      end
  | _ => Invalid [error_here url_type]
  end.

(** *** models/soft5.py *)

Definition SOFT5Dimension__init__ (data : gmap string value)
    : checked SOFT5Dimension.t :=
  checked_map SOFT5Dimension.mk
        (field data "name" str_schema required)
    <*> field data "description" str_schema required.

Definition SOFT5Property__init__ (data : gmap string value)
    : checked SOFT5Property.t :=
  checked_map SOFT5Property.mk
        (field data "name" (nullable str_schema) (Some None))
    <*> field data "type" str_schema required
    <*> field data "$ref" (nullable url_schema) (Some None)
    <*> field data "dims" (nullable (list_schema str_schema)) (Some None)
    <*> field data "unit" (nullable str_schema) (Some None)
    <*> field data "description" str_schema required.

(** [data.get(key)] *)
Definition get (data : gmap string value) (key : string) : value :=
  default VNone (data !! key).

Definition is_None (v : value) : bool :=
  match v with
  | VNone => true
  | _ => false
  end.

(** [SOFT5Entity._validate_base_url], for the fields [uri] and
    [namespace].  The value is what the field's type [AnyHttpUrl | None]
    validated to. *)
Definition _validate_base_url (value : option AnyHttpUrl)
    : outcome (option AnyHttpUrl) :=
  if negb (startswith (str_url value)
                      (url_str (ServiceSettings.base_url CONFIG)))
  then Raise (ValueError ("This service only works with DLite/SOFT entities at "
                          +:+ url_str (ServiceSettings.base_url CONFIG) +:+ "."))
  else Return value.

(** [SOFT5Entity._only_support_onto_ns], for the field [meta]. *)
Definition _only_support_onto_ns (value : AnyHttpUrl) : outcome AnyHttpUrl :=
  if negb (String.eqb (url_str value) "http://onto-ns.com/meta/0.3/EntitySchema")
  then Raise (ValueError ("This service only works with DLite/SOFT entities using EntitySchema "
                          +:+ "v0.3 at onto-ns.com as the metadata entity."))
  else Return value.

(** [SOFT5Entity._check_cross_dependent_fields], run on the raw input
    before anything else.  As the constructor is called with keyword
    arguments, [data] is a dictionary. *)
Definition _check_cross_dependent_fields (data : gmap string value)
    : outcome (gmap string value) :=
  if existsb (fun k => is_None (get data k)) ["name"; "version"; "namespace"]
  then
    if negb (forallb (fun k => is_None (get data k))
               ["name"; "version"; "namespace"])
    then Raise (ValueError ("Either all of `name`, `version`, and `namespace` must be set "
                            +:+ "or all must be unset."))
    else Return data
  else Return data.

Definition SOFT5Entity_fields (data : gmap string value)
    : checked SOFT5Entity.t :=
  checked_map SOFT5Entity.mk
        (field data "name" (nullable str_schema) (Some None))
    <*> field data "version" (nullable str_schema) (Some None)
    <*> field data "namespace"
          (after (nullable url_schema) _validate_base_url) (Some None)
    <*> field data "uri"
          (after (nullable url_schema) _validate_base_url) (Some None)
    <*> field data "meta" (after url_schema _only_support_onto_ns)
          (Some (Url "http://onto-ns.com/meta/0.3/EntitySchema"))
    <*> field data "description" str_schema (Some "")
    <*> field data "dimensions"
          (list_schema (model_schema SOFT5Dimension__init__)) (Some [])
    <*> field data "properties"
          (list_schema (model_schema SOFT5Property__init__)) required.

(** The constructor of [SOFT5Entity], called with keyword arguments. *)
Definition SOFT5Entity__init__ (kwargs : gmap string value)
    : outcome SOFT5Entity.t :=
  match _check_cross_dependent_fields kwargs with
  | Return data => construct "SOFT5Entity" (SOFT5Entity_fields data)
  | Raise (ValueError msg) =>
      Raise (PydanticValidationError
               {| title := "SOFT5Entity";
                  line_errors := [error_here (value_error msg)] |})
  | Raise e => Raise e
  end.

(** *** models/__init__.py *)

(** [VersionedSOFTEntity = SOFT7Entity | SOFT5Entity] *)
Inductive VersionedSOFTEntity :=
| soft7 (e : SOFT7Entity)
| soft5 (e : SOFT5Entity.t).

#[local] Instance VersionedSOFTEntity_model : SOFTModel VersionedSOFTEntity := {|
  name e := match e with soft7 e => name e | soft5 e => name e end;
  version e := match e with soft7 e => version e | soft5 e => version e end;
  namespace e := match e with soft7 e => namespace e | soft5 e => namespace e end;
  uri e := match e with soft7 e => uri e | soft5 e => uri e end;
  meta e := match e with soft7 e => meta e | soft5 e => meta e end
|}.

(** [get_args(VersionedSOFTEntity)]: the classes of the union, in the
    order they are written, each as its constructor. *)
Definition get_args_VersionedSOFTEntity
    : list (gmap string value -> outcome VersionedSOFTEntity) :=
  [ fun kwargs => soft7 <$> SOFT7Entity__init__ kwargs;
    fun kwargs => soft5 <$> SOFT5Entity__init__ kwargs ].

(** [soft_entity]'s loop over the classes: [break] on the first class
    that constructs, collect the [ValidationError] of a class that
    does not and go on; the loop's [else] is reached when the classes
    are used up.  An exception other than [ValidationError] is not
    caught. *)
Fixpoint soft_entity_loop
    (classes : list (gmap string value -> outcome VersionedSOFTEntity))
    (kwargs : gmap string value) (errors : list ValidationError)
    : outcome (VersionedSOFTEntity + list ValidationError) :=
  match classes with
  | versioned_entity_cls :: classes' =>
      match versioned_entity_cls kwargs with
      | Return new_object => Return (inl new_object)
      | Raise (PydanticValidationError exc) =>
          soft_entity_loop classes' kwargs (errors ++ [exc])
      | Raise e => Raise e
      end
  | [] => Return (inr errors)
  end.

(** [soft_entity(return_errors=..., **kwargs)].  (The models take no
    positional arguments; the repository calls [soft_entity] with
    keyword arguments only.) *)
Definition soft_entity (return_errors : bool) (kwargs : gmap string value)
    : outcome (VersionedSOFTEntity + list ValidationError) :=
  found ← soft_entity_loop get_args_VersionedSOFTEntity kwargs [];
  match found with
  | inl new_object => Return (inl new_object)
  | inr errors =>
      if return_errors then Return (inr errors)
      else Raise (ValueError ("Cannot instantiate entity. Errors:" +:+ newline
                              +:+ join newline (map str_ValidationError errors)))
  end.

Section Codec.
Context {E : Type} `{SOFTModel E}.

Definition get_uri (entity : E) : string :=
  match uri entity with
  | Some u => url_str u
  | None =>
      str_url (namespace entity) +:+ "/" +:+ str_or_None (version entity)
        +:+ "/" +:+ str_or_None (name entity)
  end.

Definition get_version (entity : E) : outcome string :=
  match version entity with
  | Some v => Return v
  | None =>
      match re_match URI_REGEX (str_url (uri entity)) with
      | Some m => Return (str_or_None (group m "version"))
      | None => Raise (ValueError "Cannot parse URI to get version.")
      end
  end.

Definition get_updated_version (entity : E) : outcome string :=
  current_version ← get_version entity;
  let split_version := split "." current_version in
  let major_length := 1 in
  let minor_length := 2 in
  let patch_length := 3 in
  if length split_version =? major_length then
    v0 ← getitem split_version 0;
    Return (v0 +:+ ".1")
  else if length split_version =? minor_length then
    v0 ← getitem split_version 0;
    v1 ← getitem split_version 1;
    Return (v0 +:+ "." +:+ v1 +:+ ".1")
  else if length split_version =? patch_length then
    v0 ← getitem split_version 0;
    v1 ← getitem split_version 1;
    v2 ← getitem split_version 2;
    patch ← int v2;
    incremented ← str_of_int (patch + 1);
    Return (v0 +:+ "." +:+ v1 +:+ "." +:+ incremented)
  else
    Raise (ValueError ("Cannot parse version to get updated version. Expecting version to be a "
                       +:+ "simple MAJOR, MAJOR.MINOR, or MAJOR.MINOR.PATCH styling.")).
End Codec.

(** *** service/backend/backend.py *)

(** [BackendSettings] has no fields. *)
Inductive BackendSettings := BackendSettings__init__.

(** The attributes a [Backend] instance holds. *)
Record Backend := {
  _settings : BackendSettings;
  _is_closed : bool
}.

(** The abstract method [read], which a concrete backend supplies. *)
Variable read : Backend -> string -> outcome (option (gmap string value)).

(** What [__contains__] may be asked about. *)
Inductive Any :=
| a_dict (d : gmap string value)
| a_str (s : string)
| a_model (e : VersionedSOFTEntity)     (* an instance of [SOFTModelTypes] *)
| a_other.                              (* anything else *)

Definition Backend__init__ (settings : option BackendSettings) : Backend :=
  {| _settings := default BackendSettings__init__ settings;
     _is_closed := false |}.

Definition is_closed (self : Backend) : bool := _is_closed self.

(** [close] gives back the instance as it is afterwards, and what the
    call did. *)
Definition close (self : Backend) : Backend * outcome () :=
  if is_closed self
  then (self, Raise (BackendError "Backend is already closed"))
  else ({| _settings := _settings self; _is_closed := true |}, Return ()).

(** The call [soft_entity(return_errors=True, **item)]: a key
    [return_errors] in [item] would give the keyword twice. *)
Definition call_soft_entity_return_errors (item : gmap string value)
    : outcome (VersionedSOFTEntity + list ValidationError) :=
  if bool_decide (is_Some (item !! "return_errors"))
  then Raise (TypeError
    "soft_entity() got multiple values for keyword argument 'return_errors'")
  else soft_entity true item.

(** The part of [__contains__] after the conversion of a dictionary. *)
Definition contains_converted (self : Backend) (item : Any) : outcome bool :=
  match item with
  | a_str s =>
      found ← read self s;
      Return (bool_decide (found ≠ None))
  | a_model e =>
      found ← read self (get_uri e);
      Return (bool_decide (found ≠ None))
  | _ => Return false
  end.

Definition Backend__contains__ (self : Backend) (item : Any) : outcome bool :=
  match item with
  | a_dict d =>
      item_or_errors ← call_soft_entity_return_errors d;
      match item_or_errors with
      | inr errors => Return false          (* logged, then [return False] *)
      | inl entity => contains_converted self (a_model entity)
      end
  | _ => contains_converted self item
  end.

(** *** Vocabulary of the statements *)

(** The characters a name may consist of for [URI_REGEX]: none of [/],
    [#] and [?]. *)
Definition name_chars (s : string) : bool :=
  string_forall (accepts (NoneOf ["/"; "#"; "?"]%char)) s.

(** [http://] or [https://] *)
Definition scheme (tls : bool) : string :=
  if tls then "https://" else "http://".

(** A greedy repetition of [a] cannot go on into [rest]: [rest] is empty
    or begins with a character [a] does not accept. *)
Definition stops (a : charset) (rest : string) : Prop :=
  match rest with
  | EmptyString => True
  | String c _ => accepts a c = false
  end.

(** [takes r pos w rest]: at offset [pos] of a subject that goes on
    with [w +:+ rest], the matcher lets the group-free pattern [r] take
    exactly [w] whenever the rest of the pattern matches after it. *)
Definition takes (r : regex) (pos : nat) (w rest : string) : Prop :=
  forall g k m,
    k (pos + String.length w) rest g = Some m ->
    run r pos (w +:+ rest) g k = Some m.

(** The error of [get_version], and the two of [get_updated_version]. *)
Definition missing_version : exn :=
  ValueError "Cannot parse URI to get version.".

Definition unsupported_version_shape : exn :=
  ValueError ("Cannot parse version to get updated version. Expecting version to be a "
              +:+ "simple MAJOR, MAJOR.MINOR, or MAJOR.MINOR.PATCH styling.").

(** Validation came to an end: with a value or with errors. *)
Definition handled {A} (c : checked A) : Prop :=
  match c with
  | Unhandled _ => False
  | _ => True
  end.

(** The metadata schema the service supports. *)
Definition EntitySchema_v0_3 : string := "http://onto-ns.com/meta/0.3/EntitySchema".

(** The dialect invariant: [uri] and [namespace], when set, begin with
    the base URL of the service, and [meta] is the supported schema. *)
Definition dialect_invariant {E} `{SOFTModel E} (entity : E) : Prop :=
  (forall u, uri entity = Some u ->
     startswith (url_str u) (url_str (ServiceSettings.base_url CONFIG)) = true) /\
  (forall n, namespace entity = Some n ->
     startswith (url_str n) (url_str (ServiceSettings.base_url CONFIG)) = true) /\
  url_str (meta entity) = EntitySchema_v0_3.

(** The document gives the field [key] a value that is not one the
    base-URL rule lets through. *)
Definition off_base (data : gmap string value) (key : string) : Prop :=
  exists v, data !! key = Some v /\ v <> VNone /\
    forall s u, v = VStr s -> AnyHttpUrl_validate s = Some u ->
      startswith (url_str u) (url_str (ServiceSettings.base_url CONFIG)) = false.

(** The document gives [meta] a value other than the supported schema. *)
Definition other_meta (data : gmap string value) : Prop :=
  exists v, data !! "meta" = Some v /\
    forall s u, v = VStr s -> AnyHttpUrl_validate s = Some u ->
      url_str u <> EntitySchema_v0_3.

(** The document supplies the field: [data.get(key)] is not [None]. *)
Definition supplied (data : gmap string value) (key : string) : bool :=
  negb (is_None (get data key)).

(** The entity [e] with another [uri]. *)
Definition with_uri (e : SOFT5Entity.t) (u : option AnyHttpUrl) : SOFT5Entity.t :=
  SOFT5Entity.mk (SOFT5Entity.name e) (SOFT5Entity.version e)
    (SOFT5Entity.namespace e) u (SOFT5Entity.meta e)
    (SOFT5Entity.description e) (SOFT5Entity.dimensions e)
    (SOFT5Entity.properties e).

(** The error [soft_entity] raises for the errors of the dialects. *)
Definition cannot_instantiate (errors : list ValidationError) : exn :=
  ValueError ("Cannot instantiate entity. Errors:" +:+ newline
              +:+ join newline (map str_ValidationError errors)).

(** The error of [_check_cross_dependent_fields], as the constructor
    raises it. *)
Definition cross_dependent_fields_error : exn :=
  PydanticValidationError
    {| title := "SOFT5Entity";
       line_errors :=
         [error_here (value_error
            ("Either all of `name`, `version`, and `namespace` must be set "
             +:+ "or all must be unset."))] |}.

(** The methods that [Backend] itself implements, as calls on an
    instance.  Only [close] assigns to an attribute; [is_closed] and
    [__contains__] leave the instance as it is ([__str__] and
    [__repr__] read the name of the class only; the other methods are
    abstract). *)
Inductive call :=
| call_close
| call_is_closed
| call_contains (item : Any).

Definition perform (self : Backend) (c : call) : Backend :=
  match c with
  | call_close => fst (close self)
  | call_is_closed => self
  | call_contains _ => self
  end.

Definition perform_all (self : Backend) (calls : list call) : Backend :=
  fold_left perform calls self.

(** What [__contains__] answers once it has an identity. *)
Definition found_by_read (self : Backend) (identity : string) : outcome bool :=
  found ← read self identity;
  Return (bool_decide (found ≠ None)).

(** The error of a keyword argument given twice. *)
Definition return_errors_twice : exn :=
  TypeError "soft_entity() got multiple values for keyword argument 'return_errors'".

(** The number of occurrences of [c] in [s]: [s.count(c)]. *)
Fixpoint count_char (c : ascii) (s : string) : nat :=
  match s with
  | EmptyString => 0
  | String c' s' => (if Ascii.eqb c' c then 1 else 0) + count_char c s'
  end.

(** A version of three pieces whose last is the decimal form of an
    integer. *)
Definition three_pieces (M N : string) (p : Z) : string :=
  M +:+ "." +:+ N +:+ "." +:+ decimal p.

(** The names of the fields of [SOFT5Entity]. *)
Definition SOFT5Entity_field_names : list string :=
  ["name"; "version"; "namespace"; "uri"; "meta"; "description";
   "dimensions"; "properties"].

(** The constructor raises [ValidationError] or nothing. *)
Definition validates_or_rejects {A} (init : gmap string value -> outcome A) : Prop :=
  forall kwargs,
    (exists e, init kwargs = Return e) \/
    (exists exc, init kwargs = Raise (PydanticValidationError exc)).

(** *** config.py, on any value *)

(** [s.endswith(c)] for a character [c]. *)
Fixpoint endswith_char (c : ascii) (s : string) : bool :=
  match s with
  | EmptyString => false
  | String c' EmptyString => Ascii.eqb c' c
  | String _ s' => endswith_char c s'
  end.

(** [c * k] *)
Fixpoint repeat_char (c : ascii) (k : nat) : string :=
  match k with
  | 0 => ""
  | S k' => String c (repeat_char c k')
  end.

(** [ServiceSettings._strip_ending_slashes] on whatever is given for
    [base_url]: anything but a string is a [TypeError]. *)
Definition _strip_ending_slashes_before (value : value) : outcome string :=
  match value with
  | VStr s => Return (_strip_ending_slashes s)
  | _ => Raise (TypeError "Expected a string for `base_url`.")
  end.

(** *** main.py *)

(** What a route function ends in: the value it returns, an
    [HTTPException] it raises, or another exception. *)
Inductive response (A : Type) :=
| Respond (x : A)
| HTTPException (status_code : nat) (detail : string)
| Failed (e : exn).
#[global] Arguments Respond {A} x.
#[global] Arguments HTTPException {A} status_code detail.
#[global] Arguments Failed {A} e.

Definition HTTP_404_NOT_FOUND : nat := 404.
Definition HTTP_502_BAD_GATEWAY : nat := 502.

(** What the abstract method [create] may return. *)
Inductive created :=
| created_None
| created_one (entity : gmap string value)
| created_list (entities : list (gmap string value)).

(** [get_backend(CONFIG.backend)]: the backend the service runs on, and
    its abstract method [create]. *)
Variable active_backend : Backend.
Variable create :
  Backend -> list (VersionedSOFTEntity + gmap string value) -> outcome created.

(** The URI that [get_entity] looks up. *)
Definition get_entity_uri (version name : string) : string :=
  url_str (ServiceSettings.base_url CONFIG) +:+ "/" +:+ version +:+ "/" +:+ name.

Definition get_entity (version name : string) : response (gmap string value) :=
  let uri := get_entity_uri version name in
  match read active_backend uri with
  | Raise e => Failed e
  | Return None =>
      HTTPException HTTP_404_NOT_FOUND ("Could not find entity: uri=" +:+ uri)
  | Return (Some entity) => Respond entity
  end.

Definition create_entity (entity : VersionedSOFTEntity)
    : response (gmap string value) :=
  match create active_backend [inl entity] with
  | Raise e => Failed e
  | Return (created_one created_entity) => Respond created_entity
  | Return _ =>
      HTTPException HTTP_502_BAD_GATEWAY
        ("Could not create entity: uri=" +:+ get_uri entity)
  end.

Definition create_entities (entities : list VersionedSOFTEntity)
    : response (list (gmap string value)) :=
  match create active_backend (inl <$> entities) with
  | Raise e => Failed e
  | Return created_None =>
      HTTPException HTTP_502_BAD_GATEWAY "Could not create entities."
  | Return (created_one created_entity) => Respond [created_entity]
  | Return (created_list created_entities) => Respond created_entities
  end.

(** *** .github/utils/docker_test.py *)

(** What the helpers of the test script end in: a value, the
    [RuntimeError] they raise, or an exception of the interpreter's. *)
Inductive tested (A : Type) :=
| Got (x : A)
| RuntimeError (msg : string)
| Raised (e : exn).
#[global] Arguments Got {A} x.
#[global] Arguments RuntimeError {A} msg.
#[global] Arguments Raised {A} e.

(** [str(v)] for a list or a dictionary: the interpreter's. *)
Variable str_container : value -> string.

(** [f"{v}"] *)
Definition format_value (v : value) : outcome string :=
  match v with
  | VNone => Return "None"
  | VBool true => Return "True"
  | VBool false => Return "False"
  | VInt n => str_of_int n
  | VStr s => Return s
  | _ => Return (str_container v)
  end.

(** [x or ""] for what [match.group] gives. *)
Definition or_empty (x : option string) : string :=
  match x with
  | Some s => s
  | None => ""
  end.

(** [^http://onto-ns\.com/meta/(?P<version>[^/]+)/(?P<name>[^/]+)$] *)
Definition VERSION_NAME_REGEX : regex :=
  Cat Bol
 (Cat (literal "http://onto-ns.com/meta/")
 (Cat (Named "version" (Plus (NoneOf ["/"%char])))
 (Cat (Chr (Lit "/"))
 (Cat (Named "name" (Plus (NoneOf ["/"%char])))
      Eol)))).

Definition _get_version_name (uri : string) : tested (string * string) :=
  match re_match VERSION_NAME_REGEX uri with
  | None =>
      RuntimeError ("Could not retrieve version and name from " +:+ repr_str uri
                    +:+ ". URI must be of the form: "
                    +:+ "http://onto-ns.com/meta/{version}/{name}")
  | Some m => Got (or_empty (group m "version"), or_empty (group m "name"))
  end.

Definition _get_uri (entity : gmap string value) : tested string :=
  let namespace := get entity "namespace" in
  let version := get entity "version" in
  let name := get entity "name" in
  if existsb is_None [namespace; version; name]
  then RuntimeError
         "Could not retrieve namespace, version, and/or name from test entities."
  else
    match
      namespace_text ← format_value namespace;
      version_text ← format_value version;
      name_text ← format_value name;
      Return (namespace_text +:+ "/" +:+ version_text +:+ "/" +:+ name_text)
    with
    | Return uri => Got uri
    | Raise e => Raised e
    end.

(** The namespace the test script expects, with the [/] after it. *)
Definition test_prefix : string := "http://onto-ns.com/meta/".

(** A [create] that answers with the cat: with nothing for no entity,
    with the record for one, with a list for more. *)
Definition sample_create {B E : Type} (self : B)
    (entities : list (E + gmap string value)) : outcome created :=
  match entities with
  | [] => Return created_None
  | [_] => Return (created_one cat_document)
  | _ => Return (created_list ((fun _ => cat_document) <$> entities))
  end.

(** * Properties *)

(** ** Strings *)

Lemma append_String (x : ascii) (a b : string) :
  String x a +:+ b = String x (a +:+ b).
Proof. reflexivity. Qed.

Lemma append_Empty (b : string) : "" +:+ b = b.
Proof. reflexivity. Qed.

Lemma append_assoc (a b c : string) : (a +:+ b) +:+ c = a +:+ b +:+ c.
Proof.
  induction a as [|x a IH]; [reflexivity|].
  rewrite !append_String. now f_equal.
Qed.

Lemma append_empty_r (a : string) : a +:+ "" = a.
Proof.
  induction a as [|x a IH]; [reflexivity|].
  rewrite append_String. now f_equal.
Qed.

Lemma length_append (a b : string) :
  String.length (a +:+ b) = String.length a + String.length b.
Proof.
  induction a as [|x a IH]; [reflexivity|].
  rewrite append_String. simpl. now f_equal.
Qed.

Lemma substring_prefix (w rest : string) :
  substring 0 (String.length w) (w +:+ rest) = w.
Proof.
  induction w as [|x w IH].
  - destruct rest; reflexivity.
  - rewrite append_String. simpl. now f_equal.
Qed.

Lemma startswith_append (a b : string) : startswith (a +:+ b) a = true.
Proof.
  unfold startswith. induction a as [|x a IH].
  - destruct b; reflexivity.
  - rewrite append_String. simpl.
    destruct (ascii_dec x x) as [_|ne]; [exact IH | congruence].
Qed.

(** ** [split] and [join] *)

Lemma split_not_nil sep s : split sep s <> [].
Proof.
  destruct s as [|c s]; simpl; [discriminate|].
  destruct (Ascii.eqb c sep); [discriminate|].
  destruct (split sep s); discriminate.
Qed.

Lemma split_length_pos sep s : 1 <= length (split sep s).
Proof.
  pose proof (split_not_nil sep s) as Hne.
  destruct (split sep s); [congruence | simpl; lia].
Qed.

Lemma split_free sep s : free_of sep s = true -> split sep s = [s].
Proof.
  unfold free_of. induction s as [|c s IH]; simpl; [reflexivity|].
  intros [Hc Hs]%andb_true_iff. apply negb_true_iff in Hc.
  rewrite Hc, (IH Hs). reflexivity.
Qed.

Lemma split_append sep a b :
  free_of sep a = true -> split sep (a +:+ String sep b) = a :: split sep b.
Proof.
  unfold free_of. induction a as [|c a IH].
  - intros _. rewrite append_Empty. simpl. now rewrite Ascii.eqb_refl.
  - rewrite append_String. simpl.
    intros [Hc Ha]%andb_true_iff. apply negb_true_iff in Hc.
    rewrite Hc, (IH Ha). reflexivity.
Qed.

Lemma join_split sep s : join (String sep "") (split sep s) = s.
Proof.
  induction s as [|c s IH]; simpl; [reflexivity|].
  destruct (Ascii.eqb_spec c sep) as [->|Hne].
  - pose proof (split_not_nil sep s) as Hnil.
    destruct (split sep s) as [|p ps]; [congruence|].
    change (join (String sep "") ("" :: p :: ps))
      with (String sep (join (String sep "") (p :: ps))).
    now rewrite IH.
  - pose proof (split_not_nil sep s) as Hnil.
    destruct (split sep s) as [|p ps]; [congruence|].
    destruct ps as [|q ps]; simpl in *; now rewrite <- IH.
Qed.

Lemma split_pieces_free sep s :
  Forall (fun piece => free_of sep piece = true) (split sep s).
Proof.
  induction s as [|c s IH]; simpl.
  - repeat constructor.
  - destruct (Ascii.eqb_spec c sep) as [->|Hne].
    + constructor; [reflexivity | exact IH].
    + pose proof (split_not_nil sep s) as Hnil.
      destruct (split sep s) as [|p ps]; [congruence|].
      inversion IH as [|? ? Hp Hps]; subst.
      constructor; [|exact Hps].
      unfold free_of in *. simpl. rewrite Hp.
      apply Ascii.eqb_neq in Hne. now rewrite Hne.
Qed.

(** ** The matcher *)

(** Whatever the matcher finds is an instance of the pattern. *)
Lemma plus_loop_sound a : forall s pos k m,
  plus_loop a pos s k = Some m ->
  exists w rest,
    s = w +:+ rest /\ w <> "" /\ string_forall (accepts a) w = true /\
    k (pos + String.length w) rest = Some m.
Proof.
  induction s as [|c s IH]; simpl; intros pos k m Hrun; [discriminate|].
  destruct (accepts a c) eqn:Hc; [|discriminate].
  destruct (plus_loop a (S pos) s k) as [m'|] eqn:Hlonger.
  - injection Hrun as ->.
    destruct (IH _ _ _ Hlonger) as (w & rest & -> & _ & Hw & Hk).
    exists (String c w), rest. rewrite append_String. simpl.
    rewrite Hc, Hw. repeat split; [discriminate|].
    now replace (pos + S (String.length w)) with (S pos + String.length w) by lia.
  - exists (String c ""), s. simpl. rewrite Hc.
    repeat split; [discriminate|].
    now replace (pos + 1) with (S pos) by lia.
Qed.

Ltac found := repeat split; try reflexivity; eauto.

Lemma run_sound r : forall pos s g k m,
  run r pos s g k = Some m ->
  exists w rest g',
    s = w +:+ rest /\ denote r pos w rest g g' /\
    k (pos + String.length w) rest g' = Some m.
Proof.
  induction r as [a|a|a|r1 IH1 r2 IH2|name r IH| | |]; simpl; intros pos s g k m Hrun.
  - destruct s as [|c s]; [discriminate|].
    destruct (accepts a c) eqn:Hc; [|discriminate].
    exists (String c ""), s, g. simpl.
    replace (pos + 1) with (S pos) by lia. found.
  - assert (Hskip : k pos s g = Some m ->
              exists w rest g', s = w +:+ rest /\
                ((w = "" \/ exists c, w = String c "" /\ accepts a c = true) /\ g' = g) /\
                k (pos + String.length w) rest g' = Some m).
    { intros Hk. exists "", s, g. simpl. rewrite Nat.add_0_r. found. }
    destruct s as [|c s]; [auto|].
    destruct (accepts a c) eqn:Hc; [|auto].
    destruct (k (S pos) s g) as [m'|] eqn:Hk; [|auto].
    injection Hrun as ->.
    exists (String c ""), s, g. simpl.
    replace (pos + 1) with (S pos) by lia. found.
  - destruct (plus_loop_sound _ _ _ _ _ Hrun) as (w & rest & -> & Hne & Hw & Hk).
    exists w, rest, g. found.
  - destruct (IH1 _ _ _ _ _ Hrun) as (w1 & rest1 & g1 & -> & H1 & Hrun2).
    destruct (IH2 _ _ _ _ _ Hrun2) as (w2 & rest & g2 & -> & H2 & Hk).
    exists (w1 +:+ w2), rest, g2.
    rewrite append_assoc, length_append, Nat.add_assoc.
    split; [reflexivity|]. split; [|exact Hk]. exists w1, w2, g1. found.
  - destruct (IH _ _ _ _ _ Hrun) as (w & rest & g1 & -> & Hr & Hk).
    replace (pos + String.length w - pos) with (String.length w) in Hk by lia.
    rewrite substring_prefix in Hk. exists w, rest, ((name, w) :: g1). found.
  - exists "", s, g. simpl. rewrite Nat.add_0_r. found.
  - destruct (Nat.eqb_spec pos 0) as [->|]; [|discriminate].
    exists "", s, g. simpl. found.
  - exists "", s, g. simpl. rewrite Nat.add_0_r.
    destruct s as [|c [|c' s]]; try discriminate; [found|].
    destruct (Ascii.eqb_spec c "010") as [->|]; [found | discriminate].
Qed.

(** A greedy repetition stops where the subject makes it: when what
    follows a run of accepted characters is the end or a character
    that is not accepted, and the rest of the pattern matches from
    there, that is the match. *)

Lemma plus_loop_stuck a rest pos k : stops a rest -> plus_loop a pos rest k = None.
Proof. destruct rest as [|c rest]; simpl; [reflexivity | now intros ->]. Qed.

Lemma plus_loop_greedy a w : forall rest pos k m,
  w <> "" -> string_forall (accepts a) w = true -> stops a rest ->
  k (pos + String.length w) rest = Some m ->
  plus_loop a pos (w +:+ rest) k = Some m.
Proof.
  induction w as [|c w IH]; intros rest pos k m Hne Hw Hstop Hk; [congruence|].
  rewrite append_String. simpl in *.
  apply andb_true_iff in Hw as [Hc Hw]. rewrite Hc.
  replace (pos + S (String.length w)) with (S pos + String.length w) in Hk by lia.
  destruct w as [|c' w].
  - rewrite append_Empty, (plus_loop_stuck _ _ _ _ Hstop).
    simpl in Hk. now rewrite Nat.add_0_r in Hk.
  - now rewrite (IH rest (S pos) k m).
Qed.

(** ** The URI grammar *)

Lemma free_of_accepts c s :
  string_forall (accepts (NoneOf [c])) s = free_of c s.
Proof.
  unfold free_of. induction s as [|x s IH]; simpl; [reflexivity|].
  now rewrite IH, orb_false_r.
Qed.

Lemma name_chars_free s :
  name_chars s = free_of "/" s && free_of "#" s && free_of "?" s.
Proof.
  unfold name_chars, free_of. induction s as [|x s IH]; simpl; [reflexivity|].
  rewrite IH, orb_false_r.
  destruct (Ascii.eqb x "/"), (Ascii.eqb x "#"), (Ascii.eqb x "?"); simpl;
    repeat (rewrite ?andb_true_r, ?andb_false_r; simpl); try reflexivity.
Qed.

(** The matcher, one step at a time. *)
Lemma run_Cat r1 r2 pos s g k :
  run (Cat r1 r2) pos s g k
  = run r1 pos s g (fun pos' s' g' => run r2 pos' s' g' k).
Proof. reflexivity. Qed.

Lemma run_Bol s g k : run Bol 0 s g k = k 0 s g.
Proof. reflexivity. Qed.

Lemma run_Chr a c s pos g k :
  accepts a c = true -> run (Chr a) pos (String c s) g k = k (S pos) s g.
Proof. simpl. now intros ->. Qed.

Lemma run_Eol pos g k : run Eol pos "" g k = k pos "" g.
Proof. reflexivity. Qed.

Lemma takes_Chr a c pos rest :
  accepts a c = true -> takes (Chr a) pos (String c "") rest.
Proof.
  intros Hc g k m Hk. rewrite append_String, append_Empty, run_Chr by assumption.
  simpl in Hk. now rewrite Nat.add_1_r in Hk.
Qed.

Lemma takes_Eps pos rest : takes Eps pos "" rest.
Proof. intros g k m Hk. simpl in *. now rewrite Nat.add_0_r in Hk. Qed.

Lemma takes_Cat r1 r2 pos w1 w2 rest :
  takes r1 pos w1 (w2 +:+ rest) ->
  takes r2 (pos + String.length w1) w2 rest ->
  takes (Cat r1 r2) pos (w1 +:+ w2) rest.
Proof.
  intros H1 H2 g k m Hk. rewrite run_Cat, append_assoc.
  apply H1, H2. now rewrite length_append, Nat.add_assoc in Hk.
Qed.

Lemma takes_literal l : forall pos rest, takes (literal l) pos l rest.
Proof.
  induction l as [|c l IH]; intros pos rest; [apply takes_Eps|].
  change (literal (String c l)) with (Cat (Chr (Lit c)) (literal l)).
  change (String c l) with (String c "" +:+ l).
  apply takes_Cat; [|apply IH].
  apply takes_Chr. simpl. apply Ascii.eqb_refl.
Qed.

Lemma takes_Opt_present a c pos rest :
  accepts a c = true -> takes (Opt a) pos (String c "") rest.
Proof.
  intros Hc g k m Hk. rewrite append_String, append_Empty. simpl.
  simpl in Hk. rewrite Nat.add_1_r in Hk. now rewrite Hc, Hk.
Qed.

Lemma takes_Opt_absent a pos rest : stops a rest -> takes (Opt a) pos "" rest.
Proof.
  intros Hstop g k m Hk. rewrite append_Empty. simpl in Hk.
  rewrite Nat.add_0_r in Hk.
  destruct rest as [|c rest]; simpl in *; [assumption|]. now rewrite Hstop.
Qed.

Lemma takes_Plus a pos w rest :
  w <> "" -> string_forall (accepts a) w = true -> stops a rest ->
  takes (Plus a) pos w rest.
Proof.
  intros Hne Hw Hstop g k m Hk. simpl. now apply plus_loop_greedy.
Qed.

(** A named group around a pattern that takes [w] records [w]. *)
Lemma run_Named name r pos w rest g k m :
  takes r pos w rest ->
  k (pos + String.length w) rest ((name, w) :: g) = Some m ->
  run (Named name r) pos (w +:+ rest) g k = Some m.
Proof.
  intros Hr Hk. simpl. apply Hr.
  replace (pos + String.length w - pos) with (String.length w) by lia.
  now rewrite substring_prefix.
Qed.

Lemma takes_namespace tls host pos rest :
  host <> "" -> free_of "/" host = true -> stops (NoneOf ["/"%char]) rest ->
  takes (Cat (literal "http")
        (Cat (Opt (Lit "s"))
        (Cat (literal "://")
             (Plus (NoneOf ["/"%char])))))
    pos (scheme tls +:+ host) rest.
Proof.
  intros Hne Hhost Hstop. rewrite <- free_of_accepts in Hhost.
  replace (scheme tls +:+ host)
    with ("http" +:+ (if tls then "s" else "") +:+ "://" +:+ host)
    by (destruct tls; reflexivity).
  apply takes_Cat; [apply takes_literal|].
  apply takes_Cat; [destruct tls|].
  - now apply takes_Opt_present.
  - now apply takes_Opt_absent.
  - apply takes_Cat; [apply takes_literal|]. now apply takes_Plus.
Qed.

(** Every string [scheme://host/version/name] whose three parts are not
    empty, with a host and a version free of [/] and a name free of
    [/], [#] and [?], matches, and the groups are these parts. *)
Lemma URI_REGEX_complete (tls : bool) (host v n : string) :
  host <> "" -> free_of "/" host = true ->
  v <> "" -> free_of "/" v = true ->
  n <> "" -> name_chars n = true ->
  re_match URI_REGEX ((scheme tls +:+ host) +:+ "/" +:+ v +:+ "/" +:+ n)
  = Some [("name", n); ("version", v); ("namespace", scheme tls +:+ host)].
Proof.
  intros Hhost Hhost' Hv Hv' Hn Hn'.
  rewrite <- free_of_accepts in Hv'.
  unfold re_match, URI_REGEX.
  rewrite run_Cat, run_Bol, run_Cat.
  apply run_Named; [now apply takes_namespace|].
  rewrite run_Cat, append_String, append_Empty, run_Chr by reflexivity.
  rewrite run_Cat.
  apply run_Named; [now apply takes_Plus|].
  rewrite run_Cat, append_String, append_Empty, run_Chr by reflexivity.
  rewrite run_Cat, <- (append_empty_r n).
  apply run_Named; [now apply takes_Plus|].
  now rewrite append_empty_r.
Qed.

Lemma denote_literal l : forall pos w rest g g',
  denote (literal l) pos w rest g g' -> w = l /\ g' = g.
Proof.
  induction l as [|c l IH]; simpl; intros pos w rest g g' Hd; [exact Hd|].
  destruct Hd as (w1 & w2 & g1 & -> & ((c' & -> & Hc) & ->) & Hl).
  apply IH in Hl as [-> ->]. apply Ascii.eqb_eq in Hc as ->. auto.
Qed.

(** Conversely, what [URI_REGEX] matches has that shape (a line feed
    may follow), and the groups are its parts. *)
Lemma URI_REGEX_sound (s : string) (m : groups) :
  re_match URI_REGEX s = Some m ->
  exists tls host v n tail,
    s = ((scheme tls +:+ host) +:+ "/" +:+ v +:+ "/" +:+ n) +:+ tail /\
    (tail = "" \/ tail = newline) /\
    host <> "" /\ free_of "/" host = true /\
    v <> "" /\ free_of "/" v = true /\
    n <> "" /\ name_chars n = true /\
    m = [("name", n); ("version", v); ("namespace", scheme tls +:+ host)].
Proof.
  unfold re_match. intros Hrun.
  apply run_sound in Hrun as (w & tail & g' & -> & Hw & [= ->]).
  unfold URI_REGEX in Hw. cbn [denote] in Hw.
  destruct Hw as (? & ? & ? & -> & (-> & _ & ->) & Hw).
  destruct Hw as (ns & ? & ? & -> & (? & Hns & ->) & Hw).
  destruct Hns as (? & ? & ? & -> & [-> ->]%denote_literal & Hns).
  destruct Hns as (opt & ? & ? & -> & (Hopt & ->) & Hns).
  destruct Hns as (? & host & ? & -> & [-> ->]%denote_literal & Hhost & Hhost' & ->).
  destruct Hw as (? & ? & ? & -> & ((? & -> & ->%Ascii.eqb_eq) & ->) & Hw).
  destruct Hw as (v & ? & ? & -> & (? & (Hv & Hv' & ->) & ->) & Hw).
  destruct Hw as (? & ? & ? & -> & ((? & -> & ->%Ascii.eqb_eq) & ->) & Hw).
  destruct Hw as (n & ? & ? & -> & (? & (Hn & Hn' & ->) & ->) & (-> & Htail & ->)).
  rewrite free_of_accepts in Hhost', Hv'.
  assert (Hscheme : exists tls, "http" +:+ opt +:+ "://" +:+ host = scheme tls +:+ host).
  { destruct Hopt as [->|(c & -> & ->%Ascii.eqb_eq)];
      [exists false | exists true]; reflexivity. }
  destruct Hscheme as [tls Hscheme].
  exists tls, host, v, n, tail.
  rewrite <- Hscheme. rewrite !append_Empty, !append_empty_r.
  repeat split; try assumption.
Qed.

(** ** The identity codec *)

Section CodecProperties.
Context {E : Type} `{SOFTModel E}.

Lemma get_version_set (entity : E) v :
  version entity = Some v -> get_version entity = Return v.
Proof. unfold get_version. now intros ->. Qed.

(** [get_updated_version] by the pieces of the current version. *)
Lemma get_updated_version_pieces (entity : E) v :
  get_version entity = Return v ->
  get_updated_version entity =
    match split "." v with
    | [M] => Return (M +:+ ".1")
    | [M; N] => Return (M +:+ "." +:+ N +:+ ".1")
    | [M; N; P] =>
        patch ← int P;
        incremented ← str_of_int (patch + 1);
        Return (M +:+ "." +:+ N +:+ "." +:+ incremented)
    | _ => Raise unsupported_version_shape
    end.
Proof.
  intros Hv. unfold get_updated_version. rewrite Hv.
  change (Return v ≫= ?f) with (f v). cbv beta.
  destruct (split "." v) as [|M [|N [|P [|Q rest]]]]; reflexivity.
Qed.

Lemma split_two M N :
  free_of "." M = true -> free_of "." N = true ->
  split "." (M +:+ "." +:+ N) = [M; N].
Proof.
  intros HM HN. rewrite append_String, append_Empty.
  now rewrite split_append, split_free.
Qed.

Lemma split_three M N P :
  free_of "." M = true -> free_of "." N = true -> free_of "." P = true ->
  split "." (M +:+ "." +:+ N +:+ "." +:+ P) = [M; N; P].
Proof.
  intros HM HN HP. rewrite append_String, append_Empty.
  now rewrite split_append, split_two.
Qed.

(** The third piece of a version goes through [int()] and its
    successor through [str()]. *)
Lemma get_updated_version_patch (entity : E) v M N P :
  get_version entity = Return v -> split "." v = [M; N; P] ->
  (forall p, int P = Return p -> within_limit (p + 1) = true ->
     get_updated_version entity
     = Return (M +:+ "." +:+ N +:+ "." +:+ decimal (p + 1))) /\
  (forall p, int P = Return p -> within_limit (p + 1) = false ->
     get_updated_version entity = Raise exceeds_limit_str) /\
  (forall e, int P = Raise e -> get_updated_version entity = Raise e).
Proof.
  intros Hv Hsplit. rewrite (get_updated_version_pieces _ _ Hv), Hsplit.
  repeat split.
  - intros p -> Hp. simpl. unfold str_of_int. now rewrite Hp.
  - intros p -> Hp. simpl. unfold str_of_int. now rewrite Hp.
  - now intros e ->.
Qed.

(** [int()] refuses more digits than the limit, and no fewer. *)
Lemma int_literal_too_many_digits s digits :
  int_literal s = too_many_digits digits -> int_max_str_digits < digits.
Proof.
  unfold int_literal.
  destruct (match lstrip s with
            | String "-" rest => (true, rest)
            | String "+" rest => (false, rest)
            | rest => (false, rest)
            end) as [negative after_sign].
  assert (Hscan : match scan_digits after_sign 0 0 false with
                  | scan_error => not_a_literal
                  | scan_end value digits' rest =>
                      if int_max_str_digits <? digits' then too_many_digits digits'
                      else if digits' =? 0 then not_a_literal
                      else if String.eqb (lstrip rest) "" then
                        a_literal (if negative then - value else value)%Z
                      else not_a_literal
                  end = too_many_digits digits -> int_max_str_digits < digits).
  { destruct (scan_digits after_sign 0 0 false) as [|value digits' rest];
      [discriminate|].
    destruct (int_max_str_digits <? digits') eqn:Hlimit.
    - intros [= <-]. now apply Nat.ltb_lt.
    - destruct (digits' =? 0); [discriminate|].
      destruct (String.eqb (lstrip rest) ""); discriminate. }
  destruct after_sign as [|c rest]; [exact Hscan|].
  destruct (Ascii.eqb_spec c "_") as [->|Hc]; [discriminate|].
  destruct c as [[] [] [] [] [] [] [] []]; try exact Hscan. congruence.
Qed.

(** C3, amended.  [get_updated_version] turns MAJOR into MAJOR.1,
    MAJOR.MINOR into MAJOR.MINOR.1 and MAJOR.MINOR.PATCH into
    MAJOR.MINOR.(PATCH+1) when [int()] reads PATCH and PATCH+1 is
    within the limit of digits that [str()] writes; a version of any
    other number of dot-separated pieces raises the unsupported-shape
    error.  So "1" gives "1.1", "2.3" gives "2.3.1", "2.3.4" gives
    "2.3.5" and "1.2.3.4" fails. *)
Theorem C3_get_updated_version_shapes (entity : E) :
  (forall M, get_version entity = Return M -> free_of "." M = true ->
     get_updated_version entity = Return (M +:+ ".1")) /\
  (forall M N, get_version entity = Return (M +:+ "." +:+ N) ->
     free_of "." M = true -> free_of "." N = true ->
     get_updated_version entity = Return (M +:+ "." +:+ N +:+ ".1")) /\
  (forall M N P p, get_version entity = Return (M +:+ "." +:+ N +:+ "." +:+ P) ->
     free_of "." M = true -> free_of "." N = true -> free_of "." P = true ->
     int P = Return p -> within_limit (p + 1) = true ->
     get_updated_version entity
     = Return (M +:+ "." +:+ N +:+ "." +:+ decimal (p + 1))) /\
  (forall v, get_version entity = Return v ->
     length (split "." v) <> 1 -> length (split "." v) <> 2 ->
     length (split "." v) <> 3 ->
     get_updated_version entity = Raise unsupported_version_shape) /\
  (version entity = Some "1" -> get_updated_version entity = Return "1.1") /\
  (version entity = Some "2.3" -> get_updated_version entity = Return "2.3.1") /\
  (version entity = Some "2.3.4" -> get_updated_version entity = Return "2.3.5") /\
  (version entity = Some "1.2.3.4" ->
     get_updated_version entity = Raise unsupported_version_shape).
Proof.
  repeat split.
  - intros M Hv HM.
    now rewrite (get_updated_version_pieces _ _ Hv), split_free.
  - intros M N Hv HM HN.
    now rewrite (get_updated_version_pieces _ _ Hv), split_two.
  - intros M N P p Hv HM HN HP Hp Hlimit.
    rewrite (get_updated_version_pieces _ _ Hv), split_three by assumption.
    rewrite Hp. simpl. unfold str_of_int. now rewrite Hlimit.
  - intros v Hv H1 H2 H3. rewrite (get_updated_version_pieces _ _ Hv).
    pose proof (split_length_pos "." v).
    destruct (split "." v) as [|M [|N [|P [|Q rest]]]]; simpl in *;
      congruence || lia.
  - intros Hv%get_version_set. now rewrite (get_updated_version_pieces _ _ Hv).
  - intros Hv%get_version_set. now rewrite (get_updated_version_pieces _ _ Hv).
  - intros Hv%get_version_set. now rewrite (get_updated_version_pieces _ _ Hv).
  - intros Hv%get_version_set. now rewrite (get_updated_version_pieces _ _ Hv).
Qed.

(** C9, amended.  A version of one or two pieces gets [.1] appended
    whatever the pieces hold ("foo" gives "foo.1", "a.b" gives
    "a.b.1"); with three pieces the outcome depends on the third
    alone: [int()] has to read it, and its successor has to be within
    the limit of digits that [str()] writes.  For a third piece of
    ASCII characters, [int()] fails on what is no literal and on a
    literal of more digits than the limit.  When the version is there,
    the only errors are the one for the number of pieces (four or
    more), those of [int()] on the third piece and the one of [str()]
    on its successor. *)
Theorem C9_only_patch_is_inspected (entity : E) :
  (forall v, get_version entity = Return v ->
     length (split "." v) = 1 \/ length (split "." v) = 2 ->
     get_updated_version entity = Return (v +:+ ".1")) /\
  (version entity = Some "foo" -> get_updated_version entity = Return "foo.1") /\
  (version entity = Some "a.b" -> get_updated_version entity = Return "a.b.1") /\
  (forall v M N P, get_version entity = Return v -> split "." v = [M; N; P] ->
     (forall p, int P = Return p -> within_limit (p + 1) = true ->
        get_updated_version entity
        = Return (M +:+ "." +:+ N +:+ "." +:+ decimal (p + 1))) /\
     (forall p, int P = Return p -> within_limit (p + 1) = false ->
        get_updated_version entity = Raise exceeds_limit_str) /\
     (forall e, int P = Raise e -> get_updated_version entity = Raise e)) /\
  (forall P e, is_ascii P = true -> int P = Raise e ->
     (int_literal P = not_a_literal /\ e = invalid_literal P) \/
     (exists digits, int_literal P = too_many_digits digits /\
                     int_max_str_digits < digits /\ e = exceeds_limit_int digits)) /\
  (forall v e, get_version entity = Return v ->
     get_updated_version entity = Raise e ->
     (e = unsupported_version_shape /\ 4 <= length (split "." v)) \/
     (exists M N P, split "." v = [M; N; P] /\
        (int P = Raise e \/
         exists p, int P = Return p /\ within_limit (p + 1) = false /\
                   e = exceeds_limit_str))).
Proof.
  split; [|split; [|split; [|split; [|split]]]].
  - intros v Hv Hlen. rewrite (get_updated_version_pieces _ _ Hv).
    pose proof (join_split "." v) as Hjoin.
    destruct (split "." v) as [|M [|N [|P rest]]]; simpl in Hlen; try lia.
    + simpl in Hjoin. now subst.
    + simpl in Hjoin. subst v. now rewrite append_assoc, append_String.
  - intros Hv%get_version_set. now rewrite (get_updated_version_pieces _ _ Hv).
  - intros Hv%get_version_set. now rewrite (get_updated_version_pieces _ _ Hv).
  - intros v M N P Hv Hsplit. now apply get_updated_version_patch with (v := v).
  - intros P e HP. unfold int. rewrite HP.
    destruct (int_literal P) as [n|digits|] eqn:Hliteral; [discriminate|..];
      intros [= <-].
    + right. exists digits. repeat split.
      now apply int_literal_too_many_digits with (s := P).
    + left. now split.
  - intros v e Hv. rewrite (get_updated_version_pieces _ _ Hv).
    pose proof (split_not_nil "." v) as Hnil.
    destruct (split "." v) as [|M [|N [|P [|Q rest]]]] eqn:Hsplit;
      try discriminate; [congruence|..].
    + destruct (int P) as [p|e'] eqn:HP; simpl.
      * unfold str_of_int. destruct (within_limit (p + 1)) eqn:Hlimit;
          [discriminate|].
        intros [= <-]. right. exists M, N, P. split; [reflexivity|].
        right. now exists p.
      * intros [= <-]. right. exists M, N, P. auto.
    + intros [= <-]. left. split; [reflexivity | simpl; lia].
Qed.

(** C8.  [get_version] returns the [version] attribute when it is set.
    When it is not, a [uri] of the grammar gives its version part, and
    whatever is returned is the version part of the [uri] under the
    grammar; a [uri] the grammar does not match, and so a [uri] that is
    not set, raises the missing-version error. *)
Theorem C8_get_version (entity : E) :
  (forall v, version entity = Some v -> get_version entity = Return v) /\
  (version entity = None ->
   forall u tls host v n,
     uri entity = Some u ->
     url_str u = (scheme tls +:+ host) +:+ "/" +:+ v +:+ "/" +:+ n ->
     host <> "" -> free_of "/" host = true ->
     v <> "" -> free_of "/" v = true ->
     n <> "" -> name_chars n = true ->
     get_version entity = Return v) /\
  (version entity = None ->
   forall v, get_version entity = Return v ->
     exists m, re_match URI_REGEX (str_url (uri entity)) = Some m /\
               group m "version" = Some v /\
     exists tls host n tail,
       str_url (uri entity)
       = ((scheme tls +:+ host) +:+ "/" +:+ v +:+ "/" +:+ n) +:+ tail /\
       free_of "/" host = true /\ v <> "" /\ free_of "/" v = true /\
       name_chars n = true /\ (tail = "" \/ tail = newline)) /\
  (version entity = None ->
   re_match URI_REGEX (str_url (uri entity)) = None ->
   get_version entity = Raise missing_version) /\
  (version entity = None -> uri entity = None ->
   get_version entity = Raise missing_version).
Proof.
  split; [|split; [|split; [|split]]].
  - apply get_version_set.
  - intros Hunset u tls host v n Hu Hstr Hhost Hhost' Hv Hv' Hn Hn'.
    unfold get_version. rewrite Hunset, Hu. unfold str_url. simpl.
    rewrite Hstr, URI_REGEX_complete by assumption. reflexivity.
  - intros Hunset v. unfold get_version. rewrite Hunset.
    destruct (re_match URI_REGEX (str_url (uri entity))) as [m|] eqn:Hm;
      [|discriminate].
    destruct (URI_REGEX_sound _ _ Hm)
      as (tls & host & v' & n & tail & Hs & Htail & _ & Hhost & Hv & Hv' & _ & Hn & ->).
    intros [= <-]. eexists. split; [reflexivity|]. split; [reflexivity|].
    exists tls, host, n, tail. repeat split; assumption.
  - intros Hunset Hnone. unfold get_version. now rewrite Hunset, Hnone.
  - intros Hunset Hnone. unfold get_version. now rewrite Hunset, Hnone.
Qed.

(** [get_uri] by cases of the [uri] attribute. *)
Lemma get_uri_set (entity : E) u : uri entity = Some u -> get_uri entity = url_str u.
Proof. unfold get_uri. now intros ->. Qed.

Lemma get_uri_unset (entity : E) :
  uri entity = None ->
  get_uri entity
  = str_url (namespace entity) +:+ "/" +:+ str_or_None (version entity)
      +:+ "/" +:+ str_or_None (name entity).
Proof. unfold get_uri. now intros ->. Qed.

End CodecProperties.

(** ** Validation *)

Lemma checked_map_Valid {A B} (f : A -> B) c y :
  checked_map f c = Valid y -> exists x, c = Valid x /\ y = f x.
Proof. destruct c; simpl; intros [= <-] || discriminate. eauto. Qed.

Lemma checked_ap_Valid {A B} (f : checked (A -> B)) c y :
  f <*> c = Valid y -> exists f' x, f = Valid f' /\ c = Valid x /\ y = f' x.
Proof. destruct f, c; simpl; intros [= <-] || discriminate. eauto. Qed.

Lemma under_Valid {A} l (c : checked A) x : under l c = Valid x -> c = Valid x.
Proof. destruct c; simpl; congruence. Qed.

Lemma field_Valid {A} data key (schema : value -> checked A) default x :
  field data key schema default = Valid x ->
  match data !! key with
  | Some v => schema v = Valid x
  | None => default = Some x
  end.
Proof.
  unfold field. destruct (data !! key) as [v|].
  - apply under_Valid.
  - destruct default; congruence.
Qed.

Lemma nullable_Valid {A} (schema : value -> checked A) v y :
  nullable schema v = Valid y ->
  (v = VNone /\ y = None) \/ (exists x, schema v = Valid x /\ y = Some x).
Proof.
  destruct v; simpl; try (intros (x & ? & ->)%checked_map_Valid; eauto).
  intros [= <-]. auto.
Qed.

Lemma after_Valid {A} (schema : value -> checked A) validator v y :
  after schema validator v = Valid y ->
  exists x, schema v = Valid x /\ validator x = Return y.
Proof.
  unfold after. destruct (schema v) as [x| |]; try discriminate.
  destruct (validator x) as [y'|[]] eqn:Hval; try discriminate.
  intros [= <-]. eauto.
Qed.

Lemma _validate_base_url_Return value y :
  _validate_base_url value = Return y ->
  y = value /\
  startswith (str_url value) (url_str (ServiceSettings.base_url CONFIG)) = true.
Proof.
  unfold _validate_base_url.
  destruct (startswith _ _); simpl; [intros [= <-]; auto | discriminate].
Qed.

Lemma _only_support_onto_ns_Return value y :
  _only_support_onto_ns value = Return y ->
  y = value /\ url_str value = EntitySchema_v0_3.
Proof.
  unfold _only_support_onto_ns, EntitySchema_v0_3.
  destruct (String.eqb_spec (url_str value) "http://onto-ns.com/meta/0.3/EntitySchema");
    simpl; [intros [= <-]; auto | discriminate].
Qed.

(** Validation of the models never ends in an exception of its own. *)
Lemma handled_map {A B} (f : A -> B) c : handled c -> handled (checked_map f c).
Proof. now destruct c. Qed.

Lemma handled_ap {A B} (f : checked (A -> B)) c :
  handled f -> handled c -> handled (f <*> c).
Proof. now destruct f, c. Qed.

Lemma handled_under {A} l (c : checked A) : handled c -> handled (under l c).
Proof. now destruct c. Qed.

Lemma handled_field {A} data key (schema : value -> checked A) default :
  (forall v, handled (schema v)) -> handled (field data key schema default).
Proof.
  intros Hs. unfold field. destruct (data !! key).
  - apply handled_under, Hs.
  - now destruct default.
Qed.

Lemma handled_str_schema v : handled (str_schema v).
Proof. now destruct v. Qed.

Lemma handled_url_schema v : handled (url_schema v).
Proof. destruct v; simpl; try exact I. now destruct (AnyHttpUrl_validate s). Qed.

Lemma handled_nullable {A} (schema : value -> checked A) v :
  (forall v, handled (schema v)) -> handled (nullable schema v).
Proof. intros Hs. destruct v; simpl; try exact I; apply handled_map, Hs. Qed.

Lemma handled_list_items {A} (schema : value -> checked A) items :
  (forall v, handled (schema v)) -> forall i, handled (list_items schema i items).
Proof.
  intros Hs. induction items as [|v items IH]; intros i; simpl; [exact I|].
  apply handled_ap; [apply handled_map, handled_under, Hs | apply IH].
Qed.

Lemma handled_list_schema {A} (schema : value -> checked A) v :
  (forall v, handled (schema v)) -> handled (list_schema schema v).
Proof.
  intros Hs. destruct v; simpl; try exact I. now apply handled_list_items.
Qed.

Lemma handled_model_schema {A} (fields : gmap string value -> checked A) v :
  (forall d, handled (fields d)) -> handled (model_schema fields v).
Proof. intros Hf. destruct v; simpl; try exact I. apply Hf. Qed.

Lemma handled_after {A} (schema : value -> checked A) validator v :
  (forall v, handled (schema v)) ->
  (forall x, (exists y, validator x = Return y) \/
             (exists msg, validator x = Raise (ValueError msg))) ->
  handled (after schema validator v).
Proof.
  intros Hs Hv. unfold after. specialize (Hs v).
  destruct (schema v) as [x| |]; try exact I; [|contradiction].
  destruct (Hv x) as [[y ->]|[msg ->]]; exact I.
Qed.

Create HintDb handled.
#[local] Hint Resolve handled_map handled_ap handled_field handled_str_schema
  handled_url_schema handled_nullable handled_list_schema handled_model_schema
  handled_after : handled.

Lemma handled_SOFT5Dimension data : handled (SOFT5Dimension__init__ data).
Proof. unfold SOFT5Dimension__init__. auto 10 with handled. Qed.

Lemma handled_SOFT5Property data : handled (SOFT5Property__init__ data).
Proof. unfold SOFT5Property__init__. auto 20 with handled. Qed.

Lemma _validate_base_url_raises value :
  (exists y, _validate_base_url value = Return y) \/
  (exists msg, _validate_base_url value = Raise (ValueError msg)).
Proof. unfold _validate_base_url. destruct (negb _); eauto. Qed.

Lemma _only_support_onto_ns_raises value :
  (exists y, _only_support_onto_ns value = Return y) \/
  (exists msg, _only_support_onto_ns value = Raise (ValueError msg)).
Proof. unfold _only_support_onto_ns. destruct (negb _); eauto. Qed.

Lemma handled_SOFT5Entity_fields data : handled (SOFT5Entity_fields data).
Proof.
  unfold SOFT5Entity_fields.
  repeat apply handled_ap; try apply handled_map; apply handled_field; intros v;
    auto using handled_SOFT5Dimension, handled_SOFT5Property,
      _validate_base_url_raises, _only_support_onto_ns_raises with handled.
Qed.

(** ** The SOFT5 dialect *)

Lemma _check_cross_dependent_fields_Return data data' :
  _check_cross_dependent_fields data = Return data' ->
  data' = data /\
  ((supplied data "name" = true /\ supplied data "version" = true /\
    supplied data "namespace" = true) \/
   (supplied data "name" = false /\ supplied data "version" = false /\
    supplied data "namespace" = false)).
Proof.
  unfold _check_cross_dependent_fields, supplied. simpl.
  destruct (is_None (get data "name")), (is_None (get data "version")),
    (is_None (get data "namespace")); simpl; intros [= <-] || discriminate; auto.
Qed.

Lemma _check_cross_dependent_fields_outcome data :
  _check_cross_dependent_fields data = Return data \/
  exists msg, _check_cross_dependent_fields data = Raise (ValueError msg).
Proof.
  unfold _check_cross_dependent_fields.
  destruct (existsb _ _); [destruct (negb _)|]; eauto.
Qed.

(** The constructor returns an entity or raises [ValidationError],
    nothing else. *)
Lemma SOFT5Entity__init___outcome kwargs :
  (exists e, SOFT5Entity__init__ kwargs = Return e) \/
  (exists exc, SOFT5Entity__init__ kwargs = Raise (PydanticValidationError exc)).
Proof.
  unfold SOFT5Entity__init__.
  destruct (_check_cross_dependent_fields_outcome kwargs) as [->|[msg ->]];
    [|eauto].
  pose proof (handled_SOFT5Entity_fields kwargs) as Hh.
  destruct (SOFT5Entity_fields kwargs); simpl in *; eauto. contradiction.
Qed.

Lemma SOFT5Entity__init___Return kwargs e :
  SOFT5Entity__init__ kwargs = Return e ->
  _check_cross_dependent_fields kwargs = Return kwargs /\
  SOFT5Entity_fields kwargs = Valid e.
Proof.
  unfold SOFT5Entity__init__.
  destruct (_check_cross_dependent_fields_outcome kwargs) as [->|[msg ->]];
    [|discriminate].
  destruct (SOFT5Entity_fields kwargs); simpl; intros [= <-] || discriminate.
  auto.
Qed.

(** An entity is made of the outcomes of its fields. *)
Lemma SOFT5Entity_fields_Valid data e :
  SOFT5Entity_fields data = Valid e ->
  field data "name" (nullable str_schema) (Some None)
    = Valid (SOFT5Entity.name e) /\
  field data "version" (nullable str_schema) (Some None)
    = Valid (SOFT5Entity.version e) /\
  field data "namespace" (after (nullable url_schema) _validate_base_url) (Some None)
    = Valid (SOFT5Entity.namespace e) /\
  field data "uri" (after (nullable url_schema) _validate_base_url) (Some None)
    = Valid (SOFT5Entity.uri e) /\
  field data "meta" (after url_schema _only_support_onto_ns)
    (Some (Url "http://onto-ns.com/meta/0.3/EntitySchema"))
    = Valid (SOFT5Entity.meta e) /\
  field data "description" str_schema (Some "")
    = Valid (SOFT5Entity.description e) /\
  field data "dimensions" (list_schema (model_schema SOFT5Dimension__init__)) (Some [])
    = Valid (SOFT5Entity.dimensions e) /\
  field data "properties" (list_schema (model_schema SOFT5Property__init__)) required
    = Valid (SOFT5Entity.properties e).
Proof.
  unfold SOFT5Entity_fields. intros Hfields.
  apply checked_ap_Valid in Hfields as (f7 & x8 & Hfields & -> & ->).
  apply checked_ap_Valid in Hfields as (f6 & x7 & Hfields & -> & ->).
  apply checked_ap_Valid in Hfields as (f5 & x6 & Hfields & -> & ->).
  apply checked_ap_Valid in Hfields as (f4 & x5 & Hfields & -> & ->).
  apply checked_ap_Valid in Hfields as (f3 & x4 & Hfields & -> & ->).
  apply checked_ap_Valid in Hfields as (f2 & x3 & Hfields & -> & ->).
  apply checked_ap_Valid in Hfields as (f1 & x2 & Hfields & -> & ->).
  apply checked_map_Valid in Hfields as (x1 & -> & ->).
  simpl. repeat split; reflexivity.
Qed.

(** A [uri] or [namespace] the validation lets through is unset or
    begins with the base URL. *)
Lemma base_url_field_Valid data key y :
  field data key (after (nullable url_schema) _validate_base_url) (Some None)
    = Valid y ->
  forall u, y = Some u ->
    startswith (url_str u) (url_str (ServiceSettings.base_url CONFIG)) = true.
Proof.
  intros Hfield%field_Valid u ->.
  destruct (data !! key) as [v|]; [|discriminate].
  apply after_Valid in Hfield as (x & _ & Hreturn).
  apply _validate_base_url_Return in Hreturn as [<- Hbase]. exact Hbase.
Qed.

Lemma meta_field_Valid data y :
  field data "meta" (after url_schema _only_support_onto_ns)
    (Some (Url "http://onto-ns.com/meta/0.3/EntitySchema")) = Valid y ->
  url_str y = EntitySchema_v0_3.
Proof.
  intros Hfield%field_Valid.
  destruct (data !! "meta") as [v|]; [|now injection Hfield as <-].
  apply after_Valid in Hfield as (x & _ & Hreturn).
  now apply _only_support_onto_ns_Return in Hreturn as [-> Hmeta].
Qed.

Lemma SOFT5Entity_invariant kwargs e :
  SOFT5Entity__init__ kwargs = Return e -> dialect_invariant e.
Proof.
  intros [_ Hfields]%SOFT5Entity__init___Return.
  apply SOFT5Entity_fields_Valid in Hfields
    as (_ & _ & Hns & Huri & Hmeta & _).
  repeat split; simpl.
  - eapply base_url_field_Valid, Huri.
  - eapply base_url_field_Valid, Hns.
  - eapply meta_field_Valid, Hmeta.
Qed.

(** A value off the base URL fails its field. *)
Lemma off_base_not_Valid data key y :
  off_base data key ->
  field data key (after (nullable url_schema) _validate_base_url) (Some None)
    <> Valid y.
Proof.
  intros (v & Hv & Hnone & Hoff) Hfield%field_Valid. rewrite Hv in Hfield.
  apply after_Valid in Hfield as (x & Hx & Hreturn).
  apply _validate_base_url_Return in Hreturn as [-> Hbase].
  apply nullable_Valid in Hx as [[-> _]|(u & Hu & ->)]; [congruence|].
  destruct v; try discriminate. simpl in Hu.
  destruct (AnyHttpUrl_validate s) as [u'|] eqn:Hvalid; [|discriminate].
  injection Hu as ->. specialize (Hoff _ _ eq_refl Hvalid).
  unfold str_url in Hbase. simpl in Hbase. congruence.
Qed.

Lemma other_meta_not_Valid data y :
  other_meta data ->
  field data "meta" (after url_schema _only_support_onto_ns)
    (Some (Url "http://onto-ns.com/meta/0.3/EntitySchema")) <> Valid y.
Proof.
  intros (v & Hv & Hother) Hfield%field_Valid. rewrite Hv in Hfield.
  apply after_Valid in Hfield as (x & Hx & Hreturn).
  apply _only_support_onto_ns_Return in Hreturn as [-> Hmeta].
  destruct v; try discriminate. simpl in Hx.
  destruct (AnyHttpUrl_validate s) as [u'|] eqn:Hvalid; [|discriminate].
  injection Hx as ->. exact (Hother _ _ eq_refl Hvalid Hmeta).
Qed.

Lemma SOFT5Entity_rejects_violation kwargs :
  off_base kwargs "uri" \/ off_base kwargs "namespace" \/ other_meta kwargs ->
  exists exc, SOFT5Entity__init__ kwargs = Raise (PydanticValidationError exc).
Proof.
  intros Hviolation.
  destruct (SOFT5Entity__init___outcome kwargs) as [[e He]|Hraise]; [|exact Hraise].
  apply SOFT5Entity__init___Return in He as [_ Hfields].
  apply SOFT5Entity_fields_Valid in Hfields as (_ & _ & Hns & Huri & Hmeta & _).
  destruct Hviolation as [Hoff|[Hoff|Hother]].
  - now apply off_base_not_Valid with (y := SOFT5Entity.uri e) in Hoff.
  - now apply off_base_not_Valid with (y := SOFT5Entity.namespace e) in Hoff.
  - now apply other_meta_not_Valid with (y := SOFT5Entity.meta e) in Hother.
Qed.

Lemma supplied_field_Some {A} data key (schema : value -> checked (option A)) y :
  supplied data key = true ->
  (forall v x, v <> VNone -> schema v = Valid x -> is_Some x) ->
  field data key schema (Some None) = Valid y -> is_Some y.
Proof.
  unfold supplied, get. intros Hsup Hschema Hfield%field_Valid.
  destruct (data !! key) as [v|]; [|discriminate].
  apply (Hschema v); [|exact Hfield]. now intros ->.
Qed.

Lemma unsupplied_field_None {A} data key (schema : value -> checked (option A)) y :
  supplied data key = false ->
  (forall x, schema VNone = Valid x -> x = None) ->
  field data key schema (Some None) = Valid y -> y = None.
Proof.
  unfold supplied, get. intros Hsup Hschema Hfield%field_Valid.
  destruct (data !! key) as [v|]; [|congruence].
  destruct v; try discriminate. now apply Hschema.
Qed.

Lemma nullable_str_Some v x :
  v <> VNone -> nullable str_schema v = Valid x -> is_Some x.
Proof. intros Hv [[-> _]|(s & _ & ->)]%nullable_Valid; [congruence | eauto]. Qed.

Lemma nullable_url_Some v x :
  v <> VNone ->
  after (nullable url_schema) _validate_base_url v = Valid x -> is_Some x.
Proof.
  intros Hv (y & Hy & Hreturn)%after_Valid.
  apply _validate_base_url_Return in Hreturn as [-> _].
  apply nullable_Valid in Hy as [[-> _]|(s & _ & ->)]; [congruence | eauto].
Qed.

Lemma nullable_url_None x :
  after (nullable url_schema) _validate_base_url VNone = Valid x -> x = None.
Proof.
  intros (y & [= <-] & Hreturn)%after_Valid.
  now apply _validate_base_url_Return in Hreturn as [-> _].
Qed.

(** C5.  The SOFT5 constructor takes a document only if it supplies
    all of [name], [version] and [namespace] or none of them, and the
    entity then has all three or none; a document that supplies some
    but not all of them is rejected with a [ValidationError]. *)
Theorem C5_identity_fields_jointly (kwargs : gmap string value) :
  (forall e, SOFT5Entity__init__ kwargs = Return e ->
     (supplied kwargs "name" = true /\ supplied kwargs "version" = true /\
      supplied kwargs "namespace" = true /\
      is_Some (SOFT5Entity.name e) /\ is_Some (SOFT5Entity.version e) /\
      is_Some (SOFT5Entity.namespace e)) \/
     (supplied kwargs "name" = false /\ supplied kwargs "version" = false /\
      supplied kwargs "namespace" = false /\
      SOFT5Entity.name e = None /\ SOFT5Entity.version e = None /\
      SOFT5Entity.namespace e = None)) /\
  (supplied kwargs "name" || supplied kwargs "version"
     || supplied kwargs "namespace" = true ->
   supplied kwargs "name" && supplied kwargs "version"
     && supplied kwargs "namespace" = false ->
   SOFT5Entity__init__ kwargs = Raise cross_dependent_fields_error).
Proof.
  split.
  - intros e [Hcheck Hfields]%SOFT5Entity__init___Return.
    apply _check_cross_dependent_fields_Return in Hcheck as [_ Hjoint].
    apply SOFT5Entity_fields_Valid in Hfields as (Hname & Hversion & Hns & _).
    destruct Hjoint as [(H1 & H2 & H3)|(H1 & H2 & H3)]; [left|right];
      repeat split; try assumption.
    + eapply supplied_field_Some, Hname; eauto using nullable_str_Some.
    + eapply supplied_field_Some, Hversion; eauto using nullable_str_Some.
    + eapply supplied_field_Some, Hns; eauto using nullable_url_Some.
    + eapply unsupplied_field_None, Hname; [assumption|]. now intros x [= <-].
    + eapply unsupplied_field_None, Hversion; [assumption|]. now intros x [= <-].
    + eapply unsupplied_field_None, Hns; eauto using nullable_url_None.
  - unfold SOFT5Entity__init__, _check_cross_dependent_fields, supplied. simpl.
    destruct (is_None (get kwargs "name")), (is_None (get kwargs "version")),
      (is_None (get kwargs "namespace")); simpl; intros; try discriminate;
      reflexivity.
Qed.

(** A field reads its own key only. *)
Lemma field_insert_ne {A} data key key' v (schema : value -> checked A) default :
  key' <> key ->
  field (<[key' := v]> data) key schema default = field data key schema default.
Proof. intros Hne. unfold field. now rewrite lookup_insert_ne. Qed.

Lemma field_insert_eq {A} data key v (schema : value -> checked A) default :
  field (<[key := v]> data) key schema default = under (Key key) (schema v).
Proof. unfold field. now rewrite lookup_insert_eq. Qed.

Lemma _check_cross_dependent_fields_insert_uri data v :
  _check_cross_dependent_fields data = Return data ->
  _check_cross_dependent_fields (<["uri" := v]> data)
  = Return (<["uri" := v]> data).
Proof.
  unfold _check_cross_dependent_fields, get. simpl.
  rewrite !lookup_insert_ne by discriminate.
  destruct (_ || _); [destruct (negb _)|]; [discriminate|reflexivity..].
Qed.

(** Nothing ties [uri] to the other fields: in a document the
    constructor takes, [uri] may be set to any URL under the base URL,
    and the entity changes in [uri] only. *)
Lemma SOFT5Entity_any_uri kwargs e s u :
  SOFT5Entity__init__ kwargs = Return e ->
  AnyHttpUrl_validate s = Some u ->
  startswith (url_str u) (url_str (ServiceSettings.base_url CONFIG)) = true ->
  SOFT5Entity__init__ (<["uri" := VStr s]> kwargs) = Return (with_uri e (Some u)).
Proof.
  intros [Hcheck Hfields]%SOFT5Entity__init___Return Hvalid Hbase.
  apply SOFT5Entity_fields_Valid in Hfields
    as (Hname & Hversion & Hns & _ & Hmeta & Hdescr & Hdims & Hprops).
  unfold SOFT5Entity__init__.
  rewrite (_check_cross_dependent_fields_insert_uri _ _ Hcheck).
  unfold SOFT5Entity_fields.
  rewrite field_insert_eq, !field_insert_ne by discriminate.
  rewrite Hname, Hversion, Hns, Hmeta, Hdescr, Hdims, Hprops.
  unfold after, _validate_base_url, str_url. simpl. rewrite Hvalid. simpl.
  rewrite Hbase. reflexivity.
Qed.

(** C10.  [get_uri] returns the [uri] attribute whenever it is set,
    whatever [namespace], [version] and [name] hold, and builds
    namespace/version/name only when it is not set; and validation does
    not relate [uri] to the three: the [uri] of a valid document can be
    replaced by any URL under the base URL, and [get_uri] of the entity
    is then that URL. *)
Theorem C10_uri_is_independent :
  (forall E `(SOFTModel E) (entity : E) u,
     uri entity = Some u -> get_uri entity = url_str u) /\
  (forall E `(SOFTModel E) (entity : E),
     uri entity = None ->
     get_uri entity
     = str_url (namespace entity) +:+ "/" +:+ str_or_None (version entity)
         +:+ "/" +:+ str_or_None (name entity)) /\
  (forall kwargs e s u,
     SOFT5Entity__init__ kwargs = Return e ->
     AnyHttpUrl_validate s = Some u ->
     startswith (url_str u) (url_str (ServiceSettings.base_url CONFIG)) = true ->
     SOFT5Entity__init__ (<["uri" := VStr s]> kwargs) = Return (with_uri e (Some u)) /\
     SOFT5Entity.namespace (with_uri e (Some u)) = SOFT5Entity.namespace e /\
     SOFT5Entity.version (with_uri e (Some u)) = SOFT5Entity.version e /\
     SOFT5Entity.name (with_uri e (Some u)) = SOFT5Entity.name e /\
     get_uri (with_uri e (Some u)) = url_str u).
Proof.
  split; [|split].
  - intros E HE entity u. apply get_uri_set.
  - intros E HE entity. apply get_uri_unset.
  - intros kwargs e s u He Hvalid Hbase.
    split; [now apply SOFT5Entity_any_uri|]. repeat split.
Qed.

(** ** The resolver *)

(** The loop, for any list of classes: the first class that constructs
    decides, and the errors of the classes before it are dropped. *)
Lemma soft_entity_loop_first classes excs cls classes' kwargs e :
  Forall2 (fun c exc => c kwargs = Raise (PydanticValidationError exc)) classes excs ->
  cls kwargs = Return e ->
  forall errors,
    soft_entity_loop (classes ++ cls :: classes') kwargs errors = Return (inl e).
Proof.
  intros Hfail Hcls. induction Hfail as [|c exc classes excs Hc _ IH]; intros errors; simpl.
  - now rewrite Hcls.
  - rewrite Hc. apply IH.
Qed.

(** When every class raises [ValidationError], the loop ends with one
    error per class, in the order of the classes. *)
Lemma soft_entity_loop_none classes excs kwargs :
  Forall2 (fun c exc => c kwargs = Raise (PydanticValidationError exc)) classes excs ->
  forall errors,
    soft_entity_loop classes kwargs errors = Return (inr (errors ++ excs)).
Proof.
  intros Hfail. induction Hfail as [|c exc classes excs Hc _ IH]; intros errors; simpl.
  - now rewrite app_nil_r.
  - rewrite Hc, IH, <- app_assoc. reflexivity.
Qed.

(** [soft_entity] by the outcomes of the two constructors. *)
Lemma soft_entity_cases return_errors kwargs :
  soft_entity return_errors kwargs =
    match SOFT7Entity__init__ kwargs with
    | Return e7 => Return (inl (soft7 e7))
    | Raise (PydanticValidationError exc7) =>
        match SOFT5Entity__init__ kwargs with
        | Return e5 => Return (inl (soft5 e5))
        | Raise (PydanticValidationError exc5) =>
            if return_errors then Return (inr [exc7; exc5])
            else Raise (cannot_instantiate [exc7; exc5])
        | Raise e => Raise e
        end
    | Raise e => Raise e
    end.
Proof.
  unfold soft_entity, get_args_VersionedSOFTEntity. simpl.
  destruct (SOFT7Entity__init__ kwargs) as [e7|[]]; simpl; try reflexivity.
  destruct (SOFT5Entity__init__ kwargs) as [e5|[]]; simpl; try reflexivity.
Qed.

(** C2.  [soft_entity] tries [SOFT7Entity] first and [SOFT5Entity]
    second and returns the entity of the first that constructs.  When
    both raise [ValidationError], it returns the list of the two errors,
    in that order, if [return_errors] is true, and otherwise raises a
    [ValueError] whose message is the heading, a line with [str()] of
    the first error and a line with [str()] of the second.  What it
    returns is an entity or such a list, not both. *)
Theorem C2_soft_entity_first_dialect (return_errors : bool) (kwargs : gmap string value) :
  (forall e7, SOFT7Entity__init__ kwargs = Return e7 ->
     soft_entity return_errors kwargs = Return (inl (soft7 e7))) /\
  (forall exc7 e5,
     SOFT7Entity__init__ kwargs = Raise (PydanticValidationError exc7) ->
     SOFT5Entity__init__ kwargs = Return e5 ->
     soft_entity return_errors kwargs = Return (inl (soft5 e5))) /\
  (forall exc7 exc5,
     SOFT7Entity__init__ kwargs = Raise (PydanticValidationError exc7) ->
     SOFT5Entity__init__ kwargs = Raise (PydanticValidationError exc5) ->
     soft_entity true kwargs = Return (inr [exc7; exc5]) /\
     soft_entity false kwargs
     = Raise (ValueError ("Cannot instantiate entity. Errors:" +:+ newline
                          +:+ str_ValidationError exc7 +:+ newline
                          +:+ str_ValidationError exc5))) /\
  (forall result, soft_entity return_errors kwargs = Return result ->
     match result with
     | inl entity =>
         (exists e7, SOFT7Entity__init__ kwargs = Return e7 /\ entity = soft7 e7) \/
         (exists exc7 e5,
            SOFT7Entity__init__ kwargs = Raise (PydanticValidationError exc7) /\
            SOFT5Entity__init__ kwargs = Return e5 /\ entity = soft5 e5)
     | inr errors =>
         return_errors = true /\
         length errors = length get_args_VersionedSOFTEntity /\
         exists exc7 exc5,
           errors = [exc7; exc5] /\
           SOFT7Entity__init__ kwargs = Raise (PydanticValidationError exc7) /\
           SOFT5Entity__init__ kwargs = Raise (PydanticValidationError exc5)
     end).
Proof.
  split; [|split; [|split]].
  - intros e7 H7. now rewrite soft_entity_cases, H7.
  - intros exc7 e5 H7 H5. now rewrite soft_entity_cases, H7, H5.
  - intros exc7 exc5 H7 H5. now rewrite !soft_entity_cases, H7, H5.
  - intros result. rewrite soft_entity_cases.
    destruct (SOFT7Entity__init__ kwargs) as [e7|[]]; try discriminate.
    + intros [= <-]. eauto.
    + destruct (SOFT5Entity__init__ kwargs) as [e5|[]]; try discriminate.
      * intros [= <-]. eauto 6.
      * destruct return_errors; [|discriminate].
        intros [= <-]. repeat split. eauto.
Qed.

(** C4.  The entities of the SOFT5 dialect satisfy the dialect
    invariant, and so does every entity [soft_entity] returns, provided
    the entities of the other dialect do.  A document that gives [uri]
    or [namespace] a value off the base URL, or [meta] another value
    than the supported schema, makes the SOFT5 constructor raise
    [ValidationError]: [soft_entity] does not return a SOFT5 entity for
    it, and when the other dialect raises [ValidationError] too, it
    returns the two errors if asked to. *)
Theorem C4_dialect_invariant :
  (forall kwargs e5, SOFT5Entity__init__ kwargs = Return e5 -> dialect_invariant e5) /\
  ((forall kwargs e7, SOFT7Entity__init__ kwargs = Return e7 -> dialect_invariant e7) ->
   forall return_errors kwargs entity,
     soft_entity return_errors kwargs = Return (inl entity) ->
     dialect_invariant entity) /\
  (forall kwargs,
     off_base kwargs "uri" \/ off_base kwargs "namespace" \/ other_meta kwargs ->
     (exists exc5, SOFT5Entity__init__ kwargs = Raise (PydanticValidationError exc5)) /\
     (forall return_errors e5,
        soft_entity return_errors kwargs <> Return (inl (soft5 e5))) /\
     (forall exc7,
        SOFT7Entity__init__ kwargs = Raise (PydanticValidationError exc7) ->
        exists exc5, soft_entity true kwargs = Return (inr [exc7; exc5]))).
Proof.
  split; [|split].
  - apply SOFT5Entity_invariant.
  - intros H7 return_errors kwargs entity. rewrite soft_entity_cases.
    destruct (SOFT7Entity__init__ kwargs) as [e7|[]] eqn:He7; try discriminate.
    + intros [= <-]. exact (H7 _ _ He7).
    + destruct (SOFT5Entity__init__ kwargs) as [e5|[]] eqn:He5; try discriminate.
      * intros [= <-]. exact (SOFT5Entity_invariant _ _ He5).
      * now destruct return_errors.
  - intros kwargs [exc5 H5]%SOFT5Entity_rejects_violation.
    split; [eauto|split].
    + intros return_errors e5. rewrite soft_entity_cases, H5.
      destruct (SOFT7Entity__init__ kwargs) as [e7|[]]; try discriminate.
      now destruct return_errors.
    + intros exc7 H7. exists exc5. now rewrite soft_entity_cases, H7, H5.
Qed.

(** ** The backend *)

Lemma close_closed self :
  is_closed self = true ->
  close self = (self, Raise (BackendError "Backend is already closed")).
Proof. unfold close. now intros ->. Qed.

Lemma close_open self :
  is_closed self = false ->
  close self = ({| _settings := _settings self; _is_closed := true |}, Return ()).
Proof. unfold close. now intros ->. Qed.

(** No call opens a closed backend again. *)
Lemma perform_closed self c :
  is_closed self = true -> is_closed (perform self c) = true.
Proof. intros Hclosed. destruct c; simpl; [|assumption..]. now rewrite close_closed. Qed.

Lemma perform_all_closed calls : forall self,
  is_closed self = true -> is_closed (perform_all self calls) = true.
Proof.
  unfold perform_all. induction calls as [|c calls IH]; intros self Hclosed; simpl.
  - exact Hclosed.
  - apply IH, perform_closed, Hclosed.
Qed.

(** C6.  [close] raises [BackendError] exactly when the backend is
    closed already, and then leaves the instance as it is; on an open
    backend it returns and sets [is_closed]; a new instance is open;
    and after [close], whatever calls of [Backend]'s own methods
    follow, the backend stays closed. *)
Theorem C6_close_is_terminal (self : Backend) :
  ((exists e, snd (close self) = Raise e) <-> is_closed self = true) /\
  (forall e, snd (close self) = Raise e ->
     e = BackendError "Backend is already closed" /\ fst (close self) = self) /\
  (is_closed self = false ->
     snd (close self) = Return () /\ is_closed (fst (close self)) = true) /\
  (forall settings, is_closed (Backend__init__ settings) = false) /\
  (forall calls, is_closed self = true -> is_closed (perform_all self calls) = true) /\
  (forall calls, is_closed (perform_all (fst (close self)) calls) = true).
Proof.
  split; [|split; [|split; [|split; [|split]]]].
  - unfold close. destruct (is_closed self); simpl; split; eauto; try discriminate.
    now intros [e ?].
  - intros e. unfold close. destruct (is_closed self); simpl; [|discriminate].
    now intros [= <-].
  - intros Hopen. now rewrite close_open.
  - reflexivity.
  - intros calls. apply perform_all_closed.
  - intros calls. apply perform_all_closed.
    unfold close. destruct (is_closed self) eqn:Hclosed; [exact Hclosed | reflexivity].
Qed.

(** What [__contains__] does with an item that [soft_entity] is called
    on, with one that is a string, with one that is an entity, and with
    anything else. *)
Lemma Backend__contains___routes (self : Backend) :
  (forall d errors,
     call_soft_entity_return_errors d = Return (inr errors) ->
     Backend__contains__ self (a_dict d) = Return false) /\
  (forall d exc7 exc5,
     d !! "return_errors" = None ->
     SOFT7Entity__init__ d = Raise (PydanticValidationError exc7) ->
     SOFT5Entity__init__ d = Raise (PydanticValidationError exc5) ->
     Backend__contains__ self (a_dict d) = Return false) /\
  (forall d entity,
     call_soft_entity_return_errors d = Return (inl entity) ->
     Backend__contains__ self (a_dict d) = found_by_read self (get_uri entity)) /\
  (forall entity,
     Backend__contains__ self (a_model entity) = found_by_read self (get_uri entity)) /\
  (forall s, Backend__contains__ self (a_str s) = found_by_read self s) /\
  Backend__contains__ self a_other = Return false.
Proof.
  repeat split.
  - intros d errors Hcall. simpl. now rewrite Hcall.
  - intros d exc7 exc5 Hkey H7 H5. simpl.
    unfold call_soft_entity_return_errors. rewrite Hkey.
    rewrite bool_decide_eq_false_2 by (now intros [? ?]).
    now rewrite soft_entity_cases, H7, H5.
  - intros d entity Hcall. simpl. now rewrite Hcall.
Qed.

(** A dictionary with a key [return_errors] does not get as far as
    [soft_entity]. *)
Lemma Backend__contains___keyword_clash (self : Backend) d v :
  d !! "return_errors" = Some v ->
  Backend__contains__ self (a_dict d) = Raise return_errors_twice.
Proof.
  intros Hkey. simpl. unfold call_soft_entity_return_errors.
  rewrite Hkey. now rewrite bool_decide_eq_true_2 by eauto.
Qed.

(** C7, at a dictionary that holds the key [return_errors]:
    [__contains__] raises [TypeError] instead of answering. *)
Theorem C7_contains_raises_on_return_errors_key (self : Backend) :
  Backend__contains__ self (a_dict return_errors_document)
  = Raise return_errors_twice.
Proof. now apply Backend__contains___keyword_clash with (v := VBool true). Qed.

(** * Further properties *)

(** ** Integers and their decimal form *)

(** The characters of a decimal numeral. *)
Lemma string_of_uint_digits (d : Decimal.uint) :
  string_forall is_digit (NilEmpty.string_of_uint d) = true.
Proof. induction d; simpl; auto. Qed.

Lemma is_digit_plain c :
  is_digit c = true ->
  is_space c = false /\ Ascii.eqb c "." = false /\ Ascii.eqb c "_" = false /\
  Ascii.eqb c "-" = false /\ Ascii.eqb c "+" = false /\
  (nat_of_ascii c <? 128) = true.
Proof.
  destruct c as [[] [] [] [] [] [] [] []]; vm_compute; intros; try discriminate;
    repeat split.
Qed.

Lemma free_of_digits s : string_forall is_digit s = true -> free_of "." s = true.
Proof.
  unfold free_of. induction s as [|c s IH]; simpl; [reflexivity|].
  intros [Hc Hs]%andb_true_iff. rewrite (IH Hs).
  apply is_digit_plain in Hc as (_ & -> & _). reflexivity.
Qed.

Lemma is_ascii_digits s : string_forall is_digit s = true -> is_ascii s = true.
Proof.
  unfold is_ascii. induction s as [|c s IH]; simpl; [reflexivity|].
  intros [Hc Hs]%andb_true_iff. rewrite (IH Hs).
  apply is_digit_plain in Hc as (_ & _ & _ & _ & _ & ->). reflexivity.
Qed.

(** Reading the digits of a numeral goes on from the number read and
    the digits counted so far, and comes to the end. *)
Lemma scan_digits_of_uint_acc (d : Decimal.uint) : forall (acc : positive) digits,
  scan_digits (NilEmpty.string_of_uint d) (Z.pos acc) digits false
  = scan_end (Z.pos (Pos.of_uint_acc d acc))
      (digits + String.length (NilEmpty.string_of_uint d)) "".
Proof.
  induction d; intros acc digits; simpl;
    [now rewrite Nat.add_0_r|..];
    rewrite Nat.add_succ_r, <- (IHd _ (S digits)); f_equal;
    vm_compute (digit_value _); lia.
Qed.

Lemma scan_digits_of_uint (d : Decimal.uint) : forall digits,
  scan_digits (NilEmpty.string_of_uint d) 0 digits false
  = scan_end (Z.of_N (Pos.of_uint d))
      (digits + String.length (NilEmpty.string_of_uint d)) "".
Proof.
  induction d; intros digits; simpl;
    [now rewrite Nat.add_0_r| |..]; rewrite Nat.add_succ_r;
    [exact (IHd (S digits))|..];
    vm_compute (digit_value _); simpl; apply scan_digits_of_uint_acc.
Qed.

Lemma NilZero_string_of_uint_scan (d : Decimal.uint) :
  exists c s,
    NilZero.string_of_uint d = String c s /\ is_digit c = true /\
    string_forall is_digit (NilZero.string_of_uint d) = true /\
    scan_digits (NilZero.string_of_uint d) 0 0 false
    = scan_end (Z.of_uint d) (String.length (NilZero.string_of_uint d)) "".
Proof.
  assert (Hcases : d = Decimal.Nil \/ d <> Decimal.Nil)
    by (destruct d; auto; right; discriminate).
  destruct Hcases as [->|Hd]; [now exists "0"%char, ""|].
  unfold NilZero.string_of_uint.
  replace (match d with Decimal.Nil => "0" | _ => NilEmpty.string_of_uint d end)
    with (NilEmpty.string_of_uint d) by now destruct d.
  pose proof (string_of_uint_digits d) as Hdigits.
  destruct (NilEmpty.string_of_uint d) as [|c s] eqn:Hs;
    [destruct d; simpl in Hs; congruence|].
  exists c, s. rewrite <- Hs. repeat split.
  - simpl in Hdigits. now apply andb_true_iff in Hdigits as [Hc _].
  - now rewrite Hs.
  - apply (scan_digits_of_uint d 0).
Qed.

(** A numeral is a literal as it stands, and so is one with a minus
    sign before it, up to the limit of digits. *)
Lemma int_literal_numeral (d : Decimal.uint) :
  let s := NilZero.string_of_uint d in
  int_literal s
  = (if String.length s <=? int_max_str_digits then a_literal (Z.of_uint d)
     else too_many_digits (String.length s)) /\
  int_literal (String "-" s)
  = (if String.length s <=? int_max_str_digits then a_literal (- Z.of_uint d)
     else too_many_digits (String.length s)).
Proof.
  intros s. subst s.
  destruct (NilZero_string_of_uint_scan d) as (c & s & Hs & Hc & _ & Hscan).
  assert (Hrest : match scan_digits (NilZero.string_of_uint d) 0 0 false with
                  | scan_error => not_a_literal
                  | scan_end value digits rest =>
                      if int_max_str_digits <? digits then too_many_digits digits
                      else if digits =? 0 then not_a_literal
                      else if String.eqb (lstrip rest) "" then a_literal value
                      else not_a_literal
                  end
                  = if String.length (NilZero.string_of_uint d) <=? int_max_str_digits
                    then a_literal (Z.of_uint d)
                    else too_many_digits (String.length (NilZero.string_of_uint d))).
  { rewrite Hscan, Nat.ltb_antisym.
    destruct (String.length (NilZero.string_of_uint d) <=? int_max_str_digits);
      [|reflexivity].
    rewrite Hs. reflexivity. }
  assert (Hrest' : match scan_digits (NilZero.string_of_uint d) 0 0 false with
                   | scan_error => not_a_literal
                   | scan_end value digits rest =>
                       if int_max_str_digits <? digits then too_many_digits digits
                       else if digits =? 0 then not_a_literal
                       else if String.eqb (lstrip rest) "" then a_literal (- value)
                       else not_a_literal
                   end
                   = if String.length (NilZero.string_of_uint d) <=? int_max_str_digits
                     then a_literal (- Z.of_uint d)
                     else too_many_digits (String.length (NilZero.string_of_uint d))).
  { rewrite Hscan, Nat.ltb_antisym.
    destruct (String.length (NilZero.string_of_uint d) <=? int_max_str_digits);
      [|reflexivity].
    rewrite Hs. reflexivity. }
  apply is_digit_plain in Hc as (Hspace & _ & Hunder & Hminus & Hplus & _).
  apply Ascii.eqb_neq in Hunder, Hminus, Hplus.
  unfold int_literal. split.
  - rewrite Hs in *. simpl lstrip. rewrite Hspace.
    destruct c as [[] [] [] [] [] [] [] []]; try exact Hrest; congruence.
  - change (lstrip (String "-" (NilZero.string_of_uint d)))
      with (String "-" (NilZero.string_of_uint d)). cbv iota beta.
    rewrite Hs in *.
    destruct c as [[] [] [] [] [] [] [] []]; try exact Hrest'; congruence.
Qed.

(** [int()] reads what [str()] writes. *)
Lemma int_literal_decimal (n : Z) :
  int_literal (decimal n)
  = if within_limit n then a_literal n else too_many_digits (decimal_digits n).
Proof.
  unfold decimal, within_limit, decimal_digits.
  rewrite <- (DecimalZ.of_to n) at 3.
  destruct (Z.to_int n) as [d|d]; simpl;
    destruct (int_literal_numeral d) as [Hplain Hminus]; assumption.
Qed.

Lemma is_ascii_decimal (n : Z) : is_ascii (decimal n) = true.
Proof.
  unfold decimal.
  destruct (Z.to_int n) as [d|d]; simpl;
    destruct (NilZero_string_of_uint_scan d) as (_ & _ & _ & _ & Hdigits & _).
  - now apply is_ascii_digits.
  - unfold is_ascii. simpl. now apply is_ascii_digits.
Qed.

Lemma int_decimal (n : Z) :
  int (decimal n)
  = if within_limit n then Return n else Raise (exceeds_limit_int (decimal_digits n)).
Proof.
  unfold int. rewrite is_ascii_decimal, int_literal_decimal.
  now destruct (within_limit n).
Qed.

(** [str(n)] holds no dot. *)
Lemma decimal_free_of_dot (n : Z) : free_of "." (decimal n) = true.
Proof.
  unfold decimal.
  destruct (Z.to_int n) as [d|d]; simpl;
    destruct (NilZero_string_of_uint_scan d) as (_ & _ & _ & _ & Hdigits & _).
  - now apply free_of_digits.
  - unfold free_of. simpl. now apply free_of_digits.
Qed.

(** ** More on the URI grammar *)

Lemma count_char_append c a b :
  count_char c (a +:+ b) = count_char c a + count_char c b.
Proof.
  induction a as [|x a IH]; [reflexivity|].
  rewrite append_String. simpl. rewrite IH. lia.
Qed.

Lemma count_char_free c s : free_of c s = true -> count_char c s = 0.
Proof.
  unfold free_of. induction s as [|x s IH]; simpl; [reflexivity|].
  intros [Hx Hs]%andb_true_iff. apply negb_true_iff in Hx.
  now rewrite Hx, IH.
Qed.

Lemma string_forall_append p a b :
  string_forall p (a +:+ b) = string_forall p a && string_forall p b.
Proof.
  induction a as [|x a IH]; [reflexivity|].
  rewrite append_String. simpl. now rewrite IH, andb_assoc.
Qed.

Lemma append_tail A v n tail :
  (A +:+ "/" +:+ v +:+ "/" +:+ n) +:+ tail = A +:+ "/" +:+ v +:+ "/" +:+ (n +:+ tail).
Proof. now rewrite !append_assoc. Qed.

Lemma append_not_longer (n tail : string) : n +:+ tail = n -> tail = "".
Proof.
  intros Heq. apply (f_equal String.length) in Heq.
  rewrite length_append in Heq. destruct tail; [reflexivity | simpl in Heq; lia].
Qed.

(** What [URI_REGEX] matches has nothing behind the name: a newline at
    the end is a part of the name. *)
Lemma URI_REGEX_matched (s : string) (m : groups) :
  re_match URI_REGEX s = Some m ->
  exists tls host v n,
    s = (scheme tls +:+ host) +:+ "/" +:+ v +:+ "/" +:+ n /\
    host <> "" /\ free_of "/" host = true /\
    v <> "" /\ free_of "/" v = true /\
    n <> "" /\ name_chars n = true /\
    m = [("name", n); ("version", v); ("namespace", scheme tls +:+ host)].
Proof.
  intros Hm.
  destruct (URI_REGEX_sound _ _ Hm)
    as (tls & host & v & n & tail & Hs & Htail & Hhost & Hhost' & Hv & Hv' & Hn & Hn' & Hgroups).
  exists tls, host, v, n.
  assert (Hempty : tail = "").
  { destruct Htail as [->| ->]; [reflexivity|]. exfalso.
    rewrite append_tail in Hs.
    assert (Hn'' : name_chars (n +:+ newline) = true).
    { unfold name_chars in *. now rewrite string_forall_append, Hn'. }
    assert (Hne : n +:+ newline <> "") by (destruct n; discriminate).
    pose proof (URI_REGEX_complete tls host v (n +:+ newline)
                  Hhost Hhost' Hv Hv' Hne Hn'') as Hm'.
    rewrite <- Hs, Hm, Hgroups in Hm'.
    injection Hm' as Hlonger. symmetry in Hlonger.
    now apply append_not_longer in Hlonger. }
  subst tail. rewrite append_empty_r in Hs. repeat split; assumption.
Qed.

(** [URI_REGEX] matches exactly the strings [scheme://host/version/name]
    with a host and a version that are not empty and hold no [/] and a
    name that is not empty and holds none of [/], [#] and [?]; the
    groups of the match are these parts. *)
Theorem URI_REGEX_exact (s : string) (m : groups) :
  re_match URI_REGEX s = Some m <->
  exists tls host v n,
    s = (scheme tls +:+ host) +:+ "/" +:+ v +:+ "/" +:+ n /\
    host <> "" /\ free_of "/" host = true /\
    v <> "" /\ free_of "/" v = true /\
    n <> "" /\ name_chars n = true /\
    m = [("name", n); ("version", v); ("namespace", scheme tls +:+ host)].
Proof.
  split.
  - apply URI_REGEX_matched.
  - intros (tls & host & v & n & -> & Hhost & Hhost' & Hv & Hv' & Hn & Hn' & ->).
    now apply URI_REGEX_complete.
Qed.

Lemma count_slash_scheme tls : count_char "/" (scheme tls) = 2.
Proof. now destruct tls. Qed.

(** What [URI_REGEX] matches holds [/] four times. *)
Lemma URI_REGEX_four_slashes (s : string) (m : groups) :
  re_match URI_REGEX s = Some m -> count_char "/" s = 4.
Proof.
  intros (tls & host & v & n & -> & _ & Hhost & _ & Hv & _ & Hn & _)%URI_REGEX_matched.
  rewrite name_chars_free in Hn.
  apply andb_true_iff in Hn as [[Hn _]%andb_true_iff _].
  rewrite !count_char_append, count_slash_scheme.
  rewrite (count_char_free _ host), (count_char_free _ v), (count_char_free _ n)
    by assumption.
  reflexivity.
Qed.

(** A URI whose namespace has a path is not matched, whatever the path,
    the version and the name. *)
Lemma URI_REGEX_no_path (tls : bool) (host path v n : string) :
  re_match URI_REGEX ((scheme tls +:+ host +:+ "/" +:+ path) +:+ "/" +:+ v +:+ "/" +:+ n)
  = None.
Proof.
  destruct (re_match _ _) as [m|] eqn:Hm; [|reflexivity].
  apply URI_REGEX_four_slashes in Hm.
  rewrite !count_char_append, count_slash_scheme in Hm. simpl in Hm. lia.
Qed.

Section MoreCodecProperties.
Context {E : Type} `{SOFTModel E}.

(** C1, as the code has it.  A URL that pydantic has validated has a
    [/] behind its host: its path, which is [/] for a URL that was
    given without one.  For an entity without [uri] whose namespace is
    such a URL, [get_uri] builds namespace [/] version [/] name with
    nothing trimmed, and [URI_REGEX] does not match what it builds,
    whatever the path, the version and the name are: the URIs that the
    service builds for its entities do not parse back.  What
    [URI_REGEX] does parse into the three parts is the text with the
    version right behind the [/] of the host. *)
Theorem C1_built_uri_does_not_parse (entity : E) (tls : bool) (host path : string) :
  uri entity = None ->
  namespace entity = Some (Url (scheme tls +:+ host +:+ "/" +:+ path)) ->
  get_uri entity
  = (scheme tls +:+ host +:+ "/" +:+ path) +:+ "/" +:+ str_or_None (version entity)
      +:+ "/" +:+ str_or_None (name entity) /\
  re_match URI_REGEX (get_uri entity) = None /\
  (forall v n,
     host <> "" -> free_of "/" host = true ->
     v <> "" -> free_of "/" v = true ->
     n <> "" -> name_chars n = true ->
     re_match URI_REGEX ((scheme tls +:+ host) +:+ "/" +:+ v +:+ "/" +:+ n)
     = Some [("name", n); ("version", v); ("namespace", scheme tls +:+ host)]).
Proof.
  intros Huri Hns.
  assert (Hbuilt : get_uri entity
                   = (scheme tls +:+ host +:+ "/" +:+ path) +:+ "/"
                       +:+ str_or_None (version entity) +:+ "/"
                       +:+ str_or_None (name entity))
    by now rewrite (get_uri_unset _ Huri), Hns.
  split; [exact Hbuilt|]. split.
  - rewrite Hbuilt. apply URI_REGEX_no_path.
  - intros v n. apply URI_REGEX_complete.
Qed.

(** When the namespace of an entity has a path, as the base URL of the
    service has by default, the URI that [get_uri] builds for it is not
    matched by [URI_REGEX]. *)
Theorem get_uri_with_path_is_not_matched (entity : E) tls host path v n :
  uri entity = None ->
  namespace entity = Some (Url (scheme tls +:+ host +:+ "/" +:+ path)) ->
  version entity = Some v ->
  name entity = Some n ->
  re_match URI_REGEX (get_uri entity) = None.
Proof.
  intros Huri Hns Hv Hn. rewrite (get_uri_unset _ Huri), Hns, Hv, Hn.
  apply URI_REGEX_no_path.
Qed.

(** An entity without [version] whose [uri] has a namespace with a
    path: [get_version] raises. *)
Theorem get_version_uri_with_path (entity : E) u tls host path v n :
  version entity = None ->
  uri entity = Some u ->
  url_str u = (scheme tls +:+ host +:+ "/" +:+ path) +:+ "/" +:+ v +:+ "/" +:+ n ->
  get_version entity = Raise missing_version /\
  get_updated_version entity = Raise missing_version.
Proof.
  intros Hversion Huri Hstr.
  assert (Hraise : get_version entity = Raise missing_version).
  { unfold get_version. rewrite Hversion, Huri. unfold str_url. simpl.
    now rewrite Hstr, URI_REGEX_no_path. }
  split; [exact Hraise|]. unfold get_updated_version. now rewrite Hraise.
Qed.

(** The version [get_version] reads from a [uri] is never empty and
    holds no [/]. *)
Theorem get_version_from_uri_shape (entity : E) v :
  version entity = None -> get_version entity = Return v ->
  v <> "" /\ free_of "/" v = true /\ count_char "/" (str_url (uri entity)) = 4.
Proof.
  unfold get_version. intros ->.
  destruct (re_match URI_REGEX (str_url (uri entity))) as [m|] eqn:Hm;
    [|discriminate].
  pose proof (URI_REGEX_four_slashes _ _ Hm) as Hfour.
  apply URI_REGEX_matched in Hm
    as (tls & host & v' & n & _ & _ & _ & Hne & Hfree & _ & _ & ->).
  intros [= <-]. auto.
Qed.

(** A version of three pieces with an integer as the last one gets the
    integer incremented, and is of that form again, as long as the
    integer and its successor are within the limit of digits;
    otherwise [int()] or [str()] raises. *)
Theorem get_updated_version_increments (entity : E) M N p :
  free_of "." M = true -> free_of "." N = true ->
  get_version entity = Return (three_pieces M N p) ->
  get_updated_version entity
  = if within_limit p then
      if within_limit (p + 1) then Return (three_pieces M N (p + 1))
      else Raise exceeds_limit_str
    else Raise (exceeds_limit_int (decimal_digits p)).
Proof.
  intros HM HN Hv. rewrite (get_updated_version_pieces _ _ Hv).
  unfold three_pieces at 1.
  rewrite split_three by (try assumption; apply decimal_free_of_dot).
  rewrite int_decimal. destruct (within_limit p); [|reflexivity].
  simpl. unfold str_of_int. now destruct (within_limit (p + 1)).
Qed.

(** Whatever [get_updated_version] returns can be updated again, to a
    version of three pieces with an integer as the last one, unless
    that integer is beyond the limit of digits: then [str()] raises. *)
Theorem get_updated_version_twice (entity entity' : E) v' :
  get_updated_version entity = Return v' ->
  get_version entity' = Return v' ->
  exists M N p,
    free_of "." M = true /\ free_of "." N = true /\
    (get_updated_version entity' = Return (three_pieces M N p) \/
     (v' = three_pieces M N (p - 1) /\ within_limit p = false /\
      get_updated_version entity' = Raise exceeds_limit_str)).
Proof.
  intros Hfirst Hv'.
  destruct (get_version entity) as [v|e] eqn:Hv;
    [|unfold get_updated_version in Hfirst; rewrite Hv in Hfirst; discriminate].
  rewrite (get_updated_version_pieces _ _ Hv) in Hfirst.
  pose proof (split_pieces_free "." v) as Hfree.
  destruct (split "." v) as [|M [|N [|P [|Q rest]]]]; try discriminate.
  - injection Hfirst as <-. inversion Hfree as [|? ? HM _]; subst.
    exists M, "1", 1%Z. repeat split; try assumption. left.
    rewrite (get_updated_version_pieces _ _ Hv').
    change (M +:+ ".1") with (M +:+ "." +:+ "1").
    now rewrite (split_two M "1").
  - injection Hfirst as <-.
    inversion Hfree as [|? ? HM Hfree']; subst.
    inversion Hfree' as [|? ? HN _]; subst.
    exists M, N, 2%Z. repeat split; try assumption. left.
    rewrite (get_updated_version_pieces _ _ Hv').
    change (M +:+ "." +:+ N +:+ ".1") with (M +:+ "." +:+ N +:+ "." +:+ "1").
    now rewrite (split_three M N "1").
  - inversion Hfree as [|? ? HM Hfree']; subst.
    inversion Hfree' as [|? ? HN _]; subst.
    destruct (int P) as [p|e]; [|discriminate]. simpl in Hfirst.
    unfold str_of_int in Hfirst.
    destruct (within_limit (p + 1)) eqn:Hlimit; [|discriminate].
    injection Hfirst as <-.
    exists M, N, (p + 1 + 1)%Z. repeat split; try assumption.
    rewrite (get_updated_version_pieces _ _ Hv').
    rewrite split_three by (try assumption; apply decimal_free_of_dot).
    rewrite int_decimal, Hlimit. simpl. unfold str_of_int.
    destruct (within_limit (p + 1 + 1)) eqn:Hnext.
    + now left.
    + right. replace (p + 1 + 1 - 1)%Z with (p + 1)%Z by lia. auto.
Qed.

End MoreCodecProperties.

(** ** More on the SOFT5 dialect and the resolver *)

Lemma startswith_longer s prefix rest :
  startswith s prefix = true -> startswith (s +:+ rest) prefix = true.
Proof.
  unfold startswith. revert s. induction prefix as [|c prefix IH]; intros s.
  - intros _. now destruct (s +:+ rest).
  - destruct s as [|c' s]; [discriminate|].
    rewrite append_String. simpl.
    destruct (ascii_dec c c'); [apply IH | discriminate].
Qed.

(** The identity fields of an entity are there together or not at all. *)
Lemma SOFT5Entity_identity_jointly kwargs e :
  SOFT5Entity__init__ kwargs = Return e ->
  (is_Some (SOFT5Entity.name e) /\ is_Some (SOFT5Entity.version e) /\
   is_Some (SOFT5Entity.namespace e)) \/
  (SOFT5Entity.name e = None /\ SOFT5Entity.version e = None /\
   SOFT5Entity.namespace e = None).
Proof.
  intros [Hcheck Hfields]%SOFT5Entity__init___Return.
  apply _check_cross_dependent_fields_Return in Hcheck as [_ Hjoint].
  apply SOFT5Entity_fields_Valid in Hfields as (Hname & Hversion & Hns & _).
  destruct Hjoint as [(H1 & H2 & H3)|(H1 & H2 & H3)]; [left|right]; repeat split.
  - eapply supplied_field_Some, Hname; eauto using nullable_str_Some.
  - eapply supplied_field_Some, Hversion; eauto using nullable_str_Some.
  - eapply supplied_field_Some, Hns; eauto using nullable_url_Some.
  - eapply unsupplied_field_None, Hname; [assumption|]. now intros x [= <-].
  - eapply unsupplied_field_None, Hversion; [assumption|]. now intros x [= <-].
  - eapply unsupplied_field_None, Hns; eauto using nullable_url_None.
Qed.

(** The identifier of an entity the SOFT5 constructor returns begins
    with the base URL of the service, as soon as the entity has a [uri]
    or a [namespace]. *)
Theorem SOFT5Entity_get_uri_under_base_url kwargs e :
  SOFT5Entity__init__ kwargs = Return e ->
  is_Some (SOFT5Entity.uri e) \/ is_Some (SOFT5Entity.namespace e) ->
  startswith (get_uri e) (url_str (ServiceSettings.base_url CONFIG)) = true.
Proof.
  intros (Huri & Hns & _)%SOFT5Entity_invariant Hidentity. simpl in Huri, Hns.
  unfold get_uri. simpl.
  destruct (SOFT5Entity.uri e) as [u|]; [now apply Huri|].
  destruct Hidentity as [[u Hu]|[n Hn]]; [discriminate|].
  rewrite Hn. unfold str_url. simpl. apply startswith_longer. now apply Hns.
Qed.

(** An entity the SOFT5 constructor returns without [uri] and without
    [namespace] has no identity at all: its identifier is the text
    [None/None/None], and it has no version to read or to update. *)
Theorem SOFT5Entity_without_identity kwargs e :
  SOFT5Entity__init__ kwargs = Return e ->
  SOFT5Entity.uri e = None -> SOFT5Entity.namespace e = None ->
  get_uri e = "None/None/None" /\
  get_version e = Raise missing_version /\
  get_updated_version e = Raise missing_version.
Proof.
  intros Hinit Huri Hns.
  destruct (SOFT5Entity_identity_jointly _ _ Hinit)
    as [(_ & _ & [n Hn])|(Hname & Hversion & _)]; [congruence|].
  unfold get_updated_version, get_version, get_uri. simpl.
  now rewrite Huri, Hns, Hname, Hversion.
Qed.

(** A list that validates keeps its length and its order. *)
Lemma list_items_Valid {A} (schema : value -> checked A) items : forall i l,
  list_items schema i items = Valid l ->
  Forall2 (fun v x => schema v = Valid x) items l.
Proof.
  induction items as [|v items IH]; intros i l; simpl.
  - intros [= <-]. constructor.
  - intros (f & l' & (x & Hx & ->)%checked_map_Valid & Hl' & ->)%checked_ap_Valid.
    constructor; [now apply under_Valid in Hx | eapply IH, Hl'].
Qed.

Lemma list_schema_Valid {A} (schema : value -> checked A) v l :
  list_schema schema v = Valid l ->
  exists items, v = VList items /\ Forall2 (fun v x => schema v = Valid x) items l.
Proof.
  destruct v; simpl; try discriminate. intros Hitems%list_items_Valid. eauto.
Qed.

Lemma SOFT5Property_Valid v x :
  model_schema SOFT5Property__init__ v = Valid x ->
  exists d, v = VDict d /\
    d !! "type" = Some (VStr (SOFT5Property.type_ x)) /\
    d !! "description" = Some (VStr (SOFT5Property.description x)).
Proof.
  destruct v; simpl; try discriminate. unfold SOFT5Property__init__.
  intros Hfields. exists d. split; [reflexivity|].
  apply checked_ap_Valid in Hfields as (f5 & x6 & Hfields & Hdescr & ->).
  apply checked_ap_Valid in Hfields as (f4 & x5 & Hfields & _ & ->).
  apply checked_ap_Valid in Hfields as (f3 & x4 & Hfields & _ & ->).
  apply checked_ap_Valid in Hfields as (f2 & x3 & Hfields & _ & ->).
  apply checked_ap_Valid in Hfields as (f1 & x2 & Hfields & Htype & ->).
  apply checked_map_Valid in Hfields as (x1 & _ & ->). simpl.
  apply field_Valid in Htype, Hdescr.
  destruct (d !! "type") as [[]|]; try discriminate.
  destruct (d !! "description") as [[]|]; try discriminate.
  simpl in *. now injection Htype as ->; injection Hdescr as ->.
Qed.

(** The properties of an entity are those of the document, one for
    one and in the same order, each with the [type] and the
    [description] the document gives it. *)
Theorem SOFT5Entity_properties_of_document kwargs e :
  SOFT5Entity__init__ kwargs = Return e ->
  exists items,
    kwargs !! "properties" = Some (VList items) /\
    length (SOFT5Entity.properties e) = length items /\
    Forall2 (fun v x =>
               exists d, v = VDict d /\
                 d !! "type" = Some (VStr (SOFT5Property.type_ x)) /\
                 d !! "description" = Some (VStr (SOFT5Property.description x)))
            items (SOFT5Entity.properties e).
Proof.
  intros [_ Hfields]%SOFT5Entity__init___Return.
  apply SOFT5Entity_fields_Valid in Hfields as (_ & _ & _ & _ & _ & _ & _ & Hprops).
  apply field_Valid in Hprops.
  destruct (kwargs !! "properties") as [v|]; [|discriminate].
  apply list_schema_Valid in Hprops as (items & -> & Hitems).
  exists items. split; [reflexivity|]. split.
  - symmetry. eapply Forall2_length, Hitems.
  - eapply Forall2_impl; [exact Hitems|]. intros v x. apply SOFT5Property_Valid.
Qed.

(** The text fields of an entity are the strings of the document. *)
Theorem SOFT5Entity_strings_verbatim kwargs e :
  SOFT5Entity__init__ kwargs = Return e ->
  (forall s, SOFT5Entity.name e = Some s <-> kwargs !! "name" = Some (VStr s)) /\
  (forall s, SOFT5Entity.version e = Some s <-> kwargs !! "version" = Some (VStr s)) /\
  (forall u, SOFT5Entity.uri e = Some u ->
     exists s, kwargs !! "uri" = Some (VStr s) /\ AnyHttpUrl_validate s = Some u) /\
  (forall u, SOFT5Entity.namespace e = Some u ->
     exists s, kwargs !! "namespace" = Some (VStr s) /\ AnyHttpUrl_validate s = Some u).
Proof.
  intros [_ Hfields]%SOFT5Entity__init___Return.
  apply SOFT5Entity_fields_Valid in Hfields as (Hname & Hversion & Hns & Huri & _).
  apply field_Valid in Hname, Hversion, Hns, Huri.
  assert (Hstr : forall (o : option value) (y : option string),
            match o with
            | Some v => nullable str_schema v = Valid y
            | None => Some None = Some y
            end -> forall s, y = Some s <-> o = Some (VStr s)).
  { intros [[| | |s'| |]|] y Hy s; simpl in Hy; try discriminate;
      injection Hy as <-; split; congruence. }
  assert (Hurl : forall (o : option value) (y : option AnyHttpUrl),
            match o with
            | Some v => after (nullable url_schema) _validate_base_url v = Valid y
            | None => Some None = Some y
            end -> forall u, y = Some u ->
            exists s, o = Some (VStr s) /\ AnyHttpUrl_validate s = Some u).
  { intros [v|] y Hy u ->; [|discriminate].
    apply after_Valid in Hy as (x & Hx & Hreturn).
    apply _validate_base_url_Return in Hreturn as [<- _].
    destruct v as [| | |s| |]; simpl in Hx; try discriminate.
    destruct (AnyHttpUrl_validate s) as [u'|] eqn:Hvalid; [|discriminate].
    injection Hx as <-. eauto. }
  repeat split; eauto; now apply Hstr.
Qed.

(** Errors after a part of the input that validation came through are
    kept, behind those of that part. *)
Lemma checked_ap_Invalid {A B} (f : checked (A -> B)) errs :
  handled f ->
  exists before, f <*> (Invalid errs : checked A) = Invalid (before ++ errs).
Proof.
  destruct f as [f'|errs'|e]; simpl; intros Hf; [| |contradiction].
  - now exists [].
  - now exists errs'.
Qed.

(** A document without [properties] is never taken: either the identity
    fields are given in part, or the error list reports [properties] as
    missing. *)
Theorem SOFT5Entity_requires_properties kwargs :
  kwargs !! "properties" = None ->
  SOFT5Entity__init__ kwargs = Raise cross_dependent_fields_error \/
  exists exc,
    SOFT5Entity__init__ kwargs = Raise (PydanticValidationError exc) /\
    title exc = "SOFT5Entity" /\
    {| loc := [Key "properties"]; err_type := missing |} ∈ line_errors exc.
Proof.
  intros Hmissing. unfold SOFT5Entity__init__, cross_dependent_fields_error.
  destruct (_check_cross_dependent_fields_outcome kwargs) as [->|[msg Hraise]].
  - right. unfold SOFT5Entity_fields.
    assert (Hfield : field kwargs "properties"
                       (list_schema (model_schema SOFT5Property__init__)) required
                     = Invalid [{| loc := [Key "properties"]; err_type := missing |}])
      by (unfold field; now rewrite Hmissing).
    rewrite Hfield.
    match goal with
    | |- context [?f <*> Invalid ?errs] =>
        destruct (checked_ap_Invalid f errs) as [before ->]
    end.
    + repeat apply handled_ap; try apply handled_map; apply handled_field; intros v;
        auto using handled_SOFT5Dimension, handled_SOFT5Property,
          _validate_base_url_raises, _only_support_onto_ns_raises with handled.
    + eexists. split; [reflexivity|]. split; [reflexivity|]. simpl.
      apply elem_of_app. right. apply list_elem_of_singleton. reflexivity.
  - left. rewrite Hraise. f_equal.
    unfold _check_cross_dependent_fields in Hraise.
    destruct (existsb _ _); [destruct (negb _)|]; try discriminate.
    now injection Hraise as <-.
Qed.

(** A key that names no field changes nothing: the constructor does
    with the document what it does without the key. *)
Theorem SOFT5Entity_ignores_other_keys kwargs key v :
  key ∉ SOFT5Entity_field_names ->
  SOFT5Entity__init__ (<[key := v]> kwargs) = SOFT5Entity__init__ kwargs.
Proof.
  intros Hkey.
  assert (Hne : forall k, k ∈ SOFT5Entity_field_names -> key <> k)
    by (intros k Hk ->; contradiction).
  assert (Hget : forall k, k ∈ SOFT5Entity_field_names ->
            get (<[key := v]> kwargs) k = get kwargs k).
  { intros k Hk. unfold get. now rewrite lookup_insert_ne by auto. }
  assert (Hin : forall k, In k SOFT5Entity_field_names -> k ∈ SOFT5Entity_field_names)
    by (intros k; apply list_elem_of_In).
  unfold SOFT5Entity__init__.
  assert (Hcheck : forall msg,
            _check_cross_dependent_fields kwargs = Raise (ValueError msg) ->
            _check_cross_dependent_fields (<[key := v]> kwargs) = Raise (ValueError msg)).
  { unfold _check_cross_dependent_fields. simpl.
    rewrite !Hget by (apply Hin; simpl; auto). intros msg.
    destruct (_ || _); [destruct (negb _)|]; [auto|discriminate..]. }
  assert (Hcheck' : _check_cross_dependent_fields kwargs = Return kwargs ->
            _check_cross_dependent_fields (<[key := v]> kwargs)
            = Return (<[key := v]> kwargs)).
  { unfold _check_cross_dependent_fields. simpl.
    rewrite !Hget by (apply Hin; simpl; auto).
    destruct (_ || _); [destruct (negb _)|]; [discriminate|reflexivity..]. }
  destruct (_check_cross_dependent_fields_outcome kwargs) as [Hok|[msg Hraise]].
  - rewrite Hok, (Hcheck' Hok). f_equal. unfold SOFT5Entity_fields.
    now rewrite !field_insert_ne by (apply Hne, Hin; simpl; auto 10).
  - now rewrite Hraise, (Hcheck _ Hraise).
Qed.

(** Asked to return the errors, [soft_entity] raises nothing as long as
    the other dialect's constructor raises [ValidationError] only; and
    asked not to, the only error it raises is the one that lists the
    errors of both dialects. *)
Theorem soft_entity_raises_only_cannot_instantiate :
  validates_or_rejects SOFT7Entity__init__ ->
  forall kwargs,
    (exists result, soft_entity true kwargs = Return result) /\
    (forall e, soft_entity false kwargs = Raise e ->
       exists exc7 exc5,
         e = cannot_instantiate [exc7; exc5] /\
         soft_entity true kwargs = Return (inr [exc7; exc5])).
Proof.
  intros H7 kwargs. rewrite !soft_entity_cases.
  destruct (H7 kwargs) as [[e7 ->]|[exc7 ->]]; [split; [eauto|discriminate]|].
  destruct (SOFT5Entity__init___outcome kwargs) as [[e5 ->]|[exc5 ->]];
    [split; [eauto|discriminate]|].
  split; [eauto|]. intros e [= <-]. eauto.
Qed.

(** ** The base URL *)

Lemma rstrip_slash_cons c s :
  rstrip_slash (String c s) =
    if (String.eqb (rstrip_slash s) "" && Ascii.eqb c "/")%bool then ""
    else String c (rstrip_slash s).
Proof. simpl. destruct (rstrip_slash s); [destruct (Ascii.eqb c "/")|]; reflexivity. Qed.

(** [_strip_ending_slashes] takes slashes off the end and nothing else:
    what it returns does not end in [/], the value is what it returns
    followed by slashes only, and applying it again changes nothing. *)
Theorem strip_ending_slashes_trims (value : string) :
  endswith_char "/" (_strip_ending_slashes value) = false /\
  (exists k, value = _strip_ending_slashes value +:+ repeat_char "/" k) /\
  _strip_ending_slashes (_strip_ending_slashes value) = _strip_ending_slashes value.
Proof.
  unfold _strip_ending_slashes.
  induction value as [|c s (Hend & [k Hk] & Hidem)].
  - repeat split. now exists 0.
  - rewrite rstrip_slash_cons.
    destruct (String.eqb_spec (rstrip_slash s) "") as [Hempty|Hne]; cbn [andb].
    + rewrite Hempty, append_Empty in Hk.
      destruct (Ascii.eqb_spec c "/") as [->|Hc].
      * repeat split. exists (S k). rewrite append_Empty. simpl. now f_equal.
      * rewrite Hempty. apply Ascii.eqb_neq in Hc. simpl. rewrite Hc.
        repeat split. exists k. rewrite append_String, append_Empty. now f_equal.
    + rewrite rstrip_slash_cons, Hidem.
      apply String.eqb_neq in Hne. rewrite Hne. cbn [andb].
      split; [|split; [|reflexivity]].
      * destruct (rstrip_slash s); [discriminate | exact Hend].
      * exists k. rewrite append_String. now f_equal.
Qed.

(** [_strip_ending_slashes] keeps a value that does not end in [/]. *)
Lemma _strip_ending_slashes_fixed (value : string) :
  endswith_char "/" value = false -> _strip_ending_slashes value = value.
Proof.
  unfold _strip_ending_slashes. induction value as [|c s IH]; [reflexivity|].
  intros Hend. rewrite rstrip_slash_cons.
  destruct s as [|c' s'].
  - simpl in *. now rewrite Hend.
  - rewrite IH by exact Hend. reflexivity.
Qed.

(** ** The routes *)

(** The URI [get_entity] looks up is the identifier of the entity of
    that version and name in the namespace of the base URL. *)
Lemma get_entity_uri_is_get_uri {E} `{SOFTModel E} (entity : E) v n :
  uri entity = None ->
  namespace entity = Some (ServiceSettings.base_url CONFIG) ->
  version entity = Some v -> name entity = Some n ->
  get_uri entity = get_entity_uri v n.
Proof.
  intros Huri Hns Hv Hn. unfold get_uri, get_entity_uri.
  now rewrite Huri, Hns, Hv, Hn.
Qed.

(** [get_entity] answers with a record exactly for the entities the
    backend contains, and with 404 exactly for those it does not: for
    an entity without [uri] in the namespace of the base URL, at its
    version and name. *)
Theorem get_entity_serves_what_is_contained (entity : VersionedSOFTEntity) v n :
  uri entity = None ->
  namespace entity = Some (ServiceSettings.base_url CONFIG) ->
  version entity = Some v -> name entity = Some n ->
  ((exists record, get_entity v n = Respond record) <->
   Backend__contains__ active_backend (a_model entity) = Return true) /\
  ((exists detail, get_entity v n = HTTPException HTTP_404_NOT_FOUND detail) <->
   Backend__contains__ active_backend (a_model entity) = Return false) /\
  (forall e, get_entity v n = Failed e <->
   Backend__contains__ active_backend (a_model entity) = Raise e).
Proof.
  intros Huri Hns Hv Hn. simpl.
  rewrite (get_entity_uri_is_get_uri entity v n Huri Hns Hv Hn).
  unfold get_entity.
  destruct (read active_backend (get_entity_uri v n)) as [[record|]|e]; simpl;
    repeat split; try (intros [? ?]); try intros ?; eauto; try discriminate;
    congruence.
Qed.

(** [create_entity] and [create_entities] on one entity go through the
    same call of the backend: when the first answers with a record, the
    second answers with the list of that record; when the second
    answers 502, so does the first; and the second never answers 502
    where the backend returned a record or a list. *)
Theorem create_entity_and_create_entities (entity : VersionedSOFTEntity) :
  (forall record, create_entity entity = Respond record <->
                  create active_backend [inl entity] = Return (created_one record)) /\
  (forall record, create_entity entity = Respond record ->
                  create_entities [entity] = Respond [record]) /\
  (forall detail, create_entities [entity] = HTTPException HTTP_502_BAD_GATEWAY detail ->
     create active_backend [inl entity] = Return created_None /\
     create_entity entity
     = HTTPException HTTP_502_BAD_GATEWAY
         ("Could not create entity: uri=" +:+ get_uri entity)) /\
  (forall records, create active_backend [inl entity] = Return (created_list records) ->
     create_entities [entity] = Respond records /\
     exists detail, create_entity entity = HTTPException HTTP_502_BAD_GATEWAY detail).
Proof.
  unfold create_entity, create_entities. simpl.
  destruct (create active_backend [inl entity]) as [[|one|many]|e];
    repeat split; intros; try discriminate; try congruence; eauto.
Qed.

(** ** The helpers of the test script *)

Lemma VERSION_NAME_REGEX_complete (v n : string) :
  v <> "" -> free_of "/" v = true -> n <> "" -> free_of "/" n = true ->
  re_match VERSION_NAME_REGEX (test_prefix +:+ v +:+ "/" +:+ n)
  = Some [("name", n); ("version", v)].
Proof.
  intros Hv Hv' Hn Hn'. rewrite <- free_of_accepts in Hv', Hn'.
  unfold re_match, VERSION_NAME_REGEX.
  rewrite run_Cat, run_Bol, run_Cat.
  apply (takes_literal "http://onto-ns.com/meta/").
  rewrite run_Cat. apply run_Named; [now apply takes_Plus|].
  rewrite run_Cat, append_String, append_Empty, run_Chr by reflexivity.
  rewrite run_Cat, <- (append_empty_r n).
  apply run_Named; [now apply takes_Plus|].
  now rewrite append_empty_r.
Qed.

Lemma VERSION_NAME_REGEX_sound (s : string) (m : groups) :
  re_match VERSION_NAME_REGEX s = Some m ->
  exists v n tail,
    s = (test_prefix +:+ v +:+ "/" +:+ n) +:+ tail /\
    (tail = "" \/ tail = newline) /\
    v <> "" /\ free_of "/" v = true /\ n <> "" /\ free_of "/" n = true /\
    m = [("name", n); ("version", v)].
Proof.
  unfold re_match. intros Hrun.
  apply run_sound in Hrun as (w & tail & g' & -> & Hw & [= ->]).
  unfold VERSION_NAME_REGEX in Hw. cbn [denote] in Hw.
  destruct Hw as (? & ? & ? & -> & (-> & _ & ->) & Hw).
  destruct Hw as (? & ? & ? & -> & Hprefix & Hw).
  apply denote_literal in Hprefix as [-> ->].
  destruct Hw as (v & ? & ? & -> & (? & (Hv & Hv' & ->) & ->) & Hw).
  destruct Hw as (? & ? & ? & -> & ((? & -> & ->%Ascii.eqb_eq) & ->) & Hw).
  destruct Hw as (n & ? & ? & -> & (? & (Hn & Hn' & ->) & ->) & (-> & Htail & ->)).
  rewrite free_of_accepts in Hv', Hn'.
  exists v, n, tail. rewrite !append_Empty, !append_empty_r.
  repeat split; assumption.
Qed.

Lemma append_tail_2 A v n tail :
  (A +:+ v +:+ "/" +:+ n) +:+ tail = A +:+ v +:+ "/" +:+ (n +:+ tail).
Proof. now rewrite !append_assoc. Qed.

(** What [_get_version_name] takes apart has nothing behind the
    name. *)
Lemma _get_version_name_Got (uri v n : string) :
  _get_version_name uri = Got (v, n) ->
  uri = test_prefix +:+ v +:+ "/" +:+ n /\
  v <> "" /\ free_of "/" v = true /\ n <> "" /\ free_of "/" n = true.
Proof.
  unfold _get_version_name.
  - destruct (re_match VERSION_NAME_REGEX uri) as [m|] eqn:Hm; [|discriminate].
    destruct (VERSION_NAME_REGEX_sound _ _ Hm)
      as (v' & n' & tail & Hs & Htail & Hv & Hv' & Hn & Hn' & Hgroups).
    assert (Hempty : tail = "").
    { destruct Htail as [->| ->]; [reflexivity|]. exfalso.
      rewrite append_tail_2 in Hs.
      assert (Hn'' : free_of "/" (n' +:+ newline) = true).
      { unfold free_of in *. now rewrite string_forall_append, Hn'. }
      assert (Hne : n' +:+ newline <> "") by (destruct n'; discriminate).
      pose proof (VERSION_NAME_REGEX_complete v' (n' +:+ newline) Hv Hv' Hne Hn'')
        as Hm'.
      rewrite <- Hs, Hm, Hgroups in Hm'.
      injection Hm' as Hlonger. symmetry in Hlonger.
      now apply append_not_longer in Hlonger. }
    subst tail m. rewrite append_empty_r in Hs. simpl.
    intros [= <- <-]. auto.
Qed.

(** [_get_version_name] takes a URI apart exactly when it is
    [http://onto-ns.com/meta/], a version, [/] and a name, where the
    version and the name are not empty and hold no [/]; the version and
    the name are what it returns. *)
Theorem get_version_name_exact (uri v n : string) :
  _get_version_name uri = Got (v, n) <->
  uri = test_prefix +:+ v +:+ "/" +:+ n /\
  v <> "" /\ free_of "/" v = true /\ n <> "" /\ free_of "/" n = true.
Proof.
  split.
  - apply _get_version_name_Got.
  - intros (-> & Hv & Hv' & Hn & Hn'). unfold _get_version_name.
    now rewrite VERSION_NAME_REGEX_complete.
Qed.

(** Building the URI of a test entity and taking it apart again gives
    the version and the name of the entity, for an entity in the
    namespace the script expects. *)
Theorem get_version_name_of_get_uri (entity : gmap string value) (v n : string) :
  entity !! "namespace" = Some (VStr "http://onto-ns.com/meta") ->
  entity !! "version" = Some (VStr v) ->
  entity !! "name" = Some (VStr n) ->
  v <> "" -> free_of "/" v = true -> n <> "" -> free_of "/" n = true ->
  exists uri, _get_uri entity = Got uri /\ _get_version_name uri = Got (v, n).
Proof.
  intros Hns Hversion Hname Hv Hv' Hn Hn'.
  unfold _get_uri, get. rewrite Hns, Hversion, Hname. simpl.
  eexists. split; [reflexivity|].
  unfold _get_version_name.
  change ("http://onto-ns.com/meta" +:+ "/" +:+ v +:+ "/" +:+ n)
    with (test_prefix +:+ v +:+ "/" +:+ n).
  now rewrite VERSION_NAME_REGEX_complete.
Qed.

(** A test entity that lacks one of the three fields has no URI. *)
Lemma _get_uri_partial (entity : gmap string value) :
  supplied entity "namespace" && supplied entity "version"
    && supplied entity "name" = false ->
  _get_uri entity
  = RuntimeError "Could not retrieve namespace, version, and/or name from test entities.".
Proof.
  unfold _get_uri, supplied. simpl.
  destruct (is_None (get entity "namespace")), (is_None (get entity "version")),
    (is_None (get entity "name")); simpl; intros; try discriminate; reflexivity.
Qed.

(** The two grammars for entity URIs exclude each other: what the test
    script takes apart, [URI_REGEX] does not match. *)
Theorem get_version_name_excludes_URI_REGEX (uri v n : string) :
  _get_version_name uri = Got (v, n) -> re_match URI_REGEX uri = None.
Proof.
  intros Hgot. apply _get_version_name_Got in Hgot as (-> & _).
  exact (URI_REGEX_no_path false "onto-ns.com" "meta" v n).
Qed.

(** ** More on the backend *)

(** A document that resolves is contained exactly when the string of
    its identifier is, and when its entity is. *)
Lemma contains_document_as_its_identifier (self : Backend) d entity :
  call_soft_entity_return_errors d = Return (inl entity) ->
  Backend__contains__ self (a_dict d) = Backend__contains__ self (a_str (get_uri entity)) /\
  Backend__contains__ self (a_dict d) = Backend__contains__ self (a_model entity).
Proof. intros Hcall. simpl. now rewrite Hcall. Qed.

(** So is a document that the SOFT5 constructor takes and the other
    dialect rejects, unless it has a key [return_errors]. *)
Theorem contains_SOFT5_document (self : Backend) d exc7 e5 :
  d !! "return_errors" = None ->
  SOFT7Entity__init__ d = Raise (PydanticValidationError exc7) ->
  SOFT5Entity__init__ d = Return e5 ->
  Backend__contains__ self (a_dict d) = found_by_read self (get_uri e5).
Proof.
  intros Hkey H7 H5. simpl. unfold call_soft_entity_return_errors.
  rewrite Hkey, bool_decide_eq_false_2 by (now intros [? ?]).
  now rewrite soft_entity_cases, H7, H5.
Qed.

End Service.

(** * The [show] command *)

Section ShowProperties.

Context `{Console}.
Variable CONFIG : Settings.

(** Case on ASCII *)
Lemma lower_upper_lower_char c :
  lower_char (upper_char (lower_char c)) = lower_char c.
Proof. destruct c as [[] [] [] [] [] [] [] []]; reflexivity. Qed.

Lemma ascii_lower_upper_lower s :
  ascii_lower (ascii_upper (ascii_lower s)) = ascii_lower s.
Proof.
  induction s as [|c s IH]; [reflexivity|].
  simpl. now rewrite lower_upper_lower_char, IH.
Qed.

Lemma ascii_upper_append a b :
  ascii_upper (a +:+ b) = ascii_upper a +:+ ascii_upper b.
Proof.
  induction a as [|c a IH]; [reflexivity|].
  rewrite append_String. simpl. now rewrite IH, append_String.
Qed.

Lemma length_ascii_upper s : String.length (ascii_upper s) = String.length s.
Proof. induction s as [|c s IH]; [reflexivity|]. simpl. now rewrite IH. Qed.

Lemma is_ascii_case_char c :
  (nat_of_ascii c <? 128) = true ->
  (nat_of_ascii (upper_char c) <? 128) = true /\
  (nat_of_ascii (lower_char c) <? 128) = true.
Proof.
  destruct c as [[] [] [] [] [] [] [] []]; vm_compute; intros; try discriminate;
    split; reflexivity.
Qed.

Lemma is_ascii_case s :
  is_ascii s = true ->
  is_ascii (ascii_upper s) = true /\ is_ascii (ascii_lower s) = true.
Proof.
  unfold is_ascii. induction s as [|c s IH]; simpl; [now split|].
  intros [Hc Hs]%andb_true_iff.
  destruct (IH Hs) as [-> ->]. destruct (is_ascii_case_char c Hc) as [-> ->].
  now split.
Qed.

Lemma is_ascii_append a b :
  is_ascii a = true -> is_ascii b = true -> is_ascii (a +:+ b) = true.
Proof. unfold is_ascii. intros Ha Hb. now rewrite string_forall_append, Ha, Hb. Qed.

Lemma slice_from_append a b : slice_from (String.length a) (a +:+ b) = b.
Proof.
  induction a as [|c a IH]; [now destruct b|].
  rewrite append_String. simpl. exact IH.
Qed.

(** Dictionaries *)
Lemma dict_get_dict_set {V} k k' (v : V) d :
  dict_get k (dict_set k' v d) = if String.eqb k' k then Some v else dict_get k d.
Proof.
  induction d as [|[k0 v0] d IH]; simpl.
  - reflexivity.
  - destruct (String.eqb k0 k') eqn:E0; simpl.
    + apply String.eqb_eq in E0 as ->. now destruct (String.eqb k' k).
    + destruct (String.eqb k0 k) eqn:E1; [|exact IH].
      apply String.eqb_eq in E1. subst k0. now rewrite String.eqb_sym, E0.
Qed.

Lemma dict_set_fresh {V} k (v : V) d :
  k ∉ d.*1 -> dict_set k v d = d ++ [(k, v)].
Proof.
  induction d as [|[k0 v0] d IH]; simpl; intros Hk; [reflexivity|].
  apply not_elem_of_cons in Hk as [Hne Hk].
  destruct (String.eqb k0 k) eqn:E.
  - apply String.eqb_eq in E. congruence.
  - now rewrite IH.
Qed.

Lemma dict_set_keys {V} (P : string -> Prop) k (v : V) d :
  P k -> Forall P d.*1 -> Forall P (dict_set k v d).*1.
Proof.
  intros Hk. induction d as [|[k0 v0] d IH]; simpl; intros Hd.
  - now constructor.
  - apply Forall_cons in Hd as [H0 Hd].
    destruct (String.eqb k0 k); simpl; constructor; auto.
Qed.

(** Two dictionaries with the same keys, whose values are in [R] key
    by key, stay so when a key is set in both. *)
Lemma dict_set_related {V} (R : string -> V -> V -> Prop) k v v' d d' :
  R k v v' ->
  Forall2 (fun entry entry' => entry.1 = entry'.1 /\ R entry.1 entry.2 entry'.2) d d' ->
  Forall2 (fun entry entry' => entry.1 = entry'.1 /\ R entry.1 entry.2 entry'.2)
    (dict_set k v d) (dict_set k v' d').
Proof.
  intros Hk Hd.
  induction Hd as [|[k0 v0] [k0' v0'] d d' [Hkey Hvalue] Hrest IH]; simpl.
  - now repeat constructor.
  - simpl in Hkey, Hvalue. subst k0'.
    destruct (String.eqb k0 k); constructor; simpl; auto.
Qed.

(** [sorted] keeps what it sorts. *)
Lemma elem_of_insert_sorted x y names :
  x ∈ insert_sorted y names <-> x = y \/ x ∈ names.
Proof.
  induction names as [|z names IH]; simpl.
  - rewrite list_elem_of_singleton, elem_of_nil. split; [auto|]. now intros [?|[]].
  - destruct (String.leb y z).
    + now rewrite elem_of_cons.
    + rewrite !elem_of_cons, IH. split; intros [?|[?|?]]; auto.
Qed.

Lemma elem_of_sorted x names : x ∈ sorted names <-> x ∈ names.
Proof.
  induction names as [|y names IH]; simpl; [reflexivity|].
  rewrite elem_of_insert_sorted, elem_of_cons, IH. reflexivity.
Qed.

Lemma join_one_per_line lines : join newline lines = one_per_line lines.
Proof.
  induction lines as [|line [|more lines] IH]; [reflexivity..|].
  change (join newline (line :: more :: lines))
    with (line +:+ newline +:+ join newline (more :: lines)).
  now rewrite IH.
Qed.

(** The sensitive fields *)
Lemma sensitive_fields_fold fields acc :
  fold_left
    (fun sensitive_fields '(config_name, annotation) =>
       match annotation with
       | with_args annotation_args =>
           if existsb is_secret annotation_args
           then dict_set (lower config_name) true sensitive_fields
           else dict_set (lower config_name) false sensitive_fields
       | plain type =>
           if is_secret type
           then dict_set (lower config_name) true sensitive_fields
           else dict_set (lower config_name) false sensitive_fields
       end) fields acc
  = fold_left
      (fun sensitive_fields field =>
         dict_set (lower (fst field)) (sensitive_annotation (snd field))
           sensitive_fields) fields acc.
Proof.
  revert acc. induction fields as [|[name [args|type]] fields IH]; intros acc;
    simpl; [reflexivity| |]; rewrite <- IH; f_equal.
  - now destruct (existsb is_secret args).
  - now destruct (is_secret type).
Qed.

Lemma sensitive_fields_other (fields : list (string * annotation)) acc key :
  key ∉ lower <$> fields.*1 ->
  dict_get key
    (fold_left
       (fun sensitive_fields field =>
          dict_set (lower (fst field)) (sensitive_annotation (snd field))
            sensitive_fields) fields acc)
  = dict_get key acc.
Proof.
  revert acc. induction fields as [|[name ann] fields IH]; intros acc Hk;
    simpl in *; [reflexivity|].
  apply not_elem_of_cons in Hk as [Hne Hk].
  rewrite IH by exact Hk. rewrite dict_get_dict_set.
  destruct (String.eqb (lower name) key) eqn:E; [|reflexivity].
  apply String.eqb_eq in E. congruence.
Qed.

Lemma sensitive_fields_some (fields : list (string * annotation)) acc key :
  is_Some (dict_get key acc) \/ key ∈ lower <$> fields.*1 ->
  is_Some
    (dict_get key
       (fold_left
          (fun sensitive_fields field =>
             dict_set (lower (fst field)) (sensitive_annotation (snd field))
               sensitive_fields) fields acc)).
Proof.
  revert acc. induction fields as [|[name ann] fields IH]; intros acc Hk; simpl.
  - destruct Hk as [Hk|Hk]; [exact Hk|]. now apply elem_of_nil in Hk.
  - apply IH. rewrite dict_get_dict_set.
    destruct (String.eqb (lower name) key) eqn:E; [left; eauto|].
    destruct Hk as [Hk|Hk]; [now left|]. simpl in Hk.
    apply elem_of_cons in Hk as [->|Hk]; [|now right].
    now rewrite String.eqb_refl in E.
Qed.

Lemma is_sensitive_member member :
  member ∈ ConfigFields_members CONFIG ->
  exists sensitive, is_sensitive CONFIG member = Done sensitive.
Proof.
  intros Hin. unfold is_sensitive, sensitive_fields.
  rewrite sensitive_fields_fold.
  destruct (sensitive_fields_some (model_fields CONFIG) [] member) as [b Hb].
  - right. unfold ConfigFields_members in Hin.
    apply list_elem_of_fmap in Hin as [name [-> Hin]].
    apply (proj1 (elem_of_sorted _ _)) in Hin.
    apply list_elem_of_fmap. now exists name.
  - rewrite Hb. now exists b.
Qed.

Lemma hidden_member reveal_sensitive member :
  member ∈ ConfigFields_members CONFIG ->
  exists hide, hidden CONFIG reveal_sensitive member = Done hide.
Proof.
  intros Hin. unfold hidden. destruct reveal_sensitive; [now exists false|].
  now apply is_sensitive_member.
Qed.

Lemma NoDup_filter_keys {V} (P : string * V -> Prop) `{!forall x, Decision (P x)}
    (items : list (string * V)) :
  NoDup items.*1 -> NoDup (filter P items).*1.
Proof.
  induction items as [|item items IH]; simpl; intros Hnd; [constructor|].
  apply NoDup_cons in Hnd as [Hnot Hnd]. rewrite filter_cons.
  destruct (decide (P item)); simpl; [|now apply IH].
  apply NoDup_cons. split; [|now apply IH].
  intros Hin. apply Hnot.
  apply list_elem_of_fmap in Hin as (item' & -> & Hin).
  apply list_elem_of_filter in Hin as [_ Hin].
  apply list_elem_of_fmap. now exists item'.
Qed.

(** The two loops of [show] on two dotenv files that are the same but
    for the values of sensitive options. *)
Lemma show_values_related items items' :
  same_but_sensitive CONFIG items items' ->
  forall values values',
    Forall2 (fun entry entry' =>
               entry.1 = entry'.1 /\
               (entry.2 = entry'.2 \/ is_sensitive CONFIG entry.1 = Done true))
      values values' ->
    match show_values CONFIG items values, show_values CONFIG items' values' with
    | Done shown, Done shown' =>
        Forall2 (fun entry entry' =>
                   entry.1 = entry'.1 /\
                   (entry.2 = entry'.2 \/ is_sensitive CONFIG entry.1 = Done true))
          shown shown'
    | Stopped e, Stopped e' => e = e'
    | _, _ => False
    end.
Proof.
  intros Hsame.
  induction Hsame as [|[key value] [key' value'] items items' [Hkey Hvalue] _ IH];
    intros values values' Hvalues; simpl; [exact Hvalues|].
  simpl in Hkey, Hvalue. subst key'.
  case_bool_decide as Hoption; [|now apply IH].
  unfold ConfigFields. case_bool_decide; [|reflexivity].
  apply IH.
  apply (dict_set_related
           (fun member v v' => v = v' \/ is_sensitive CONFIG member = Done true));
    [|exact Hvalues].
  destruct Hvalue as [->|[_ Hsensitive]]; auto.
Qed.

Lemma show_output_related values values' :
  Forall2 (fun entry entry' =>
             entry.1 = entry'.1 /\
             (entry.2 = entry'.2 \/ is_sensitive CONFIG entry.1 = Done true))
    values values' ->
  forall output,
    show_output CONFIG false values output = show_output CONFIG false values' output.
Proof.
  intros Hvalues.
  induction Hvalues as [|[key value] [key' value'] values values' [Hkey Hvalue] _ IH];
    intros output; simpl; [reflexivity|].
  simpl in Hkey, Hvalue. subst key'.
  destruct (is_sensitive CONFIG key) as [[]|e] eqn:Hsensitive; simpl.
  - apply IH.
  - destruct Hvalue as [->|Hvalue]; [apply IH | discriminate].
  - reflexivity.
Qed.

(** Without [--reveal-sensitive], [show] prints the same for two
    dotenv files that differ in the values of sensitive options
    only. *)
Theorem show_hides_sensitive_values dotenv_file items items' :
  NoDup items.*1 ->
  same_but_sensitive CONFIG items items' ->
  show CONFIG false dotenv_file (Some items)
  = show CONFIG false dotenv_file (Some items').
Proof.
  intros _ Hsame. unfold show.
  destruct (print ("Current configuration in " +:+ dotenv_file +:+ ":" +:+ newline));
    [|reflexivity].
  pose proof (show_values_related items items' Hsame [] [] (Forall2_nil_2 _ _ _))
    as Hvalues.
  destruct (show_values CONFIG items []) as [values|e],
    (show_values CONFIG items' []) as [values'|e']; try contradiction.
  - now rewrite (show_output_related values values' Hvalues).
  - now subst.
Qed.

(** When no two fields have the same name up to case, an option is
    sensitive when the annotation of its field is a secret type, or
    has one among its arguments. *)
Theorem is_sensitive_by_annotation name field_annotation :
  NoDup (lower <$> (model_fields CONFIG).*1) ->
  (name, field_annotation) ∈ model_fields CONFIG ->
  is_sensitive CONFIG (lower name) = Done (sensitive_annotation field_annotation).
Proof.
  intros Hnd Hin. unfold is_sensitive, sensitive_fields.
  rewrite sensitive_fields_fold.
  enough (Hfold : forall fields acc,
             NoDup (lower <$> fields.*1) ->
             (name, field_annotation) ∈ fields ->
             dict_get (lower name)
               (fold_left
                  (fun sensitive_fields field =>
                     dict_set (lower (fst field)) (sensitive_annotation (snd field))
                       sensitive_fields) fields acc)
             = Some (sensitive_annotation field_annotation))
    by now rewrite Hfold.
  clear. induction fields as [|[n a] fields IH]; intros acc Hnd Hin.
  - now apply elem_of_nil in Hin.
  - simpl in Hnd. apply NoDup_cons in Hnd as [Hnot Hnd].
    apply elem_of_cons in Hin as [Heq|Hin]; simpl.
    + injection Heq as -> ->.
      rewrite sensitive_fields_other by exact Hnot.
      now rewrite dict_get_dict_set, String.eqb_refl.
    + now apply IH.
Qed.

(** *** Settings with ASCII names *)

Section ASCII.

Hypothesis case_of_ASCII : ASCII_case.
Hypothesis settings_are_ASCII : ASCII_settings CONFIG.

(** The name read off the key of an option is the option. *)
Lemma option_name_option_key name :
  name ∈ (model_fields CONFIG).*1 ->
  option_name CONFIG (option_key CONFIG (lower name)) = lower name.
Proof.
  intros Hname. destruct settings_are_ASCII as [Hprefix Hnames].
  rewrite Forall_forall in Hnames. specialize (Hnames name Hname).
  destruct (case_of_ASCII name Hnames) as [_ Hlower].
  destruct (is_ascii_case name Hnames) as [_ Hlower'].
  destruct (is_ascii_case _ Hlower') as [Hupper' _].
  unfold option_name, option_key. rewrite Hlower.
  destruct (case_of_ASCII (env_prefix CONFIG +:+ ascii_lower name)) as [-> _];
    [now apply is_ascii_append|].
  rewrite ascii_upper_append, <- (length_ascii_upper (env_prefix CONFIG)),
    slice_from_append.
  destruct (case_of_ASCII _ Hupper') as [_ ->].
  apply ascii_lower_upper_lower.
Qed.

Lemma option_keys_inv key :
  key ∈ option_keys CONFIG ->
  exists name,
    name ∈ (model_fields CONFIG).*1 /\
    key = option_key CONFIG (lower name) /\
    lower name ∈ ConfigFields_members CONFIG.
Proof.
  unfold option_keys. intros [member [-> Hin]]%list_elem_of_fmap.
  pose proof Hin as Hmember. unfold ConfigFields_members in Hin.
  apply list_elem_of_fmap in Hin as [name [-> Hin]].
  apply (proj1 (elem_of_sorted _ _)) in Hin. now exists name.
Qed.

Lemma option_name_member key :
  key ∈ option_keys CONFIG ->
  option_name CONFIG key ∈ ConfigFields_members CONFIG.
Proof.
  intros (name & Hname & -> & Hin)%option_keys_inv.
  now rewrite option_name_option_key.
Qed.

Lemma option_key_option_name key :
  key ∈ option_keys CONFIG ->
  option_key CONFIG (option_name CONFIG key) = key.
Proof.
  intros (name & Hname & -> & _)%option_keys_inv.
  now rewrite option_name_option_key.
Qed.

Lemma ConfigFields_option_name key :
  key ∈ option_keys CONFIG ->
  ConfigFields CONFIG (option_name CONFIG key) = Done (option_name CONFIG key).
Proof.
  intros Hin. unfold ConfigFields.
  now rewrite bool_decide_eq_true_2 by now apply option_name_member.
Qed.

(** The two loops of [show] *)
Lemma show_values_Done items values :
  Forall (fun member => member ∈ ConfigFields_members CONFIG) values.*1 ->
  exists values',
    show_values CONFIG items values = Done values' /\
    Forall (fun member => member ∈ ConfigFields_members CONFIG) values'.*1.
Proof.
  revert values. induction items as [|[key value] items IH]; intros values Hv;
    simpl.
  - now exists values.
  - case_bool_decide as Hkey; [|now apply IH].
    rewrite ConfigFields_option_name by exact Hkey.
    apply IH. apply dict_set_keys; [|exact Hv]. now apply option_name_member.
Qed.

Lemma show_output_Done reveal_sensitive values output :
  Forall (fun member => member ∈ ConfigFields_members CONFIG) values.*1 ->
  exists output', show_output CONFIG reveal_sensitive values output = Done output'.
Proof.
  revert output. induction values as [|[key value] values IH]; intros output Hv;
    simpl.
  - now exists output.
  - simpl in Hv. apply Forall_cons in Hv as [Hkey Hv].
    destruct (hidden_member reveal_sensitive key Hkey) as [hide ->].
    now apply IH.
Qed.

Lemma show_values_distinct items values :
  NoDup (values.*1 ++
         (option_name CONFIG <$> (filter (fun item => item.1 ∈ option_keys CONFIG) items).*1)) ->
  show_values CONFIG items values
  = Done (values ++
          ((fun item => (option_name CONFIG item.1, item.2)) <$>
             filter (fun item => item.1 ∈ option_keys CONFIG) items)).
Proof.
  revert values. induction items as [|[key value] items IH]; intros values Hnd;
    simpl.
  - now rewrite app_nil_r.
  - rewrite filter_cons in *. simpl in *.
    case_bool_decide as Hkey.
    + rewrite decide_True in * by exact Hkey.
      rewrite ConfigFields_option_name by exact Hkey.
      simpl in Hnd.
      rewrite dict_set_fresh.
      * rewrite IH.
        -- simpl. now rewrite <- app_assoc.
        -- rewrite fmap_app, <- app_assoc. exact Hnd.
      * apply NoDup_app in Hnd as (_ & Hdis & _).
        intros Hin. apply (Hdis _ Hin). left.
    + rewrite decide_False in * by exact Hkey. now apply IH.
Qed.

Lemma show_output_distinct reveal_sensitive items output :
  Forall (fun item => item.1 ∈ option_keys CONFIG) items ->
  NoDup (output.*1 ++ items.*1) ->
  show_output CONFIG reveal_sensitive
    ((fun item => (option_name CONFIG item.1, item.2)) <$> items) output
  = Done (output ++ (show_item CONFIG reveal_sensitive <$> items)).
Proof.
  revert output. induction items as [|[key value] items IH];
    intros output Hopt Hnd; simpl.
  - now rewrite app_nil_r.
  - apply Forall_cons in Hopt as [Hkey Hopt]. simpl in Hkey, Hnd.
    destruct (hidden_member reveal_sensitive _ (option_name_member _ Hkey))
      as [hide Hhide].
    rewrite Hhide, option_key_option_name by exact Hkey.
    rewrite dict_set_fresh.
    + rewrite IH.
      * rewrite <- app_assoc. simpl. do 3 f_equal.
        unfold show_item. simpl. rewrite Hhide. now destruct hide.
      * exact Hopt.
      * rewrite fmap_app, <- app_assoc. exact Hnd.
    + apply NoDup_app in Hnd as (_ & Hdis & _).
      intros Hin. apply (Hdis _ Hin). left.
Qed.

(** The two loops of [show] on a dotenv file with distinct keys. *)
Lemma show_loops reveal_sensitive items :
  NoDup items.*1 ->
  exists values,
    show_values CONFIG items [] = Done values /\
    show_output CONFIG reveal_sensitive values []
    = Done (show_item CONFIG reveal_sensitive <$>
              filter (fun item => item.1 ∈ option_keys CONFIG) items).
Proof.
  intros Hnd.
  pose proof (NoDup_filter_keys (fun item => item.1 ∈ option_keys CONFIG) items Hnd)
    as Hnd'.
  assert (Hopt : Forall (fun item : string * option string => item.1 ∈ option_keys CONFIG)
                   (filter (fun item => item.1 ∈ option_keys CONFIG) items)).
  { apply Forall_forall. now intros item [Hitem _]%list_elem_of_filter. }
  eexists. split.
  - rewrite show_values_distinct; [reflexivity|].
    simpl. apply NoDup_fmap_2_strong; [|exact Hnd'].
    intros k k' Hk Hk' Heq.
    assert (Hin : forall key, key ∈ (filter (fun item => item.1 ∈ option_keys CONFIG) items).*1 ->
                    key ∈ option_keys CONFIG).
    { intros key (item & -> & Hitem)%list_elem_of_fmap.
      rewrite Forall_forall in Hopt. now apply Hopt. }
    rewrite <- (option_key_option_name k), <- (option_key_option_name k') by auto.
    now rewrite Heq.
  - simpl. rewrite show_output_distinct; [reflexivity|exact Hopt|exact Hnd'].
Qed.

(** The two loops of [show] come to an end on any dotenv file. *)
Lemma show_loops_Done reveal_sensitive items :
  exists values output,
    show_values CONFIG items [] = Done values /\
    show_output CONFIG reveal_sensitive values [] = Done output.
Proof.
  destruct (show_values_Done items []) as (values & Hvalues & Hmembers);
    [constructor|].
  destruct (show_output_Done reveal_sensitive values [] Hmembers) as [output Houtput].
  now exists values, output.
Qed.

End ASCII.

(** [show] on a dotenv file with distinct keys, as the keys of a
    dictionary are, when the names of the fields and the prefix are
    ASCII and [print] has taken the heading: it hands [print] the
    options of the file, one per line, in the order of the file and
    under the keys of the file, each with its value, or with eight
    stars for a sensitive option that is not to be revealed, and
    nothing of what else the file holds; and it ends as that [print]
    ends. *)
Theorem show_prints_the_options reveal_sensitive dotenv_file items :
  ASCII_case -> ASCII_settings CONFIG ->
  NoDup items.*1 ->
  print ("Current configuration in " +:+ dotenv_file +:+ ":" +:+ newline) = Done () ->
  show CONFIG reveal_sensitive dotenv_file (Some items)
  = {| printed :=
         ["Current configuration in " +:+ dotenv_file +:+ ":" +:+ newline;
          one_per_line
            (show_line <$>
               (show_item CONFIG reveal_sensitive <$>
                  filter (fun item => item.1 ∈ option_keys CONFIG) items))];
       error_printed := [];
       ended :=
         print
           (one_per_line
              (show_line <$>
                 (show_item CONFIG reveal_sensitive <$>
                    filter (fun item => item.1 ∈ option_keys CONFIG) items))) |}.
Proof.
  intros Hcase Hsettings Hnd Hheading. unfold show. rewrite Hheading.
  destruct (show_loops Hcase Hsettings reveal_sensitive items Hnd)
    as (values & -> & ->).
  now rewrite join_one_per_line.
Qed.

(** [show] on a dotenv file raises nothing of its own when the names
    of the fields and the prefix are ASCII: the enum takes every name
    that [show] reads off a key, and [is_sensitive] knows every member.
    It ends as [print] ends: on the heading when [print] raises there,
    and else on the text of the options; the error console gets
    nothing. *)
Theorem show_fails_only_in_print reveal_sensitive dotenv_file items :
  ASCII_case -> ASCII_settings CONFIG ->
  error_printed (show CONFIG reveal_sensitive dotenv_file (Some items)) = [] /\
  match print ("Current configuration in " +:+ dotenv_file +:+ ":" +:+ newline) with
  | Stopped e =>
      printed (show CONFIG reveal_sensitive dotenv_file (Some items))
      = ["Current configuration in " +:+ dotenv_file +:+ ":" +:+ newline] /\
      ended (show CONFIG reveal_sensitive dotenv_file (Some items)) = Stopped e
  | Done _ =>
      exists text,
        printed (show CONFIG reveal_sensitive dotenv_file (Some items))
        = ["Current configuration in " +:+ dotenv_file +:+ ":" +:+ newline; text] /\
        ended (show CONFIG reveal_sensitive dotenv_file (Some items)) = print text
  end.
Proof.
  intros Hcase Hsettings. unfold show.
  destruct (print ("Current configuration in " +:+ dotenv_file +:+ ":" +:+ newline));
    [|now repeat split].
  destruct (show_loops_Done Hcase Hsettings reveal_sensitive items)
    as (values & output & -> & ->).
  split; [reflexivity|]. now eexists.
Qed.

End ShowProperties.

(** * The statements on the samples *)

(** The service with the sample collaborators. *)
Abbreviation sample_SOFT5Entity__init__ :=
  (SOFT5Entity__init__ sample_AnyHttpUrl_validate CONFIG_default).
Abbreviation sample_soft_entity :=
  (soft_entity sample_AnyHttpUrl_validate sample_str_ValidationError
     CONFIG_default SampleSOFT7.t SampleSOFT7.init).
Abbreviation sample_int := (int sample_repr_str sample_int_beyond_ASCII).
Abbreviation sample_get_updated_version :=
  (get_updated_version sample_repr_str sample_int_beyond_ASCII).

(** C1 on the default base URL of the service, and on a namespace
    that was given without a path. *)
Lemma C1_witness :
  (get_uri (identity_entity "http://onto-ns.com/meta" "0.1" "Cat")
   = "http://onto-ns.com/meta/0.1/Cat" /\
   re_match URI_REGEX (get_uri (identity_entity "http://onto-ns.com/meta" "0.1" "Cat"))
   = None) /\
  (sample_AnyHttpUrl_validate "https://onto-ns.com" = Some (Url "https://onto-ns.com/") /\
   get_uri (identity_entity "https://onto-ns.com/" "0.1" "Cat")
   = "https://onto-ns.com//0.1/Cat" /\
   re_match URI_REGEX (get_uri (identity_entity "https://onto-ns.com/" "0.1" "Cat"))
   = None /\
   re_match URI_REGEX "https://onto-ns.com/0.1/Cat"
   = Some [("name", "Cat"); ("version", "0.1"); ("namespace", "https://onto-ns.com")]).
Proof.
  split; [|split; [reflexivity|]].
  - destruct (C1_built_uri_does_not_parse
                (identity_entity "http://onto-ns.com/meta" "0.1" "Cat")
                false "onto-ns.com" "meta") as (Hbuilt & Hnone & _);
      [reflexivity..|].
    split; [exact Hbuilt | exact Hnone].
  - destruct (C1_built_uri_does_not_parse
                (identity_entity "https://onto-ns.com/" "0.1" "Cat")
                true "onto-ns.com" "") as (Hbuilt & Hnone & Hparses);
      [reflexivity..|].
    split; [exact Hbuilt|]. split; [exact Hnone|].
    apply (Hparses "0.1" "Cat"); reflexivity || discriminate.
Defined.

Lemma C2_witness :
  sample_soft_entity false mapping_document
  = Return (inl (soft7 _ SampleSOFT7.entity)) /\
  sample_soft_entity false cat_document = Return (inl (soft5 _ cat_entity)) /\
  (exists exc7 exc5,
     sample_soft_entity true empty_document = Return (inr [exc7; exc5]) /\
     sample_soft_entity false empty_document
     = Raise (ValueError ("Cannot instantiate entity. Errors:" +:+ newline
                          +:+ "SOFT7Entity" +:+ newline +:+ "SOFT5Entity"))) /\
  (forall errors,
     sample_soft_entity true empty_document = Return (inr errors) ->
     length errors = 2).
Proof.
  split; [|split; [|split]].
  - apply (C2_soft_entity_first_dialect sample_AnyHttpUrl_validate
             sample_str_ValidationError CONFIG_default SampleSOFT7.t
             SampleSOFT7.init false mapping_document).
    reflexivity.
  - eapply (C2_soft_entity_first_dialect sample_AnyHttpUrl_validate
              sample_str_ValidationError CONFIG_default SampleSOFT7.t
              SampleSOFT7.init false cat_document); reflexivity.
  - edestruct (proj1 (proj2 (proj2
      (C2_soft_entity_first_dialect sample_AnyHttpUrl_validate
         sample_str_ValidationError CONFIG_default SampleSOFT7.t
         SampleSOFT7.init true empty_document)))) as [Hlist Hraise];
      [reflexivity..|].
    do 2 eexists. split; [exact Hlist | exact Hraise].
  - intros errors Hreturn.
    exact (proj1 (proj2 (proj2 (proj2 (proj2
      (C2_soft_entity_first_dialect sample_AnyHttpUrl_validate
         sample_str_ValidationError CONFIG_default SampleSOFT7.t
         SampleSOFT7.init true empty_document))) (inr errors) Hreturn))).
Defined.

(** C3 as the specification states it fails at the limit of digits:
    a version of three pieces whose third is 4300 nines, an integer
    that [int()] reads, is not given the successor of that integer:
    [str()] raises. *)
Lemma C3_counterexample :
  let PATCH := repeat_char "9" 4300 in
  let entity := identity_entity "http://onto-ns.com/meta" ("1.2." +:+ PATCH) "Cat" in
  split "." ("1.2." +:+ PATCH) = ["1"; "2"; PATCH] /\
  sample_int PATCH = Return (10 ^ 4300 - 1)%Z /\
  sample_get_updated_version entity = Raise exceeds_limit_str /\
  (forall v, sample_get_updated_version entity <> Return v).
Proof. vm_compute. repeat split. intros v. discriminate. Qed.

Lemma C3_witness :
  sample_get_updated_version (identity_entity "http://onto-ns.com/meta" "1" "Cat")
  = Return "1.1" /\
  sample_get_updated_version (identity_entity "http://onto-ns.com/meta" "2.3" "Cat")
  = Return "2.3.1" /\
  sample_get_updated_version (identity_entity "http://onto-ns.com/meta" "2.3.4" "Cat")
  = Return "2.3.5" /\
  sample_get_updated_version (identity_entity "http://onto-ns.com/meta" "1.2.3.4" "Cat")
  = Raise unsupported_version_shape.
Proof.
  split; [|split; [|split]].
  - apply (C3_get_updated_version_shapes sample_repr_str sample_int_beyond_ASCII
             (identity_entity "http://onto-ns.com/meta" "1" "Cat")); reflexivity.
  - apply (proj1 (proj2 (C3_get_updated_version_shapes sample_repr_str sample_int_beyond_ASCII
             (identity_entity "http://onto-ns.com/meta" "2.3" "Cat"))) "2" "3");
      reflexivity.
  - apply (proj1 (proj2 (proj2 (C3_get_updated_version_shapes sample_repr_str sample_int_beyond_ASCII
             (identity_entity "http://onto-ns.com/meta" "2.3.4" "Cat"))))
             "2" "3" "4" 4%Z); reflexivity.
  - apply (proj1 (proj2 (proj2 (proj2 (C3_get_updated_version_shapes sample_repr_str sample_int_beyond_ASCII
             (identity_entity "http://onto-ns.com/meta" "1.2.3.4" "Cat")))))
             "1.2.3.4"); [reflexivity | discriminate..].
Defined.

Lemma C4_witness :
  dialect_invariant CONFIG_default cat_entity /\
  dialect_invariant CONFIG_default
    (H := VersionedSOFTEntity_model SampleSOFT7.t) (soft5 _ cat_entity) /\
  (exists exc5,
     sample_SOFT5Entity__init__ foreign_document
     = Raise (PydanticValidationError exc5)) /\
  (exists exc5,
     sample_soft_entity true foreign_document
     = Return (inr [ {| title := "SOFT7Entity";
                        line_errors := [{| loc := [Key "properties"];
                                           err_type := model_type |}] |};
                     exc5 ])).
Proof.
  destruct (C4_dialect_invariant sample_AnyHttpUrl_validate
              sample_str_ValidationError CONFIG_default SampleSOFT7.t
              SampleSOFT7.init) as (H5 & Hany & Hreject).
  assert (H7 : forall kwargs (e7 : SampleSOFT7.t),
             SampleSOFT7.init kwargs = Return e7 ->
             dialect_invariant CONFIG_default e7).
  { intros kwargs e7 _. repeat split; discriminate. }
  assert (Hoff : off_base sample_AnyHttpUrl_validate CONFIG_default
                   foreign_document "uri").
  { exists (VStr "http://example.org/0.1/Cat").
    split; [reflexivity|]. split; [discriminate|].
    intros s u [= <-] [= <-]. reflexivity. }
  split; [|split].
  - apply (H5 cat_document). reflexivity.
  - apply (Hany H7 false cat_document). reflexivity.
  - destruct (Hreject foreign_document (or_introl Hoff)) as (Hraise & _ & Hlist).
    split; [exact Hraise|]. apply Hlist. reflexivity.
Defined.

Lemma C5_witness :
  (supplied cat_document "name" = true /\
   supplied cat_document "version" = true /\
   supplied cat_document "namespace" = true /\
   is_Some (SOFT5Entity.name cat_entity) /\
   is_Some (SOFT5Entity.version cat_entity) /\
   is_Some (SOFT5Entity.namespace cat_entity)) /\
  sample_SOFT5Entity__init__ partial_document = Raise cross_dependent_fields_error.
Proof.
  split.
  - destruct (proj1 (C5_identity_fields_jointly sample_AnyHttpUrl_validate
                       CONFIG_default cat_document) cat_entity eq_refl)
      as [Hall|(Hnone & _)]; [exact Hall | discriminate Hnone].
  - apply (proj2 (C5_identity_fields_jointly sample_AnyHttpUrl_validate
                    CONFIG_default partial_document)); reflexivity.
Defined.

Lemma C6_witness :
  let opened := Backend__init__ None in
  let closed := fst (close opened) in
  is_closed opened = false /\
  snd (close opened) = Return () /\
  is_closed closed = true /\
  snd (close closed) = Raise (BackendError "Backend is already closed") /\
  fst (close closed) = closed /\
  is_closed
    (perform_all SampleSOFT7.t closed
       [call_is_closed _; call_contains _ (a_str _ "http://onto-ns.com/meta/0.1/Cat");
        call_close _]) = true.
Proof.
  intros opened closed.
  destruct (C6_close_is_terminal SampleSOFT7.t opened)
    as (_ & _ & Hopen & Hnew & _ & _).
  destruct (C6_close_is_terminal SampleSOFT7.t closed)
    as (Hiff & Hraise & _ & _ & Hstays & _).
  split; [apply Hnew|].
  split; [apply Hopen; reflexivity|].
  split; [apply Hopen; reflexivity|].
  assert (Hclosed : is_closed closed = true) by (apply Hopen; reflexivity).
  destruct (proj2 Hiff Hclosed) as [e He].
  destruct (Hraise e He) as [-> Hsame].
  split; [exact He|]. split; [exact Hsame|].
  apply Hstays. exact Hclosed.
Defined.

Lemma C8_witness :
  get_version (identity_entity "http://onto-ns.com/meta" "0.1" "Cat") = Return "0.1" /\
  get_version (uri_entity "http://onto-ns.com/0.1/Cat") = Return "0.1" /\
  get_version (uri_entity "http://onto-ns.com/meta/0.1/Cat") = Raise missing_version /\
  get_version bare_entity = Raise missing_version.
Proof.
  split; [|split; [|split]].
  - apply (C8_get_version (identity_entity "http://onto-ns.com/meta" "0.1" "Cat")).
    reflexivity.
  - apply (proj1 (proj2 (C8_get_version (uri_entity "http://onto-ns.com/0.1/Cat"))))
      with (u := Url "http://onto-ns.com/0.1/Cat") (tls := false)
           (host := "onto-ns.com") (n := "Cat");
      reflexivity || discriminate.
  - apply (proj1 (proj2 (proj2 (proj2
             (C8_get_version (uri_entity "http://onto-ns.com/meta/0.1/Cat"))))));
      reflexivity.
  - apply (proj2 (proj2 (proj2 (proj2 (C8_get_version bare_entity)))));
      reflexivity.
Defined.

(** C9 as the specification states it fails beyond the limit of
    digits: a third piece of 4301 digits is an integer, and [int()]
    raises on it. *)
Lemma C9_counterexample :
  let PATCH := "1" +:+ repeat_char "0" 4300 in
  let entity := identity_entity "http://onto-ns.com/meta" ("1.2." +:+ PATCH) "Cat" in
  string_forall is_digit PATCH = true /\
  split "." ("1.2." +:+ PATCH) = ["1"; "2"; PATCH] /\
  sample_get_updated_version entity = Raise (exceeds_limit_int 4301) /\
  (forall v, sample_get_updated_version entity <> Return v).
Proof. vm_compute. repeat split. intros v. discriminate. Qed.

Lemma C9_witness :
  sample_get_updated_version (identity_entity "http://onto-ns.com/meta" "foo" "Cat")
  = Return "foo.1" /\
  sample_get_updated_version (identity_entity "http://onto-ns.com/meta" "a.b" "Cat")
  = Return "a.b.1" /\
  sample_get_updated_version (identity_entity "http://onto-ns.com/meta" "x.y.7" "Cat")
  = Return "x.y.8" /\
  sample_get_updated_version (identity_entity "http://onto-ns.com/meta" "1.2.z" "Cat")
  = Raise (invalid_literal sample_repr_str "z") /\
  sample_get_updated_version (identity_entity "http://onto-ns.com/meta" "1.2. 7" "Cat")
  = Return "1.2.8".
Proof.
  split; [|split; [|split; [|split]]].
  - apply (proj1 (C9_only_patch_is_inspected sample_repr_str sample_int_beyond_ASCII
             (identity_entity "http://onto-ns.com/meta" "foo" "Cat")) "foo");
      [reflexivity | left; reflexivity].
  - apply (proj1 (C9_only_patch_is_inspected sample_repr_str sample_int_beyond_ASCII
             (identity_entity "http://onto-ns.com/meta" "a.b" "Cat")) "a.b");
      [reflexivity | right; reflexivity].
  - destruct (proj1 (proj2 (proj2 (proj2
                (C9_only_patch_is_inspected sample_repr_str sample_int_beyond_ASCII
                   (identity_entity "http://onto-ns.com/meta" "x.y.7" "Cat")))))
                "x.y.7" "x" "y" "7") as (Hreturn & _ & _); [reflexivity..|].
    apply (Hreturn 7%Z); reflexivity.
  - destruct (proj1 (proj2 (proj2 (proj2
                (C9_only_patch_is_inspected sample_repr_str sample_int_beyond_ASCII
                   (identity_entity "http://onto-ns.com/meta" "1.2.z" "Cat")))))
                "1.2.z" "1" "2" "z") as (_ & _ & Hraise); [reflexivity..|].
    apply Hraise. reflexivity.
  - destruct (proj1 (proj2 (proj2 (proj2
                (C9_only_patch_is_inspected sample_repr_str sample_int_beyond_ASCII
                   (identity_entity "http://onto-ns.com/meta" "1.2. 7" "Cat")))))
                "1.2. 7" "1" "2" " 7") as (Hreturn & _ & _); [reflexivity..|].
    apply (Hreturn 7%Z); reflexivity.
Defined.

Lemma C10_witness :
  sample_SOFT5Entity__init__ mismatched_document
  = Return (with_uri cat_entity (Some (Url "http://onto-ns.com/meta/1.0/Dog"))) /\
  get_uri (with_uri cat_entity (Some (Url "http://onto-ns.com/meta/1.0/Dog")))
  = "http://onto-ns.com/meta/1.0/Dog" /\
  get_uri (with_uri cat_entity None) = "http://onto-ns.com/meta/0.1/Cat".
Proof.
  destruct (C10_uri_is_independent sample_AnyHttpUrl_validate CONFIG_default)
    as (Hset & Hunset & Hany).
  assert (Hcat : sample_SOFT5Entity__init__ cat_document = Return cat_entity)
    by reflexivity.
  assert (Hvalid : sample_AnyHttpUrl_validate "http://onto-ns.com/meta/1.0/Dog"
                   = Some (Url "http://onto-ns.com/meta/1.0/Dog")) by reflexivity.
  destruct (Hany cat_document cat_entity "http://onto-ns.com/meta/1.0/Dog"
              (Url "http://onto-ns.com/meta/1.0/Dog") Hcat Hvalid)
    as (Hinit & _ & _ & _ & Huri); [reflexivity|].
  split; [exact Hinit|]. split; [exact Huri|].
  rewrite (Hunset _ _ (with_uri cat_entity None)) by reflexivity. reflexivity.
Defined.

(** [__contains__] on the sample backend: the cat is there, a document
    no dialect takes is not, and the key [return_errors] makes it
    raise. *)
Example sample_contains :
  let contains :=
    Backend__contains__ sample_AnyHttpUrl_validate sample_str_ValidationError
      CONFIG_default SampleSOFT7.t SampleSOFT7.init sample_read
      (Backend__init__ None) in
  contains (a_dict _ cat_document) = Return true /\
  contains (a_str _ "http://onto-ns.com/meta/0.1/Cat") = Return true /\
  contains (a_str _ "http://onto-ns.com/meta/0.1/Dog") = Return false /\
  contains (a_dict _ empty_document) = Return false /\
  contains (a_dict _ return_errors_document) = Raise return_errors_twice.
Proof. vm_compute. repeat split. Qed.

(** ** The further properties on the samples *)

Lemma URI_REGEX_exact_witness :
  re_match URI_REGEX "https://onto-ns.com/0.1/Cat"
  = Some [("name", "Cat"); ("version", "0.1"); ("namespace", "https://onto-ns.com")].
Proof.
  apply (proj2 (URI_REGEX_exact "https://onto-ns.com/0.1/Cat" _)).
  exists true, "onto-ns.com", "0.1", "Cat".
  repeat split; reflexivity || discriminate.
Defined.

Lemma get_uri_with_path_is_not_matched_witness :
  re_match URI_REGEX (get_uri (identity_entity "http://onto-ns.com/meta" "0.1" "Cat"))
  = None.
Proof.
  apply (get_uri_with_path_is_not_matched
           (identity_entity "http://onto-ns.com/meta" "0.1" "Cat")
           false "onto-ns.com" "meta" "0.1" "Cat"); reflexivity.
Defined.

Lemma get_version_uri_with_path_witness :
  get_version (uri_entity "http://onto-ns.com/meta/0.1/Cat") = Raise missing_version /\
  sample_get_updated_version (uri_entity "http://onto-ns.com/meta/0.1/Cat")
  = Raise missing_version.
Proof.
  apply (get_version_uri_with_path sample_repr_str sample_int_beyond_ASCII
           (uri_entity "http://onto-ns.com/meta/0.1/Cat")
           (Url "http://onto-ns.com/meta/0.1/Cat") false "onto-ns.com" "meta" "0.1" "Cat");
    reflexivity.
Defined.

Lemma get_version_from_uri_shape_witness :
  "0.1" <> "" /\ free_of "/" "0.1" = true /\
  count_char "/" (str_url (uri (uri_entity "http://onto-ns.com/0.1/Cat"))) = 4.
Proof.
  apply (get_version_from_uri_shape (uri_entity "http://onto-ns.com/0.1/Cat") "0.1");
    reflexivity.
Defined.

Lemma get_updated_version_increments_witness :
  sample_get_updated_version (identity_entity "http://onto-ns.com/meta" "2.3.4" "Cat")
  = Return "2.3.5" /\
  sample_get_updated_version (identity_entity "http://onto-ns.com/meta" "2.3.-1" "Cat")
  = Return "2.3.0".
Proof.
  split.
  - exact (get_updated_version_increments sample_repr_str sample_int_beyond_ASCII
             (identity_entity "http://onto-ns.com/meta" "2.3.4" "Cat") "2" "3" 4
             eq_refl eq_refl eq_refl).
  - exact (get_updated_version_increments sample_repr_str sample_int_beyond_ASCII
             (identity_entity "http://onto-ns.com/meta" "2.3.-1" "Cat") "2" "3" (-1)
             eq_refl eq_refl eq_refl).
Defined.

Lemma get_updated_version_twice_witness :
  exists M N p,
    free_of "." M = true /\ free_of "." N = true /\
    (sample_get_updated_version (identity_entity "http://onto-ns.com/meta" "1.1" "Cat")
     = Return (three_pieces M N p) \/
     ("1.1" = three_pieces M N (p - 1) /\ within_limit p = false /\
      sample_get_updated_version (identity_entity "http://onto-ns.com/meta" "1.1" "Cat")
      = Raise exceeds_limit_str)).
Proof.
  apply (get_updated_version_twice sample_repr_str sample_int_beyond_ASCII
           (identity_entity "http://onto-ns.com/meta" "1" "Cat")
           (identity_entity "http://onto-ns.com/meta" "1.1" "Cat") "1.1");
    reflexivity.
Defined.

Lemma SOFT5Entity_get_uri_under_base_url_witness :
  startswith (get_uri cat_entity) "http://onto-ns.com/meta" = true.
Proof.
  apply (SOFT5Entity_get_uri_under_base_url sample_AnyHttpUrl_validate
           CONFIG_default cat_document cat_entity).
  - reflexivity.
  - right. exists (Url "http://onto-ns.com/meta"). reflexivity.
Defined.

Lemma SOFT5Entity_without_identity_witness :
  get_uri anonymous_entity = "None/None/None" /\
  get_version anonymous_entity = Raise missing_version /\
  sample_get_updated_version anonymous_entity = Raise missing_version.
Proof.
  apply (SOFT5Entity_without_identity sample_repr_str sample_int_beyond_ASCII
           sample_AnyHttpUrl_validate CONFIG_default
           anonymous_document anonymous_entity); reflexivity.
Defined.

Lemma SOFT5Entity_properties_of_document_witness :
  exists items,
    cat_document !! "properties" = Some (VList items) /\
    length (SOFT5Entity.properties cat_entity) = length items /\
    Forall2 (fun v x =>
               exists d, v = VDict d /\
                 d !! "type" = Some (VStr (SOFT5Property.type_ x)) /\
                 d !! "description" = Some (VStr (SOFT5Property.description x)))
            items (SOFT5Entity.properties cat_entity).
Proof.
  apply (SOFT5Entity_properties_of_document sample_AnyHttpUrl_validate
           CONFIG_default cat_document cat_entity).
  reflexivity.
Defined.

Lemma SOFT5Entity_strings_verbatim_witness :
  cat_document !! "name" = Some (VStr "Cat") /\
  cat_document !! "version" = Some (VStr "0.1") /\
  exists s, cat_document !! "namespace" = Some (VStr s) /\
            sample_AnyHttpUrl_validate s = Some (Url "http://onto-ns.com/meta").
Proof.
  destruct (SOFT5Entity_strings_verbatim sample_AnyHttpUrl_validate CONFIG_default
              cat_document cat_entity) as (Hname & Hversion & _ & Hns);
    [reflexivity|].
  split; [apply Hname; reflexivity|].
  split; [apply Hversion; reflexivity|].
  apply Hns. reflexivity.
Defined.

Lemma SOFT5Entity_requires_properties_witness :
  sample_SOFT5Entity__init__ empty_document = Raise cross_dependent_fields_error \/
  exists exc,
    sample_SOFT5Entity__init__ empty_document
    = Raise (PydanticValidationError exc) /\
    title exc = "SOFT5Entity" /\
    {| loc := [Key "properties"]; err_type := missing |} ∈ line_errors exc.
Proof.
  apply (SOFT5Entity_requires_properties sample_AnyHttpUrl_validate CONFIG_default
           empty_document).
  reflexivity.
Defined.

Lemma SOFT5Entity_ignores_other_keys_witness :
  sample_SOFT5Entity__init__ (<["colour" := VStr "black"]> cat_document)
  = sample_SOFT5Entity__init__ cat_document.
Proof.
  apply (SOFT5Entity_ignores_other_keys sample_AnyHttpUrl_validate CONFIG_default
           cat_document "colour" (VStr "black")).
  apply (bool_decide_unpack _). vm_compute. exact I.
Defined.

Lemma soft_entity_raises_only_cannot_instantiate_witness :
  (exists result, sample_soft_entity true empty_document = Return result) /\
  (forall e, sample_soft_entity false empty_document = Raise e ->
     exists exc7 exc5,
       e = cannot_instantiate sample_str_ValidationError [exc7; exc5] /\
       sample_soft_entity true empty_document = Return (inr [exc7; exc5])).
Proof.
  apply (soft_entity_raises_only_cannot_instantiate sample_AnyHttpUrl_validate
           sample_str_ValidationError CONFIG_default SampleSOFT7.t SampleSOFT7.init).
  intros kwargs. unfold SampleSOFT7.init.
  destruct (kwargs !! "properties") as [[]|];
    (left; eexists; reflexivity) || (right; eexists; reflexivity).
Defined.

Lemma strip_ending_slashes_trims_witness :
  endswith_char "/" (_strip_ending_slashes "http://onto-ns.com/meta//") = false /\
  (exists k, "http://onto-ns.com/meta//"
             = _strip_ending_slashes "http://onto-ns.com/meta//" +:+ repeat_char "/" k) /\
  _strip_ending_slashes (_strip_ending_slashes "http://onto-ns.com/meta//")
  = _strip_ending_slashes "http://onto-ns.com/meta//".
Proof. apply (strip_ending_slashes_trims "http://onto-ns.com/meta//"). Defined.

Lemma get_entity_serves_what_is_contained_witness :
  let contains :=
    Backend__contains__ sample_AnyHttpUrl_validate sample_str_ValidationError
      CONFIG_default SampleSOFT7.t SampleSOFT7.init sample_read
      (Backend__init__ None) in
  let get_entity := get_entity CONFIG_default sample_read (Backend__init__ None) in
  ((exists record, get_entity "0.1" "Cat" = Respond record) <->
   contains (a_model _ (soft5 _ cat_entity)) = Return true) /\
  ((exists detail,
      get_entity "0.1" "Cat" = HTTPException HTTP_404_NOT_FOUND detail) <->
   contains (a_model _ (soft5 _ cat_entity)) = Return false) /\
  (forall e, get_entity "0.1" "Cat" = Failed e <->
             contains (a_model _ (soft5 _ cat_entity)) = Raise e).
Proof.
  apply (get_entity_serves_what_is_contained sample_AnyHttpUrl_validate
           sample_str_ValidationError CONFIG_default SampleSOFT7.t
           SampleSOFT7.init sample_read (Backend__init__ None)
           (soft5 _ cat_entity) "0.1" "Cat"); reflexivity.
Defined.

Lemma create_entity_and_create_entities_witness :
  create_entities SampleSOFT7.t (Backend__init__ None) sample_create
    [soft5 _ cat_entity]
  = Respond [cat_document].
Proof.
  apply (proj1 (proj2 (create_entity_and_create_entities SampleSOFT7.t
           (Backend__init__ None) sample_create (soft5 _ cat_entity)))).
  reflexivity.
Defined.

Lemma get_version_name_exact_witness :
  _get_version_name sample_repr_str "http://onto-ns.com/meta/0.1/Cat"
  = Got ("0.1", "Cat").
Proof.
  apply (proj2 (get_version_name_exact sample_repr_str
                  "http://onto-ns.com/meta/0.1/Cat" "0.1" "Cat")).
  repeat split; reflexivity || discriminate.
Defined.

Lemma get_version_name_of_get_uri_witness :
  exists uri,
    _get_uri sample_str_container cat_document = Got uri /\
    _get_version_name sample_repr_str uri = Got ("0.1", "Cat").
Proof.
  apply (get_version_name_of_get_uri sample_repr_str sample_str_container
           cat_document "0.1" "Cat"); reflexivity || discriminate.
Defined.

Lemma get_version_name_excludes_URI_REGEX_witness :
  re_match URI_REGEX "http://onto-ns.com/meta/0.1/Cat" = None.
Proof.
  apply (get_version_name_excludes_URI_REGEX sample_repr_str
           "http://onto-ns.com/meta/0.1/Cat" "0.1" "Cat").
  reflexivity.
Defined.

Lemma contains_SOFT5_document_witness :
  Backend__contains__ sample_AnyHttpUrl_validate sample_str_ValidationError
    CONFIG_default SampleSOFT7.t SampleSOFT7.init sample_read
    (Backend__init__ None) (a_dict _ cat_document)
  = found_by_read sample_read (Backend__init__ None) (get_uri cat_entity).
Proof.
  apply (contains_SOFT5_document sample_AnyHttpUrl_validate
           sample_str_ValidationError CONFIG_default SampleSOFT7.t
           SampleSOFT7.init sample_read (Backend__init__ None) cat_document
           {| title := "SOFT7Entity";
              line_errors := [{| loc := [Key "properties"];
                                 err_type := model_type |}] |}
           cat_entity); reflexivity.
Defined.

(** The [show] command on the sample console. *)
#[local] Existing Instance sample_Console.

Lemma show_prints_the_options_witness :
  show ServiceSettings_class false ".env" (Some sample_dotenv)
  = {| printed :=
         ["Current configuration in .env:" +:+ newline;
          "[bold]ENTITY_SERVICE_MONGO_PASSWORD[/bold]: ********" +:+ newline
          +:+ "[bold]ENTITY_SERVICE_BASE_URL[/bold]: http://onto-ns.com/meta" +:+ newline
          +:+ "[bold]ENTITY_SERVICE_MONGO_USER[/bold]: "];
       error_printed := [];
       ended := Done () |}.
Proof.
  etransitivity;
    [apply (show_prints_the_options ServiceSettings_class false ".env" sample_dotenv)
    | reflexivity].
  - intros s _. split; reflexivity.
  - split; [reflexivity | repeat constructor].
  - apply (bool_decide_unpack _). vm_compute. exact I.
  - reflexivity.
Defined.

Lemma show_fails_only_in_print_witness :
  error_printed (show ServiceSettings_class true ".env" (Some sample_dotenv)) = [] /\
  exists text,
    printed (show ServiceSettings_class true ".env" (Some sample_dotenv))
    = ["Current configuration in " +:+ ".env" +:+ ":" +:+ newline; text] /\
    ended (show ServiceSettings_class true ".env" (Some sample_dotenv))
    = sample_print text.
Proof.
  assert (Hcase : ASCII_case) by (intros s _; split; reflexivity).
  assert (Hsettings : ASCII_settings ServiceSettings_class)
    by (split; [reflexivity | repeat constructor]).
  exact (show_fails_only_in_print ServiceSettings_class true ".env" sample_dotenv
           Hcase Hsettings).
Defined.

Lemma show_hides_sensitive_values_witness :
  show ServiceSettings_class false ".env" (Some sample_dotenv)
  = show ServiceSettings_class false ".env" (Some other_dotenv).
Proof.
  apply (show_hides_sensitive_values ServiceSettings_class ".env"
           sample_dotenv other_dotenv).
  - apply (bool_decide_unpack _). vm_compute. exact I.
  - constructor; [|repeat constructor].
    split; [reflexivity|]. right. split; [|reflexivity].
    apply (bool_decide_unpack _). vm_compute. exact I.
Defined.

Lemma is_sensitive_by_annotation_witness :
  is_sensitive ServiceSettings_class (lower "mongo_password") = Done true.
Proof.
  apply (is_sensitive_by_annotation ServiceSettings_class "mongo_password"
           (with_args [SecretStr; other_type "None"])).
  - apply (bool_decide_unpack _). vm_compute. exact I.
  - simpl. repeat constructor.
Defined.

